(** * curd: the dual-backend tracking layer

  A shallow embedding of [internal/tracking.go], of the MyAnimeList
  adapter of [internal/myanimelist.go] and of the download path of
  [internal/download.go].

  Go's [int] is the 64-bit signed integer; it is embedded as [Z] (the only
  arithmetic the code below performs on it adds one to a counter, an index
  or a progress, far from where it would wrap).  A Go
  [error] is embedded as [option string]: [None] is [nil], [Some msg] is an
  error whose [Error()] text is [msg].  Calls that leave the process
  (network, console, clock, functions defined in other files) are events
  of a small free monad; everything else is a plain function. *)

From Stdlib Require Import ZArith Lia Ascii String DecimalString.
From Stdlib Require DecimalPos.
From stdpp Require Import base option list strings gmap sorting.

Local Open Scope string_scope.
Local Open Scope Z_scope.

(** ** The pieces of Go's standard library the code relies on *)

Module Go.

Definition error : Type := option string.

Definition int64_min : Z := - 2 ^ 63.
Definition int64_max : Z := 2 ^ 63 - 1.

(** [strconv.Itoa], also the [%d] verb of [fmt]. *)
Definition Itoa (n : Z) : string := NilZero.string_of_int (Z.to_int n).

(** The [%v] verb on a [bool]. *)
Definition FormatBool (b : bool) : string := if b then "true" else "false".

(** [len(s)] on a string: its number of bytes. *)
Definition len (s : string) : Z := Z.of_nat (String.length s).

(** [len(s)] on a slice. *)
Definition lenSlice {A : Type} (l : list A) : Z := Z.of_nat (length l).

(** [strings.Join(elems, sep)]. *)
Fixpoint Join (elems : list string) (sep : string) : string :=
  match elems with
  | [] => ""
  | [e] => e
  | e :: rest => e +:+ sep +:+ Join rest sep
  end.

(** *** [strconv.Atoi]

    An optional sign, then one or more decimal digits, nothing else; the
    value must fit the 64-bit [int]. *)
Definition digit (c : ascii) : option Z :=
  let n := Z.of_nat (nat_of_ascii c) in
  if (48 <=? n) && (n <=? 57) then Some (n - 48) else None.

Fixpoint digits (acc : Z) (s : string) : option Z :=
  match s with
  | EmptyString => Some acc
  | String c rest =>
      match digit c with
      | Some d => digits (acc * 10 + d) rest
      | None => None
      end
  end.

Definition unsigned (s : string) : option Z :=
  match s with
  | EmptyString => None
  | _ => digits 0 s
  end.

Definition Atoi (s : string) : option Z :=
  let signed :=
    match s with
    | String "-" rest => Z.opp <$> unsigned rest
    | String "+" rest => unsigned rest
    | _ => unsigned s
    end in
  n ← signed;
  if (int64_min <=? n) && (n <=? int64_max) then Some n else None.

(** *** [strings.ToLower]

    Go lower-cases an all-ASCII string byte by byte and hands any other
    string to the Unicode tables; the latter are taken as a parameter. *)
Definition isASCII (c : ascii) : bool := (nat_of_ascii c <? 128)%nat.

Definition lowerASCII (c : ascii) : ascii :=
  let n := nat_of_ascii c in
  if ((65 <=? n) && (n <=? 90))%nat then ascii_of_nat (n + 32) else c.

Fixpoint allASCII (s : string) : bool :=
  match s with
  | EmptyString => true
  | String c rest => isASCII c && allASCII rest
  end.

Fixpoint mapBytes (f : ascii -> ascii) (s : string) : string :=
  match s with
  | EmptyString => EmptyString
  | String c rest => String (f c) (mapBytes f rest)
  end.

Definition ToLower (unicodeLower : string -> string) (s : string) : string :=
  if allASCII s then mapBytes lowerASCII s else unicodeLower s.

End Go.

(** ** Programs over external calls *)

Module Prog.
Section Prog.
Context {E : Type -> Type}.

(** A program either returns or performs one external call [e] and goes on
    with the reply. *)
Inductive t (R : Type) : Type :=
| Ret (r : R)
| Vis {X : Type} (e : E X) (k : X -> t R).
Global Arguments Ret {R} r.
Global Arguments Vis {R X} e k.

Fixpoint bind {A B : Type} (p : t A) (f : A -> t B) : t B :=
  match p with
  | Ret a => f a
  | Vis e k => Vis e (fun x => bind (k x) f)
  end.

Definition call {X : Type} (e : E X) : t X := Vis e Ret.

(** One observed call together with the reply the environment gave. *)
Inductive obs : Type :=
| Obs {X : Type} (e : E X) (reply : X).

(** The environment: any state, any deterministic reaction to a call. *)
Definition env (S : Type) : Type := forall X : Type, E X -> S -> X * S.

Fixpoint run {S R : Type} (h : env S) (p : t R) (s : S) : R * list obs :=
  match p with
  | Ret r => (r, [])
  | Vis e k =>
      let xs := h _ e s in
      let rt := run h (k xs.1) xs.2 in
      (rt.1, Obs e xs.1 :: rt.2)
  end.

Definition result {S R : Type} (h : env S) (p : t R) (s : S) : R := (run h p s).1.
Definition trace {S R : Type} (h : env S) (p : t R) (s : S) : list obs := (run h p s).2.

End Prog.
Global Arguments t : clear implicits.
Global Arguments obs : clear implicits.
Global Arguments env : clear implicits.
End Prog.

Declare Scope prog_scope.
Delimit Scope prog_scope with prog.
Notation "x <- y ; z" := (Prog.bind y (fun x => z))
  (at level 20, y at level 100, z at level 200, only parsing) : prog_scope.
Notation "x ;; z" := (Prog.bind x (fun _ => z))
  (at level 100, z at level 200, only parsing, right associativity) : prog_scope.

(** ** Go's [sort.Slice]

    The pattern-defeating quicksort behind [sort.Slice] (Go 1.19 and later,
    [pdqsort_func] and its helpers), over the [Less]/[Swap] pair the function
    builds from the slice and the caller's [less].  Indices are Go [int]s; a
    loop carries the number of iterations it can still make. *)

Module Sort.
Section LessSwap.
Context {A : Type}.
Variable less : A -> A -> bool.

Definition at_ (data : list A) (i : Z) : option A :=
  if i <? 0 then None else data !! Z.to_nat i.

(** [less(i, j)] on the current content of the slice. *)
Definition Less (data : list A) (i j : Z) : bool :=
  match at_ data i, at_ data j with
  | Some x, Some y => less x y
  | _, _ => false
  end.

(** [swap(i, j)]. *)
Definition Swap (data : list A) (i j : Z) : list A :=
  match at_ data i, at_ data j with
  | Some x, Some y => <[Z.to_nat i := y]> (<[Z.to_nat j := x]> data)
  | _, _ => data
  end.

(** [for j := i; j > a && less(j, j-1); j-- { swap(j, j-1) }] *)
Fixpoint insertionShift (fuel : nat) (data : list A) (a j : Z) : list A :=
  match fuel with
  | O => data
  | S fuel =>
      if (j >? a) && Less data j (j - 1)
      then insertionShift fuel (Swap data j (j - 1)) a (j - 1)
      else data
  end.

Fixpoint insertionLoop (fuel : nat) (data : list A) (a b i : Z) : list A :=
  match fuel with
  | O => data
  | S fuel =>
      if i <? b
      then insertionLoop fuel (insertionShift (Z.to_nat (i - a)) data a i) a b (i + 1)
      else data
  end.

Definition insertionSort_func (data : list A) (a b : Z) : list A :=
  insertionLoop (Z.to_nat (b - a)) data a b (a + 1).

Fixpoint siftDownLoop (fuel : nat) (data : list A) (root hi first : Z) : list A :=
  match fuel with
  | O => data
  | S fuel =>
      let child := 2 * root + 1 in
      if child >=? hi then data
      else
        let child :=
          if (child + 1 <? hi) && Less data (first + child) (first + child + 1)
          then child + 1 else child in
        if negb (Less data (first + root) (first + child)) then data
        else siftDownLoop fuel (Swap data (first + root) (first + child)) child hi first
  end.

Definition siftDown_func (data : list A) (lo hi first : Z) : list A :=
  siftDownLoop (Z.to_nat hi) data lo hi first.

Fixpoint heapBuild (fuel : nat) (data : list A) (i hi first : Z) : list A :=
  match fuel with
  | O => data
  | S fuel =>
      if i >=? 0
      then heapBuild fuel (siftDown_func data i hi first) (i - 1) hi first
      else data
  end.

Fixpoint heapPop (fuel : nat) (data : list A) (i lo first : Z) : list A :=
  match fuel with
  | O => data
  | S fuel =>
      if i >=? 0
      then heapPop fuel (siftDown_func (Swap data first (first + i)) lo i first)
                   (i - 1) lo first
      else data
  end.

Definition heapSort_func (data : list A) (a b : Z) : list A :=
  let first := a in
  let lo := 0 in
  let hi := b - a in
  let data := heapBuild (S (Z.to_nat hi)) data ((hi - 1) ÷ 2) hi first in
  heapPop (S (Z.to_nat hi)) data (hi - 1) lo first.

Inductive sortedHint : Type := unknownHint | increasingHint | decreasingHint.

Definition isIncreasing (h : sortedHint) : bool :=
  match h with increasingHint => true | _ => false end.
Definition isDecreasing (h : sortedHint) : bool :=
  match h with decreasingHint => true | _ => false end.

Definition order2_func (data : list A) (a b swaps : Z) : Z * Z * Z :=
  if Less data b a then (b, a, swaps + 1) else (a, b, swaps).

Definition median_func (data : list A) (a b c swaps : Z) : Z * Z :=
  let '(a, b, swaps) := order2_func data a b swaps in
  let '(b, c, swaps) := order2_func data b c swaps in
  let '(a, b, swaps) := order2_func data a b swaps in
  (b, swaps).

Definition medianAdjacent_func (data : list A) (a swaps : Z) : Z * Z :=
  median_func data (a - 1) a (a + 1) swaps.

Definition shortestNinther : Z := 50.
Definition maxSwaps : Z := 4 * 3.

Definition choosePivot_func (data : list A) (a b : Z) : Z * sortedHint :=
  let l := b - a in
  let swaps := 0 in
  let i := a + l ÷ 4 * 1 in
  let j := a + l ÷ 4 * 2 in
  let k := a + l ÷ 4 * 3 in
  let '(j, swaps) :=
    if l >=? 8 then
      let '(i, j, k, swaps) :=
        if l >=? shortestNinther then
          let '(i, swaps) := medianAdjacent_func data i swaps in
          let '(j, swaps) := medianAdjacent_func data j swaps in
          let '(k, swaps) := medianAdjacent_func data k swaps in
          (i, j, k, swaps)
        else (i, j, k, swaps) in
      median_func data i j k swaps
    else (j, swaps) in
  if swaps =? 0 then (j, increasingHint)
  else if swaps =? maxSwaps then (j, decreasingHint)
  else (j, unknownHint).

Fixpoint reverseLoop (fuel : nat) (data : list A) (i j : Z) : list A :=
  match fuel with
  | O => data
  | S fuel => if i <? j then reverseLoop fuel (Swap data i j) (i + 1) (j - 1) else data
  end.

Definition reverseRange_func (data : list A) (a b : Z) : list A :=
  reverseLoop (Z.to_nat (b - a)) data a (b - 1).

(** [for i <= j && less(i, a) { i++ }] *)
Fixpoint skipLess (fuel : nat) (data : list A) (a i j : Z) : Z :=
  match fuel with
  | O => i
  | S fuel => if (i <=? j) && Less data i a then skipLess fuel data a (i + 1) j else i
  end.

(** [for i <= j && !less(j, a) { j-- }] *)
Fixpoint skipNotLess (fuel : nat) (data : list A) (a i j : Z) : Z :=
  match fuel with
  | O => j
  | S fuel => if (i <=? j) && negb (Less data j a) then skipNotLess fuel data a i (j - 1) else j
  end.

Fixpoint partitionLoop (fuel : nat) (data : list A) (a b i j : Z) : list A * Z :=
  match fuel with
  | O => (data, j)
  | S fuel =>
      let i := skipLess (Z.to_nat (b - a)) data a i j in
      let j := skipNotLess (Z.to_nat (b - a)) data a i j in
      if i >? j then (data, j)
      else partitionLoop fuel (Swap data i j) a b (i + 1) (j - 1)
  end.

Definition partition_func (data : list A) (a b pivot : Z) : list A * Z * bool :=
  let data := Swap data a pivot in
  let i := a + 1 in
  let j := b - 1 in
  let i := skipLess (Z.to_nat (b - a)) data a i j in
  let j := skipNotLess (Z.to_nat (b - a)) data a i j in
  if i >? j then (Swap data j a, j, true)
  else
    let data := Swap data i j in
    let '(data, j) := partitionLoop (Z.to_nat (b - a)) data a b (i + 1) (j - 1) in
    (Swap data j a, j, false).

(** [for i <= j && !less(a, i) { i++ }] *)
Fixpoint skipNotGreater (fuel : nat) (data : list A) (a i j : Z) : Z :=
  match fuel with
  | O => i
  | S fuel =>
      if (i <=? j) && negb (Less data a i) then skipNotGreater fuel data a (i + 1) j else i
  end.

(** [for i <= j && less(a, j) { j-- }] *)
Fixpoint skipGreater (fuel : nat) (data : list A) (a i j : Z) : Z :=
  match fuel with
  | O => j
  | S fuel => if (i <=? j) && Less data a j then skipGreater fuel data a i (j - 1) else j
  end.

Fixpoint partitionEqualLoop (fuel : nat) (data : list A) (a b i j : Z) : list A * Z :=
  match fuel with
  | O => (data, i)
  | S fuel =>
      let i := skipNotGreater (Z.to_nat (b - a)) data a i j in
      let j := skipGreater (Z.to_nat (b - a)) data a i j in
      if i >? j then (data, i)
      else partitionEqualLoop fuel (Swap data i j) a b (i + 1) (j - 1)
  end.

Definition partitionEqual_func (data : list A) (a b pivot : Z) : list A * Z :=
  let data := Swap data a pivot in
  partitionEqualLoop (S (Z.to_nat (b - a))) data a b (a + 1) (b - 1).

(** [for i < b && !less(i, i-1) { i++ }] *)
Fixpoint skipOrdered (fuel : nat) (data : list A) (b i : Z) : Z :=
  match fuel with
  | O => i
  | S fuel => if (i <? b) && negb (Less data i (i - 1)) then skipOrdered fuel data b (i + 1) else i
  end.

(** [for j := i - 1; j >= 1; j-- { if !less(j, j-1) { break }; swap(j, j-1) }] *)
Fixpoint shiftLeft (fuel : nat) (data : list A) (j : Z) : list A :=
  match fuel with
  | O => data
  | S fuel =>
      if j >=? 1 then
        if negb (Less data j (j - 1)) then data
        else shiftLeft fuel (Swap data j (j - 1)) (j - 1)
      else data
  end.

(** [for j := i + 1; j < b; j++ { if !less(j, j-1) { break }; swap(j, j-1) }] *)
Fixpoint shiftRight (fuel : nat) (data : list A) (b j : Z) : list A :=
  match fuel with
  | O => data
  | S fuel =>
      if j <? b then
        if negb (Less data j (j - 1)) then data
        else shiftRight fuel (Swap data j (j - 1)) b (j + 1)
      else data
  end.

Definition maxSteps : nat := 5.
Definition shortestShifting : Z := 50.

Fixpoint partialInsertionLoop (steps : nat) (data : list A) (a b i : Z) : list A * bool :=
  match steps with
  | O => (data, false)
  | S steps =>
      let i := skipOrdered (Z.to_nat (b - a)) data b i in
      if i =? b then (data, true)
      else if b - a <? shortestShifting then (data, false)
      else
        let data := Swap data i (i - 1) in
        let data :=
          if i - a >=? 2 then shiftLeft (Z.to_nat i) data (i - 1) else data in
        let data :=
          if b - i >=? 2 then shiftRight (Z.to_nat (b - i)) data b (i + 1) else data in
        partialInsertionLoop steps data a b i
  end.

Definition partialInsertionSort_func (data : list A) (a b : Z) : list A * bool :=
  partialInsertionLoop maxSteps data a b (a + 1).

(** [bits.Len(uint(x))] for a non-negative [x]. *)
Definition bitsLen (x : Z) : Z := if x <=? 0 then 0 else Z.log2 x + 1.

Definition uint64 (x : Z) : Z := x mod 2 ^ 64.

(** [xorshift.Next]. *)
Definition xorshiftNext (r : Z) : Z :=
  let r := Z.lxor r (uint64 (Z.shiftl r 13)) in
  let r := Z.lxor r (Z.shiftr r 7) in
  let r := Z.lxor r (uint64 (Z.shiftl r 17)) in
  r.

Definition nextPowerOfTwo (length : Z) : Z := Z.shiftl 1 (bitsLen length).

Fixpoint breakPatternsLoop (n : nat) (data : list A) (a length idx modulus random i : Z)
    : list A :=
  match n with
  | O => data
  | S n =>
      let random := xorshiftNext random in
      let other := Z.land random (modulus - 1) in
      let other := if other >=? length then other - length else other in
      breakPatternsLoop n (Swap data (idx - 1 + i) (a + other))
                        a length idx modulus random (i + 1)
  end.

Definition breakPatterns_func (data : list A) (a b : Z) : list A :=
  let length := b - a in
  if length >=? 8 then
    let random := length in
    let modulus := nextPowerOfTwo length in
    let idx := a + (length ÷ 4) * 2 - 1 in
    breakPatternsLoop 3 data a length idx modulus random 0
  else data.

Definition maxInsertion : Z := 12.

Fixpoint pdqsort_func (fuel : nat) (data : list A) (a b limit : Z)
    (wasBalanced wasPartitioned : bool) : list A :=
  match fuel with
  | O => data
  | S fuel =>
      let length := b - a in
      if length <=? maxInsertion then insertionSort_func data a b
      else if limit =? 0 then heapSort_func data a b
      else
        let '(data, limit) :=
          if negb wasBalanced then (breakPatterns_func data a b, limit - 1)
          else (data, limit) in
        let '(pivot, hint) := choosePivot_func data a b in
        let '(data, pivot, hint) :=
          if isDecreasing hint
          then (reverseRange_func data a b, (b - 1) - (pivot - a), increasingHint)
          else (data, pivot, hint) in
        let '(data, done) :=
          if wasBalanced && wasPartitioned && isIncreasing hint
          then partialInsertionSort_func data a b
          else (data, false) in
        if done then data
        else if (a >? 0) && negb (Less data (a - 1) pivot) then
          let '(data, mid) := partitionEqual_func data a b pivot in
          pdqsort_func fuel data mid b limit wasBalanced wasPartitioned
        else
          let '(data, mid, alreadyPartitioned) := partition_func data a b pivot in
          let wasPartitioned := alreadyPartitioned in
          let leftLen := mid - a in
          let rightLen := b - mid in
          let balanceThreshold := length ÷ 8 in
          if leftLen <? rightLen then
            let wasBalanced := leftLen >=? balanceThreshold in
            let data := pdqsort_func fuel data a mid limit true true in
            pdqsort_func fuel data (mid + 1) b limit wasBalanced wasPartitioned
          else
            let wasBalanced := rightLen >=? balanceThreshold in
            let data := pdqsort_func fuel data (mid + 1) b limit true true in
            pdqsort_func fuel data a mid limit wasBalanced wasPartitioned
  end.

(** [sort.Slice(x, less)]; every round of the loop above leaves a strictly
    shorter range, so one round per element (and one more) is enough. *)
Definition Slice (x : list A) : list A :=
  let length := Go.lenSlice x in
  let limit := bitsLen length in
  pdqsort_func (S (Datatypes.length x)) x 0 length limit true true.

End LessSwap.
End Sort.

(** ** Shared declarations

    [CurdConfig], [Entry], [AnimeList] and [SelectionOption] are declared in
    files of the repository other than the ones embedded here. *)

(** Modelled from the spec: the configuration surface the core consumes, a
    tracking-service name and a dual-tracking flag (section 6), plus the
    [RofiSelection] switch [RateAnimeMAL] reads. *)
Record CurdConfig : Type := {
  TrackingService : string;
  DualTracking : bool;
  RofiSelection : bool
}.

(** Modelled from the spec: the media part of a list entry (section 3);
    [tracking.go] reads [entry.Media.ID]. *)
Record Media : Type := {
  ID : Z;
  Title : string;
  Episodes : Z
}.

(** Modelled from the spec: a list entry (section 3). *)
Record Entry : Type := {
  EntryMedia : Media;
  Progress : Z;
  Score : Z;
  Status : string;
  CoverImage : string
}.

(** Modelled from the spec: the category-partitioned list (section 3); the six
    fields are the ones [FindAnimeByIDUnified] enumerates. *)
Record AnimeList : Type := {
  Watching : list Entry;
  Completed : list Entry;
  Paused : list Entry;
  Dropped : list Entry;
  Planning : list Entry;
  Rewatching : list Entry
}.

(** Modelled from the spec: a search result, an identity with its title
    (section 4.1); [SearchAnimeMAL] fills [Key] and [Label]. *)
Record SelectionOption : Type := {
  Key : string;
  Label : string
}.

(** ** [internal/tracking.go] *)

Module Tracking.
Import Go.

(** The two tracking services. *)
Inductive Backend : Type := MAL | AniList.

(** The write operations of [TrackingServiceInterface], with their
    arguments. *)
Inductive Method : Type :=
| UpdateProgress (token : string) (mediaID progress : Z)
| UpdateStatus (token : string) (mediaID : Z) (status : string)
| Rate (token : string) (mediaID : Z).

(** What [tracking.go] calls outside itself: the adapter functions of the two
    services, the two cross-reference lookups, and the log and console
    sinks. *)
Inductive Callee : Type -> Type :=
| Adapter (b : Backend) (m : Method) : Callee error
| LookupMalID (id : Z) : Callee (Z * error)
| LookupAnilistID (malID : Z) (token : string) : Callee (Z * error)
| LogLine (msg : string) : Callee unit
| OutLine (msg : string) : Callee unit.

Abbreviation prog := (Prog.t Callee).
Local Open Scope prog_scope.

Definition UpdateMALAnimeProgress (token : string) (mediaID progress : Z) : prog error :=
  Prog.call (Adapter MAL (UpdateProgress token mediaID progress)).
Definition UpdateAnimeProgress (token : string) (mediaID progress : Z) : prog error :=
  Prog.call (Adapter AniList (UpdateProgress token mediaID progress)).
Definition UpdateMALAnimeStatus (token : string) (mediaID : Z) (status : string) : prog error :=
  Prog.call (Adapter MAL (UpdateStatus token mediaID status)).
Definition UpdateAnimeStatus (token : string) (mediaID : Z) (status : string) : prog error :=
  Prog.call (Adapter AniList (UpdateStatus token mediaID status)).
Definition RateAnimeMAL (token : string) (mediaID : Z) : prog error :=
  Prog.call (Adapter MAL (Rate token mediaID)).
Definition RateAnime (token : string) (mediaID : Z) : prog error :=
  Prog.call (Adapter AniList (Rate token mediaID)).
Definition GetAnimeMalID (id : Z) : prog (Z * error) :=
  Prog.call (LookupMalID id).
Definition ConvertMALIDToAnilist (malID : Z) (token : string) : prog (Z * error) :=
  Prog.call (LookupAnilistID malID token).
Definition Log (msg : string) : prog unit := Prog.call (LogLine msg).
Definition CurdOut (msg : string) : prog unit := Prog.call (OutLine msg).

Section Tracking.
(** The Unicode branch of [strings.ToLower]. *)
Variable unicodeLower : string -> string.

Definition GetTrackingService (config : CurdConfig) : string :=
  let service := ToLower unicodeLower (TrackingService config) in
  if (service =? "mal")%string || (service =? "myanimelist")%string then "mal"
  else "anilist".

Definition UpdateAnimeProgressUnified (token : string) (mediaID progress : Z)
    (config : CurdConfig) : prog error :=
  let service := GetTrackingService config in
  primaryErr <- (if (service =? "mal")%string
                 then UpdateMALAnimeProgress token mediaID progress
                 else UpdateAnimeProgress token mediaID progress);
  if negb (DualTracking config) then Prog.Ret primaryErr
  else Prog.Ret primaryErr.

Definition UpdateAnimeProgressDual (anilistToken malToken : string)
    (anilistID malID progress : Z) (config : CurdConfig) : prog error :=
  Log ("UpdateAnimeProgressDual called: anilistID=" +:+ Itoa anilistID +:+
       ", malID=" +:+ Itoa malID +:+ ", progress=" +:+ Itoa progress);;
  Log ("Token status: anilistToken length=" +:+ Itoa (len anilistToken) +:+
       ", malToken length=" +:+ Itoa (len malToken));;
  if negb (DualTracking config) then
    Log "Dual tracking is disabled, using single service";;
    let service := GetTrackingService config in
    if (service =? "mal")%string
    then UpdateMALAnimeProgress malToken malID progress
    else UpdateAnimeProgress anilistToken anilistID progress
  else
    Log "Dual tracking is enabled, updating both services";;
    let errors : list string := [] in
    errors <-
      (if negb (malToken =? "")%string && (malID >? 0) then
         Log ("Updating MAL: ID=" +:+ Itoa malID +:+ ", progress=" +:+ Itoa progress);;
         err <- UpdateMALAnimeProgress malToken malID progress;
         match err with
         | Some e =>
             Log ("Failed to update progress on MAL: " +:+ e);;
             Prog.Ret (app errors ["MAL: " +:+ e])
         | None =>
             Log "Successfully updated progress on MAL";;
             CurdOut ("✓ MAL updated: Episode " +:+ Itoa progress);;
             Prog.Ret errors
         end
       else
         Log ("Skipping MAL update: token empty=" +:+
              FormatBool (malToken =? "")%string +:+ ", ID=" +:+ Itoa malID);;
         Prog.Ret errors);
    errors <-
      (if negb (anilistToken =? "")%string && (anilistID >? 0) then
         Log ("Updating AniList: ID=" +:+ Itoa anilistID +:+ ", progress=" +:+ Itoa progress);;
         err <- UpdateAnimeProgress anilistToken anilistID progress;
         match err with
         | Some e =>
             Log ("Failed to update progress on AniList: " +:+ e);;
             Prog.Ret (app errors ["AniList: " +:+ e])
         | None =>
             Log "Successfully updated progress on AniList";;
             CurdOut ("✓ AniList updated: Episode " +:+ Itoa progress);;
             Prog.Ret errors
         end
       else
         Log ("Skipping AniList update: token empty=" +:+
              FormatBool (anilistToken =? "")%string +:+ ", ID=" +:+ Itoa anilistID);;
         Prog.Ret errors);
    if lenSlice errors >? 0
    then Prog.Ret (Some ("dual tracking errors: " +:+ Join errors "; "))
    else Prog.Ret None.

Definition UpdateAnimeStatusUnified (token : string) (mediaID : Z) (status : string)
    (config : CurdConfig) : prog error :=
  let service := GetTrackingService config in
  if (service =? "mal")%string
  then UpdateMALAnimeStatus token mediaID status
  else UpdateAnimeStatus token mediaID status.

Definition UpdateAnimeStatusDual (anilistToken malToken : string)
    (anilistID malID : Z) (status : string) (config : CurdConfig) : prog error :=
  if negb (DualTracking config) then
    let service := GetTrackingService config in
    if (service =? "mal")%string
    then UpdateMALAnimeStatus malToken malID status
    else UpdateAnimeStatus anilistToken anilistID status
  else
    let errors : list string := [] in
    errors <-
      (if negb (malToken =? "")%string && (malID >? 0) then
         err <- UpdateMALAnimeStatus malToken malID status;
         match err with
         | Some e =>
             Log ("Failed to update status on MAL: " +:+ e);;
             Prog.Ret (app errors ["MAL: " +:+ e])
         | None =>
             Log "Successfully updated status on MAL";;
             Prog.Ret errors
         end
       else Prog.Ret errors);
    errors <-
      (if negb (anilistToken =? "")%string && (anilistID >? 0) then
         err <- UpdateAnimeStatus anilistToken anilistID status;
         match err with
         | Some e =>
             Log ("Failed to update status on AniList: " +:+ e);;
             Prog.Ret (app errors ["AniList: " +:+ e])
         | None =>
             Log "Successfully updated status on AniList";;
             Prog.Ret errors
         end
       else Prog.Ret errors);
    if lenSlice errors >? 0
    then Prog.Ret (Some ("dual tracking errors: " +:+ Join errors "; "))
    else Prog.Ret None.

Definition RateAnimeUnified (token : string) (mediaID : Z) (config : CurdConfig) : prog error :=
  let service := GetTrackingService config in
  if (service =? "mal")%string
  then RateAnimeMAL token mediaID
  else RateAnime token mediaID.

Definition RateAnimeDual (anilistToken malToken : string)
    (anilistID malID : Z) (config : CurdConfig) : prog error :=
  if negb (DualTracking config) then
    let service := GetTrackingService config in
    if (service =? "mal")%string
    then RateAnimeMAL malToken malID
    else RateAnime anilistToken anilistID
  else
    let errors : list string := [] in
    errors <-
      (if negb (malToken =? "")%string && (malID >? 0) then
         err <- RateAnimeMAL malToken malID;
         match err with
         | Some e =>
             Log ("Failed to rate anime on MAL: " +:+ e);;
             Prog.Ret (app errors ["MAL: " +:+ e])
         | None =>
             Log "Successfully rated anime on MAL";;
             Prog.Ret errors
         end
       else Prog.Ret errors);
    errors <-
      (if negb (anilistToken =? "")%string && (anilistID >? 0) then
         err <- RateAnime anilistToken anilistID;
         match err with
         | Some e =>
             Log ("Failed to rate anime on AniList: " +:+ e);;
             Prog.Ret (app errors ["AniList: " +:+ e])
         | None =>
             Log "Successfully rated anime on AniList";;
             Prog.Ret errors
         end
       else Prog.Ret errors);
    if lenSlice errors >? 0
    then Prog.Ret (Some ("dual tracking errors: " +:+ Join errors "; "))
    else Prog.Ret None.

End Tracking.

Definition ConvertIDIfNeeded (id : Z) (fromService toService : string) : prog (Z * error) :=
  if (fromService =? toService)%string then Prog.Ret (id, None)
  else if (fromService =? "anilist")%string &&
          ((toService =? "mal")%string || (toService =? "myanimelist")%string)
  then GetAnimeMalID id
  else if ((fromService =? "mal")%string || (fromService =? "myanimelist")%string) &&
          (toService =? "anilist")%string
  then ConvertMALIDToAnilist id ""
  else Prog.Ret (id, Some ("unsupported service conversion: " +:+ fromService +:+
                           " to " +:+ toService)).

Fixpoint scanCategory (category : list Entry) (id : Z) : option Entry :=
  match category with
  | [] => None
  | entry :: rest =>
      if ID (EntryMedia entry) =? id then Some entry else scanCategory rest id
  end.

Fixpoint scanCategories (categories : list (list Entry)) (id : Z) : option Entry :=
  match categories with
  | [] => None
  | category :: rest =>
      match scanCategory category id with
      | Some entry => Some entry
      | None => scanCategories rest id
      end
  end.

Definition FindAnimeByIDUnified (list : AnimeList) (idStr : string) : option Entry * error :=
  match Atoi idStr with
  | None => (None, Some ("invalid ID format: " +:+ idStr))
  | Some id =>
      let categories :=
        [ Watching list; Completed list; Paused list;
          Dropped list; Planning list; Rewatching list ] in
      match scanCategories categories id with
      | Some entry => (Some entry, None)
      | None => (None, Some ("anime with ID " +:+ Itoa id +:+ " not found"))
      end
  end.

Definition GetServiceName (unicodeLower : string -> string) (config : CurdConfig) : string :=
  let service := GetTrackingService unicodeLower config in
  if (service =? "mal")%string then "MyAnimeList" else "AniList".

End Tracking.

(** ** [internal/myanimelist.go] *)

Module MyAnimeList.
Import Go.

Definition malAPIURL : string := "https://api.myanimelist.net/v2".

(** [url.Values]: form fields, each with its list of values. *)
Abbreviation Values := (gmap string (list string)).

(** [data.Set(key, value)] replaces whatever the key held. *)
Definition ValuesSet (key value : string) (data : Values) : Values :=
  <[key := [value]]> data.

(** [data.Get(key)]: the first value of the key, the empty string without
    one. *)
Definition ValuesGet (key : string) (data : Values) : string :=
  match data !! key with
  | Some (v :: _) => v
  | _ => ""
  end.

(** An [http.Request] as far as the adapter fills it.  The Go code sends
    [data.Encode()], the form-urlencoded serialisation of the values; the
    record keeps the values themselves. *)
Record Request : Type := {
  Method : string;
  URL : string;
  Header : gmap string string;
  Body : option Values
}.

(** What the adapter reads of an [http.Response]: the status code and the
    outcome of [io.ReadAll(resp.Body)]. *)
Record Response : Type := {
  StatusCode : Z;
  ReadAll : string * error
}.

(** [http.NewRequest]: the methods used below are valid and the URLs are
    well formed, so its error result is [nil]. *)
Definition NewRequest (method url : string) (body : option Values) : Request * error :=
  ({| Method := method; URL := url; Header := ∅; Body := body |}, None).

(** [req.Header.Set(key, value)]. *)
Definition HeaderSet (key value : string) (req : Request) : Request :=
  {| Method := Method req; URL := URL req;
     Header := <[key := value]> (Header req); Body := Body req |}.

Definition StatusOK : Z := 200.

(** Everything the adapter reaches outside itself. *)
Inductive Sys : Type -> Type :=
| GlobalConfig : Sys (option CurdConfig)
| RofiInput (message : string) : Sys (string * error)
| PrintLine (line : string) : Sys unit
| ScanInt : Sys (option Z)
| NowFormat (layout : string) : Sys string
| ClientDo (req : Request) : Sys (Response * error)
| OutLine (msg : string) : Sys unit.

Abbreviation prog := (Prog.t Sys).
Local Open Scope prog_scope.

Definition GetGlobalConfig : prog (option CurdConfig) := Prog.call GlobalConfig.
Definition GetUserInputFromRofi (message : string) : prog (string * error) :=
  Prog.call (RofiInput message).
(** [fmt.Println]. *)
Definition Println (line : string) : prog unit := Prog.call (PrintLine line).
(** [fmt.Scanln(&score)]: [Some n] when an integer was scanned into the
    variable, [None] when the variable was left as it was. *)
Definition Scanln : prog (option Z) := Prog.call ScanInt.
(** [time.Now().Format(layout)]. *)
Definition Now_Format (layout : string) : prog string := Prog.call (NowFormat layout).
(** [client.Do(req)] on a fresh [http.Client]. *)
Definition client_Do (req : Request) : prog (Response * error) := Prog.call (ClientDo req).
Definition CurdOut (msg : string) : prog unit := Prog.call (OutLine msg).

(** *** List entries as MyAnimeList reports them *)

Record MALNode : Type := {
  Node_ID : Z;
  Node_Title : string;
  Node_MainPicture_Large : string;
  Node_MainPicture_Medium : string;
  Node_NumEpisodes : Z
}.

Record MALListStatus : Type := {
  ListStatus_Status : string;
  ListStatus_Score : Z;
  ListStatus_NumEpisodesWatched : Z;
  ListStatus_IsRewatching : bool
}.

Record MALAnimeListEntry : Type := {
  Node : MALNode;
  ListStatus : MALListStatus
}.

(** The AniList-shaped entry [convertMALToAnilistFormat] builds (in Go a
    nested [map[string]interface{}]); [score] is [float64] of an [int]. *)
Record AnilistMedia : Type := {
  media_id : Z;
  media_episodes : Z;
  media_duration : Z;
  media_title_romaji : string;
  media_title_english : string;
  media_title_native : string;
  media_coverImage_large : string
}.

Record AnilistEntry : Type := {
  media : AnilistMedia;
  status : string;
  score : Z;
  progress : Z
}.

Definition convertMALEntry (malEntry : MALAnimeListEntry) : AnilistEntry :=
  let status := "CURRENT" in
  let status :=
    let s := ListStatus_Status (ListStatus malEntry) in
    if (s =? "watching")%string then "CURRENT"
    else if (s =? "completed")%string then "COMPLETED"
    else if (s =? "on_hold")%string then "PAUSED"
    else if (s =? "dropped")%string then "DROPPED"
    else if (s =? "plan_to_watch")%string then "PLANNING"
    else status in
  let status :=
    if ListStatus_IsRewatching (ListStatus malEntry) then "REPEATING" else status in
  {| media := {| media_id := Node_ID (Node malEntry);
                 media_episodes := Node_NumEpisodes (Node malEntry);
                 media_duration := 24;
                 media_title_romaji := Node_Title (Node malEntry);
                 media_title_english := Node_Title (Node malEntry);
                 media_title_native := Node_Title (Node malEntry);
                 media_coverImage_large := Node_MainPicture_Large (Node malEntry) |};
     status := status;
     score := ListStatus_Score (ListStatus malEntry);
     progress := ListStatus_NumEpisodesWatched (ListStatus malEntry) |}.

Definition convertMALToAnilistFormat (malEntries : list MALAnimeListEntry) : list AnilistEntry :=
  fold_left (fun entries malEntry => app entries [convertMALEntry malEntry]) malEntries [].

(** *** Search *)

(** One candidate of the search response ([searchResult.Data[i].Node]). *)
Record SearchNode : Type := {
  SearchNode_ID : Z;
  SearchNode_Title : string
}.

Record scoredAnime : Type := {
  scored_id : string;
  scored_title : string;
  scored_score : Z
}.

Section Search.
(** [levenshtein] is defined in another file of the package. *)
Variable levenshtein : string -> string -> Z.
(** [url.QueryEscape]. *)
Variable QueryEscape : string -> string.
(** [json.Unmarshal(body, &searchResult)], read at [searchResult.Data]. *)
Variable UnmarshalSearch : string -> list SearchNode * error.
(** [sort.Slice]. *)
Variable sort_Slice : forall A : Type, (A -> A -> bool) -> list A -> list A.

(** The tail of [SearchAnimeMAL]: score, sort, convert. *)
Definition rankResults (query : string) (data : list SearchNode) : list SelectionOption :=
  let results : list SelectionOption := [] in
  let scored : list scoredAnime := [] in
  let scored :=
    fold_left
      (fun scored anime =>
         let idStr := Itoa (SearchNode_ID anime) in
         let title := SearchNode_Title anime in
         let score := levenshtein title query in
         app scored [ {| scored_id := idStr; scored_title := title; scored_score := score |} ])
      data scored in
  let scored :=
    sort_Slice scoredAnime (fun si sj => scored_score si <? scored_score sj) scored in
  fold_left
    (fun results s => app results [ {| Key := scored_id s; Label := scored_title s |} ])
    scored results.

Definition SearchAnimeMAL (query token : string) : prog (list SelectionOption * error) :=
  let apiURL := malAPIURL +:+ "/anime?q=" +:+ QueryEscape query +:+ "&limit=10" in
  match NewRequest "GET" apiURL None with
  | (_, Some err) => Prog.Ret ([], Some ("failed to create request: " +:+ err))
  | (req, None) =>
      let req := HeaderSet "Authorization" ("Bearer " +:+ token) req in
      r <- client_Do req;
      match r with
      | (_, Some err) => Prog.Ret ([], Some ("failed to make request: " +:+ err))
      | (resp, None) =>
          if negb (StatusCode resp =? StatusOK) then
            let body := (ReadAll resp).1 in
            Prog.Ret ([], Some ("failed to search for anime. Status Code: " +:+
                                Itoa (StatusCode resp) +:+ ", Response: " +:+ body))
          else
            match ReadAll resp with
            | (_, Some err) =>
                Prog.Ret ([], Some ("failed to read response body: " +:+ err))
            | (body, None) =>
                match UnmarshalSearch body with
                | (_, Some err) =>
                    Prog.Ret ([], Some ("failed to unmarshal response: " +:+ err))
                | (data, None) => Prog.Ret (rankResults query data, None)
                end
            end
      end
  end.

End Search.

(** *** Writes *)

Definition UpdateMALAnimeProgress (token : string) (mediaID progress : Z) : prog error :=
  let apiURL := malAPIURL +:+ "/anime/" +:+ Itoa mediaID +:+ "/my_list_status" in
  let data : Values := {[ "num_watched_episodes" := [Itoa progress] ]} in
  match NewRequest "PATCH" apiURL (Some data) with
  | (_, Some err) => Prog.Ret (Some ("failed to create request: " +:+ err))
  | (req, None) =>
      let req := HeaderSet "Authorization" ("Bearer " +:+ token) req in
      let req := HeaderSet "Content-Type" "application/x-www-form-urlencoded" req in
      r <- client_Do req;
      match r with
      | (_, Some err) => Prog.Ret (Some ("failed to make request: " +:+ err))
      | (resp, None) =>
          if negb (StatusCode resp =? StatusOK) then
            let body := (ReadAll resp).1 in
            Prog.Ret (Some ("failed to update progress. Status Code: " +:+
                            Itoa (StatusCode resp) +:+ ", Response: " +:+ body))
          else
            CurdOut ("MyAnimeList progress updated! Latest watched episode: " +:+
                     Itoa progress);;
            Prog.Ret None
      end
  end.

(** The display names [UpdateMALAnimeStatus] prints; a status outside the
    table prints the empty string. *)
Definition statusMap : gmap string string :=
  {[ "CURRENT" := "Currently Watching";
     "COMPLETED" := "Completed";
     "PAUSED" := "On Hold";
     "DROPPED" := "Dropped";
     "PLANNING" := "Plan to Watch";
     "REPEATING" := "Rewatching" ]}.

Definition UpdateMALAnimeStatus (token : string) (mediaID : Z) (status : string) : prog error :=
  let apiURL := malAPIURL +:+ "/anime/" +:+ Itoa mediaID +:+ "/my_list_status" in
  let malStatus :=
    if (status =? "CURRENT")%string then "watching"
    else if (status =? "COMPLETED")%string then "completed"
    else if (status =? "PAUSED")%string then "on_hold"
    else if (status =? "DROPPED")%string then "dropped"
    else if (status =? "PLANNING")%string then "plan_to_watch"
    else if (status =? "REPEATING")%string then "watching"
    else "" in
  let data : Values := {[ "status" := [malStatus] ]} in
  data <- (if (status =? "COMPLETED")%string then
             currentDate <- Now_Format "2006-01-02";
             Prog.Ret (ValuesSet "finish_date" currentDate data)
           else Prog.Ret data);
  let data :=
    if (status =? "REPEATING")%string then ValuesSet "is_rewatching" "true" data
    else data in
  match NewRequest "PATCH" apiURL (Some data) with
  | (_, Some err) => Prog.Ret (Some ("failed to create request: " +:+ err))
  | (req, None) =>
      let req := HeaderSet "Authorization" ("Bearer " +:+ token) req in
      let req := HeaderSet "Content-Type" "application/x-www-form-urlencoded" req in
      r <- client_Do req;
      match r with
      | (_, Some err) => Prog.Ret (Some ("failed to make request: " +:+ err))
      | (resp, None) =>
          if negb (StatusCode resp =? StatusOK) then
            let body := (ReadAll resp).1 in
            Prog.Ret (Some ("failed to update status. Status Code: " +:+
                            Itoa (StatusCode resp) +:+ ", Response: " +:+ body))
          else
            CurdOut ("MyAnimeList status updated to: " +:+
                     default "" (statusMap !! status));;
            Prog.Ret None
      end
  end.

Section Rate.
(** The text of the [*strconv.NumError] that [strconv.Atoi] returns for an
    input it rejects. *)
Variable AtoiError : string -> string.

Definition RateAnimeMAL (token : string) (mediaID : Z) : prog error :=
  let score := 0 in
  userCurdConfig <- GetGlobalConfig;
  match userCurdConfig with
  | None => Prog.Ret (Some "failed to get curd config")
  | Some userCurdConfig =>
      entered <-
        (if RofiSelection userCurdConfig then
           r <- GetUserInputFromRofi "Enter a score for the anime (0-10)";
           match r with
           | (_, Some err) => Prog.Ret (inr err)
           | (userInput, None) =>
               match Atoi userInput with
               | None => Prog.Ret (inr (AtoiError userInput))
               | Some score => Prog.Ret (inl score)
               end
           end
         else
           Println "Rate this anime (0-10): ";;
           scanned <- Scanln;
           Prog.Ret (inl (default score scanned)));
      match entered with
      | inr err => Prog.Ret (Some err)
      | inl score =>
          if (score <? 0) || (score >? 10) then
            Prog.Ret (Some "score must be between 0 and 10")
          else
            let apiURL := malAPIURL +:+ "/anime/" +:+ Itoa mediaID +:+ "/my_list_status" in
            let data : Values := {[ "score" := [Itoa score] ]} in
            match NewRequest "PATCH" apiURL (Some data) with
            | (_, Some err) => Prog.Ret (Some ("failed to create request: " +:+ err))
            | (req, None) =>
                let req := HeaderSet "Authorization" ("Bearer " +:+ token) req in
                let req := HeaderSet "Content-Type" "application/x-www-form-urlencoded" req in
                r <- client_Do req;
                match r with
                | (_, Some err) => Prog.Ret (Some ("failed to make request: " +:+ err))
                | (resp, None) =>
                    if negb (StatusCode resp =? StatusOK) then
                      let body := (ReadAll resp).1 in
                      Prog.Ret (Some ("failed to rate anime. Status Code: " +:+
                                      Itoa (StatusCode resp) +:+ ", Response: " +:+ body))
                    else
                      CurdOut ("Successfully rated anime (mediaId: " +:+ Itoa mediaID +:+
                               ") with score: " +:+ Itoa score);;
                      Prog.Ret None
                end
            end
      end
  end.

End Rate.

End MyAnimeList.

(** ** Insertion sort, read as a function on lists *)

Module SortObs.

Section Insertion.
Context {A : Type}.
Variable less : A -> A -> bool.

(** Insertion into a sorted prefix kept in reverse, last element first:
    the element moves past every element it is less than. *)
Fixpoint insertRev (x : A) (rp : list A) : list A :=
  match rp with
  | [] => [x]
  | y :: rp' => if less x y then y :: insertRev x rp' else x :: rp
  end.

Definition insertAll (l rp : list A) : list A :=
  fold_left (fun rp x => insertRev x rp) l rp.

End Insertion.

Section ByKey.
Context {A : Type}.
Variable key : A -> Z.

Definition keyLess (x y : A) : bool := key x <? key y.
Definition ascending : A -> A -> Prop := fun x y => key x <= key y.
Definition descending : A -> A -> Prop := fun x y => key y <= key x.

End ByKey.

Definition byFirst (x y : Z * string) : bool := x.1 <? y.1.

End SortObs.

(** ** Reading a run of [tracking.go] *)

Module TrackingObs.
Import Go Tracking.

(** One adapter invocation: the service, the operation with its arguments,
    and the error it came back with. *)
Definition invocation : Type := Backend * Method * error.

Definition invocationOf (o : Prog.obs Callee) : option invocation :=
  match o with
  | Prog.Obs e reply =>
      match e in Callee X return X -> option invocation with
      | Adapter b m => fun r => Some (b, m, r)
      | _ => fun _ => None
      end reply
  end.

Definition invocations (tr : list (Prog.obs Callee)) : list invocation :=
  omap invocationOf tr.

Definition BackendName (b : Backend) : string :=
  match b with MAL => "MAL" | AniList => "AniList" end.

Definition other (b : Backend) : Backend :=
  match b with MAL => AniList | AniList => MAL end.

Definition sameBackend (a b : Backend) : bool :=
  match a, b with MAL, MAL | AniList, AniList => true | _, _ => false end.

(** The value a caller holds for service [b]. *)
Definition pick {A : Type} (b : Backend) (mal anilist : A) : A :=
  match b with MAL => mal | AniList => anilist end.

(** A service is left out of a dual write when its token is empty or its
    media ID is not positive. *)
Definition skipped (token : string) (mediaID : Z) : bool :=
  (token =? "")%string || (mediaID <=? 0).

(** The calls a dual write owes, in the order it makes them. *)
Definition owed (malToken : string) (malID : Z) (onMAL : Method)
    (anilistToken : string) (anilistID : Z) (onAnilist : Method) : list (Backend * Method) :=
  (if skipped malToken malID then [] else [(MAL, onMAL)]) ++
  (if skipped anilistToken anilistID then [] else [(AniList, onAnilist)]).

(** The ["<backend>: <error>"] pair of a failed invocation. *)
Definition failureText (i : invocation) : option string :=
  match i with
  | (b, _, Some e) => Some (BackendName b +:+ ": " +:+ e)
  | (_, _, None) => None
  end.

Definition aggregate (inv : list invocation) : error :=
  match omap failureText inv with
  | [] => None
  | errors => Some ("dual tracking errors: " +:+ Join errors "; ")
  end.

(** The primary service of a configuration. *)
Definition primary (unicodeLower : string -> string) (config : CurdConfig) : Backend :=
  if (GetTrackingService unicodeLower config =? "mal")%string then MAL else AniList.

(** The order the specification gives for an aggregated message: the
    secondary service's pair first, then the primary's. *)
Definition secondaryFirst (unicodeLower : string -> string) (config : CurdConfig)
    (inv : list invocation) : list invocation :=
  let p := primary unicodeLower config in
  filter (fun i => sameBackend i.1.1 (other p) = true) inv ++
  filter (fun i => sameBackend i.1.1 p = true) inv.

Definition secondaryFirstMessage (unicodeLower : string -> string) (config : CurdConfig)
    (inv : list invocation) : error :=
  aggregate (secondaryFirst unicodeLower config inv).

(** An environment in which each service answers every call with a fixed
    outcome and the lookups echo the ID. *)
Definition fixedOutcome (outcome : Backend -> error) : Prog.env Callee unit :=
  fun X e s =>
    match e in Callee X return X * unit with
    | Adapter b _ => (outcome b, s)
    | LookupMalID id => ((id, None), s)
    | LookupAnilistID id _ => ((id, None), s)
    | LogLine _ => (tt, s)
    | OutLine _ => (tt, s)
    end.

(** The specification's reading of a service name: it is recognised when
    its lower-cased form is one of the three names. *)
Definition recognised (unicodeLower : string -> string) (name : string) : Prop :=
  let n := ToLower unicodeLower name in
  n = "anilist" \/ n = "mal" \/ n = "myanimelist".

Definition unsupported (id : Z) (fromService toService : string) : prog (Z * error) :=
  Prog.Ret (id, Some ("unsupported service conversion: " +:+ fromService +:+
                      " to " +:+ toService)).

(** What a run of a dual write amounts to: the calls made, in order, and
    the error handed back. *)
Definition dualRun (p : prog error) (calls : list (Backend * Method)) : Prop :=
  forall (S : Type) (h : Prog.env Callee S) (s : S),
    let inv := invocations (Prog.trace h p s) in
    inv.*1 = calls /\ Prog.result h p s = aggregate inv.

(** What a run of a single-service write amounts to: one call, whose
    error is handed back as it is. *)
Definition singleRun (p : prog error) (b : Backend) (m : Method) : Prop :=
  forall (S : Type) (h : Prog.env Callee S) (s : S),
    invocations (Prog.trace h p s) = [(b, m, Prog.result h p s)].

(** Every owed call is made whatever the other one returns, and a run in
    which no call failed hands back no error. *)
Definition independent (p : prog error) (calls : list (Backend * Method)) : Prop :=
  forall (S : Type) (h : Prog.env Callee S) (s : S),
    let inv := invocations (Prog.trace h p s) in
    inv.*1 = calls /\
    (Forall (fun i => i.2 = None) inv -> Prog.result h p s = None).

(** The calls are made in the order of [calls], and a run in which some
    call failed hands back the pairs of the failed calls, in that order. *)
Definition reports (p : prog error) (calls : list (Backend * Method)) : Prop :=
  forall (S : Type) (h : Prog.env Callee S) (s : S),
    let inv := invocations (Prog.trace h p s) in
    inv.*1 = calls /\
    (Exists (fun i => i.2 <> None) inv ->
     Prog.result h p s =
       Some ("dual tracking errors: " +:+ Join (omap failureText inv) "; ")).

(** How the configured name selects the primary service. *)
Definition resolution (unicodeLower : string -> string) (config : CurdConfig) : Prop :=
  let name := ToLower unicodeLower (TrackingService config) in
  (name = "mal" \/ name = "myanimelist" ->
   GetTrackingService unicodeLower config = "mal" /\ primary unicodeLower config = MAL) /\
  (name <> "mal" /\ name <> "myanimelist" ->
   GetTrackingService unicodeLower config = "anilist" /\
   primary unicodeLower config = AniList) /\
  (TrackingService config = "" -> primary unicodeLower config = AniList).

(** The pairs of names [ConvertIDIfNeeded] has a lookup for. *)
Definition supportedPair (fromService toService : string) : Prop :=
  (fromService = "anilist" /\ (toService = "mal" \/ toService = "myanimelist")) \/
  ((fromService = "mal" \/ fromService = "myanimelist") /\ toService = "anilist").

(** The specification's account of [ConvertIDIfNeeded], at one input: a
    conversion between different names fails exactly when a name is not
    recognised. *)
Definition conversionClaim (unicodeLower : string -> string) (id : Z)
    (fromService toService : string) : Prop :=
  fromService <> toService ->
  (ConvertIDIfNeeded id fromService toService = unsupported id fromService toService <->
   ~ recognised unicodeLower fromService \/ ~ recognised unicodeLower toService).

(** A stand-in for the Unicode branch of [strings.ToLower]; the names in
    the examples below are ASCII and never reach it. *)
Definition noUnicode : string -> string := fun s => s.

Definition dualOn : CurdConfig :=
  {| TrackingService := "anilist"; DualTracking := true; RofiSelection := false |}.
Definition dualOnMALPrimary : CurdConfig :=
  {| TrackingService := "mal"; DualTracking := true; RofiSelection := false |}.
Definition dualOff : CurdConfig :=
  {| TrackingService := "MAL"; DualTracking := false; RofiSelection := false |}.

Definition bothDown (b : Backend) : error :=
  Some (pick b "mal down" "anilist down").

Definition allUp (b : Backend) : error := None.
Definition malDown (b : Backend) : error := pick b (Some "503") None.

(** Sample lists: an empty one, and one in which media 21 is both in
    Watching and in Dropped. *)
Definition entry (id : Z) (title status : string) : Entry :=
  {| EntryMedia := {| ID := id; Title := title; Episodes := 12 |};
     Progress := 0; Score := 0; Status := status; CoverImage := "" |}.

Definition emptyList : AnimeList :=
  {| Watching := []; Completed := []; Paused := [];
     Dropped := []; Planning := []; Rewatching := [] |}.

Definition inconsistentList : AnimeList :=
  {| Watching := [entry 5 "Other" "CURRENT"; entry 21 "One Piece" "CURRENT"];
     Completed := [];
     Paused := [];
     Dropped := [entry 21 "One Piece" "DROPPED"];
     Planning := [entry 30 "Evangelion" "PLANNING"];
     Rewatching := [] |}.

(** All categories of a list, in the order the lookup visits them. *)
Definition inScanOrder (list : AnimeList) : Datatypes.list Entry :=
  Watching list ++ Completed list ++ Paused list ++
  Dropped list ++ Planning list ++ Rewatching list.

End TrackingObs.

(** ** Reading a run of the MyAnimeList adapter *)

Module MyAnimeListObs.
Import Go MyAnimeList.

(** The HTTP requests of a run, in order. *)
Definition requestOf (o : Prog.obs Sys) : option Request :=
  match o with
  | Prog.Obs e _ =>
      match e with
      | ClientDo req => Some req
      | _ => None
      end
  end.

Definition requests (tr : list (Prog.obs Sys)) : list Request := omap requestOf tr.

(** The request that stores [score] as the rating of [mediaID]. *)
Definition ratingRequest (token : string) (mediaID score : Z) : Request :=
  {| Method := "PATCH";
     URL := malAPIURL +:+ "/anime/" +:+ Itoa mediaID +:+ "/my_list_status";
     Header := <["Content-Type" := "application/x-www-form-urlencoded"]>
                 (<["Authorization" := "Bearer " +:+ token]> ∅);
     Body := Some {[ "score" := [Itoa score] ]} |}.

(** How the service answered the requests of a run: the status code of
    each response, or nothing when the transport failed. *)
Definition replyOf (o : Prog.obs Sys) : option (option Z) :=
  match o with
  | Prog.Obs e reply =>
      match e in Sys X return X -> option (option Z) with
      | ClientDo _ => fun r =>
          Some match r.2 with
               | None => Some (StatusCode r.1)
               | Some _ => None
               end
      | _ => fun _ => None
      end reply
  end.

Definition replies (tr : list (Prog.obs Sys)) : list (option Z) := omap replyOf tr.

(** What the input source holds for a rating: no configuration at hand, a
    prompt that failed, a text that is not an integer, an integer, or a
    console line from which no integer was scanned. *)
Inductive Supply : Type :=
| NoConfig
| PromptFailed (err : string)
| NotAnInteger (userInput : string)
| Supplied (score : Z)
| Unscanned.

(** The input source, questioned from state [s] on: the configuration
    first; then, as the configuration says, the prompt with the text
    ["Enter a score for the anime (0-10)"], or the console after the line
    ["Rate this anime (0-10): "]. *)
Definition supply {S : Type} (h : Prog.env Sys S) (s : S) : Supply :=
  match h _ GlobalConfig s with
  | (None, _) => NoConfig
  | (Some userCurdConfig, s) =>
      if RofiSelection userCurdConfig then
        match h _ (RofiInput "Enter a score for the anime (0-10)") s with
        | ((_, Some err), _) => PromptFailed err
        | ((userInput, None), _) =>
            match Atoi userInput with
            | Some score => Supplied score
            | None => NotAnInteger userInput
            end
        end
      else
        match h _ ScanInt (h _ (PrintLine "Rate this anime (0-10): ") s).2 with
        | (Some score, _) => Supplied score
        | (None, _) => Unscanned
        end
  end.

(** What a rating run does with what the input source holds.  An integer
    outside 0..10 is refused before any request; an integer within is sent,
    in one request, and the run succeeds exactly when the service answers
    200; without an integer from the prompt the run fails before any
    request; a console line that did not scan is rated as 0. *)
Definition validated (AtoiError : string -> string) (p : prog error)
    (token : string) (mediaID : Z) : Prop :=
  forall (S : Type) (h : Prog.env Sys S) (s : S),
    let tr := Prog.trace h p s in
    let sends score :=
      requests tr = [ratingRequest token mediaID score] /\
      (Prog.result h p s = None <-> replies tr = [Some StatusOK]) in
    match supply h s with
    | Supplied score =>
        if (score <? 0) || (score >? 10) then
          Prog.result h p s = Some "score must be between 0 and 10" /\ requests tr = []
        else sends score
    | Unscanned => sends 0
    | NoConfig => Prog.result h p s = Some "failed to get curd config" /\ requests tr = []
    | PromptFailed err => Prog.result h p s = Some err /\ requests tr = []
    | NotAnInteger userInput =>
        Prog.result h p s = Some (AtoiError userInput) /\ requests tr = []
    end.

(** A session with the prompt, in which the user types [userInput], with a
    service that accepts what it is sent. *)
Definition promptConfig : CurdConfig :=
  {| TrackingService := "mal"; DualTracking := false; RofiSelection := true |}.

Definition ratingPrompt (userInput : string) : Prog.env Sys unit :=
  fun X e s =>
    match e in Sys X return X * unit with
    | GlobalConfig => (Some promptConfig, s)
    | RofiInput _ => ((userInput, None), s)
    | PrintLine _ => (tt, s)
    | ScanInt => (None, s)
    | NowFormat _ => ("2025-01-01", s)
    | ClientDo _ => (({| StatusCode := 200; ReadAll := ("{}", None) |}, None), s)
    | OutLine _ => (tt, s)
    end.

(** A console session in which the line typed does not scan as an integer
    (letters, say, or a numeral beyond 64 bits), with a service that accepts
    what it is sent. *)
Definition unscannedConsole : Prog.env Sys unit :=
  fun X e s =>
    match e in Sys X return X * unit with
    | GlobalConfig =>
        (Some {| TrackingService := "mal"; DualTracking := false; RofiSelection := false |}, s)
    | RofiInput _ => (("", None), s)
    | PrintLine _ => (tt, s)
    | ScanInt => (None, s)
    | NowFormat _ => ("2025-01-01", s)
    | ClientDo _ => (({| StatusCode := 200; ReadAll := ("{}", None) |}, None), s)
    | OutLine _ => (tt, s)
    end.

(** The six statuses of the canonical vocabulary, under their AniList
    names: Watching, Completed, Paused, Dropped, Planning, Rewatching. *)
Definition canonical : list string :=
  ["CURRENT"; "COMPLETED"; "PAUSED"; "DROPPED"; "PLANNING"; "REPEATING"].

(** The list status of an entry that was just added: Go's zero value. *)
Definition freshListStatus : MALListStatus :=
  {| ListStatus_Status := ""; ListStatus_Score := 0;
     ListStatus_NumEpisodesWatched := 0; ListStatus_IsRewatching := false |}.

(** The service side of [PATCH .../my_list_status]: the fields present in
    the form replace the stored ones, the others stay. *)
Definition patched (data : Values) (prior : MALListStatus) : MALListStatus :=
  {| ListStatus_Status :=
       match data !! "status" with
       | Some (v :: _) => v
       | _ => ListStatus_Status prior
       end;
     ListStatus_Score :=
       match data !! "score" with
       | Some (v :: _) => default (ListStatus_Score prior) (Atoi v)
       | _ => ListStatus_Score prior
       end;
     ListStatus_NumEpisodesWatched :=
       match data !! "num_watched_episodes" with
       | Some (v :: _) => default (ListStatus_NumEpisodesWatched prior) (Atoi v)
       | _ => ListStatus_NumEpisodesWatched prior
       end;
     ListStatus_IsRewatching :=
       match data !! "is_rewatching" with
       | Some (v :: _) => (v =? "true")%string
       | _ => ListStatus_IsRewatching prior
       end |}.

(** The statuses read back, through the list conversion, from the entries
    the requests of a run leave on the service. *)
Definition readBack (node : MALNode) (prior : MALListStatus)
    (tr : list (Prog.obs Sys)) : list string :=
  let stored req :=
    {| Node := node; ListStatus := patched (default ∅ (Body req)) prior |} in
  status <$> convertMALToAnilistFormat (stored <$> requests tr).

(** Writing [status] on an entry whose list status was [prior] and reading
    the list back gives [status] again. *)
Definition roundTrips (prior : MALListStatus) (status : string) : Prop :=
  forall (token : string) (mediaID : Z) (node : MALNode)
         (S : Type) (h : Prog.env Sys S) (s : S),
    readBack node prior (Prog.trace h (UpdateMALAnimeStatus token mediaID status) s)
    = [status].





(** *** Search results *)

(** The candidates the service sent, in the order it sent them: the body of
    the first response of the run, decoded. *)
Definition candidatesOf (UnmarshalSearch : string -> list SearchNode * error)
    (o : Prog.obs Sys) : option (list SearchNode) :=
  match o with
  | Prog.Obs e reply =>
      match e in Sys X return X -> option (list SearchNode) with
      | ClientDo _ => fun r => Some (UnmarshalSearch (ReadAll r.1).1).1
      | _ => fun _ => None
      end reply
  end.

Definition backendCandidates (UnmarshalSearch : string -> list SearchNode * error)
    (tr : list (Prog.obs Sys)) : list SearchNode :=
  default [] (head (omap (candidatesOf UnmarshalSearch) tr)).

(** A candidate as a search result. *)
Definition candidate (anime : SearchNode) : SelectionOption :=
  {| Key := Itoa (SearchNode_ID anime); Label := SearchNode_Title anime |}.

Section Ranking.
Variable levenshtein : string -> string -> Z.
Variable query : string.

(** The edit distance of a result to the query. *)
Definition distance (o : SelectionOption) : Z := levenshtein (Label o) query.

(** Closest match first. *)
Definition closestFirst (results : list SelectionOption) : Prop :=
  Sorted (fun x y => distance x <= distance y) results.

(** Results at the same distance come in the order of [candidates]. *)
Definition tiesInOrder (candidates results : list SelectionOption) : Prop :=
  forall d : Z,
    filter (fun o => distance o = d) results =
    filter (fun o => distance o = d) candidates.

End Ranking.

(** A candidate with its score, and the result made of a scored candidate,
    as [SearchAnimeMAL] builds them. *)
Definition scoreCandidate (levenshtein : string -> string -> Z) (query : string)
    (anime : SearchNode) : scoredAnime :=
  {| scored_id := Itoa (SearchNode_ID anime);
     scored_title := SearchNode_Title anime;
     scored_score := levenshtein (SearchNode_Title anime) query |}.

Definition resultOf (s : scoredAnime) : SelectionOption :=
  {| Key := scored_id s; Label := scored_title s |}.

(** The score a scored candidate carries is the distance of its result. *)
Definition consistent (levenshtein : string -> string -> Z) (query : string)
    (s : scoredAnime) : Prop :=
  scored_score s = distance levenshtein query (resultOf s).

(** The address of a search: ten results are asked for. *)
Definition searchURL (QueryEscape : string -> string) (query : string) : string :=
  malAPIURL +:+ "/anime?q=" +:+ QueryEscape query +:+ "&limit=10".

(** A successful search asked for ten candidates; answered with at most
    twelve, it returns the candidates the service sent, closest first, and
    in the order sent among equals. *)
Definition ranked (levenshtein : string -> string -> Z) (QueryEscape : string -> string)
    (UnmarshalSearch : string -> list SearchNode * error) (query : string)
    (p : prog (list SelectionOption * error)) : Prop :=
  forall (S : Type) (h : Prog.env Sys S) (s : S),
    let r := Prog.result h p s in
    let sent := candidate <$> backendCandidates UnmarshalSearch (Prog.trace h p s) in
    r.2 = None ->
    (length sent <= 12)%nat ->
    URL <$> requests (Prog.trace h p s) = [searchURL QueryEscape query] /\
    r.1 ≡ₚ sent /\
    closestFirst levenshtein query r.1 /\
    tiesInOrder levenshtein query sent r.1.

(** The ranking without the bound: closest first, and in the order sent
    among equals whatever the number of candidates. *)
Definition rankedStably (levenshtein : string -> string -> Z)
    (UnmarshalSearch : string -> list SearchNode * error) (query : string)
    (p : prog (list SelectionOption * error)) : Prop :=
  forall (S : Type) (h : Prog.env Sys S) (s : S),
    let r := Prog.result h p s in
    let sent := candidate <$> backendCandidates UnmarshalSearch (Prog.trace h p s) in
    r.2 = None ->
    closestFirst levenshtein query r.1 /\
    tiesInOrder levenshtein query sent r.1.

(** Modelled from the spec: the string-similarity scorer, the edit distance
    between the candidate title and the query (section 4.1); [levenshtein]
    itself is in a file of the package that is not at hand. *)
Fixpoint editDistance (s : string) : string -> nat :=
  fix inner (t : string) : nat :=
    match s, t with
    | EmptyString, _ => String.length t
    | _, EmptyString => String.length s
    | String a s', String b t' =>
        if Ascii.eqb a b then editDistance s' t'
        else S (Nat.min (Nat.min (editDistance s' t) (inner t')) (editDistance s' t'))
    end.

Definition levenshteinModel (title query : string) : Z := Z.of_nat (editDistance title query).

(** What the contract of [sort.Slice] promises for a comparison of integer
    keys: the same elements, in ascending order of the key. *)
Definition sortsByKey (sort_Slice : forall A : Type, (A -> A -> bool) -> list A -> list A)
    : Prop :=
  forall (A : Type) (key : A -> Z) (l : list A),
    sort_Slice A (fun x y => key x <? key y) l ≡ₚ l /\
    Sorted (fun x y => key x <= key y) (sort_Slice A (fun x y => key x <? key y) l).

(** Slices of at most twelve elements are sorted by insertion. *)
Definition insertionWhenShort
    (sort_Slice : forall A : Type, (A -> A -> bool) -> list A -> list A) : Prop :=
  forall (A : Type) (less : A -> A -> bool) (l : list A),
    (length l <= 12)%nat ->
    sort_Slice A less l = Sort.insertionSort_func less l 0 (lenSlice l).

(** The sort that is insertion sort at every length. *)
Definition insertionSlice (A : Type) (less : A -> A -> bool) (l : list A) : list A :=
  Sort.insertionSort_func less l 0 (lenSlice l).

(** A search response with thirteen candidates: the first is at distance 1
    from the query ["Monster"], the twelve others at distance 0. *)
Definition thirteen : list SearchNode :=
  {| SearchNode_ID := 100; SearchNode_Title := "Monsters" |} ::
  ((fun n => {| SearchNode_ID := Z.of_nat n; SearchNode_Title := "Monster" |}) <$> seq 1 12).

Definition decodeThirteen (body : string) : list SearchNode * error := (thirteen, None).

(** A search response with ten candidates for the query ["Monster"], several
    of them at the same distance and none of the groups in one piece. *)
Definition ten : list SearchNode :=
  [ {| SearchNode_ID := 1; SearchNode_Title := "Monster Musume" |};
    {| SearchNode_ID := 2; SearchNode_Title := "Monster" |};
    {| SearchNode_ID := 3; SearchNode_Title := "Monsters" |};
    {| SearchNode_ID := 4; SearchNode_Title := "Monster" |};
    {| SearchNode_ID := 5; SearchNode_Title := "Monstar" |};
    {| SearchNode_ID := 6; SearchNode_Title := "Mobster" |};
    {| SearchNode_ID := 7; SearchNode_Title := "Monster" |};
    {| SearchNode_ID := 8; SearchNode_Title := "Monster Musume" |};
    {| SearchNode_ID := 9; SearchNode_Title := "Master" |};
    {| SearchNode_ID := 10; SearchNode_Title := "Monsters" |} ].

Definition decodeTen (body : string) : list SearchNode * error := (ten, None).

Definition searchReply : Prog.env Sys unit :=
  fun X e s =>
    match e in Sys X return X * unit with
    | GlobalConfig => (None, s)
    | RofiInput _ => (("", None), s)
    | PrintLine _ => (tt, s)
    | ScanInt => (None, s)
    | NowFormat _ => ("2025-01-01", s)
    | ClientDo _ => (({| StatusCode := 200; ReadAll := ("{}", None) |}, None), s)
    | OutLine _ => (tt, s)
    end.

End MyAnimeListObs.

(** ** More shared declarations

    [Anime] and [AnimeTitle] are declared in another file of the package;
    the records hold the fields that [myanimelist.go] and [download.go] read
    or write ([Ep_Number] and [Ep_Links] are [anime.Ep.Number] and
    [anime.Ep.Links]). *)

Record AnimeTitle : Type := {
  Romaji : string;
  English : string
}.

Record Anime : Type := {
  Anime_Title : AnimeTitle;
  Ep_Number : Z;
  Ep_Links : list string;
  TotalEpisodes : Z;
  Anime_CoverImage : string;
  AnilistId : Z;
  MalId : Z;
  AllanimeId : string;
  IsAiring : bool
}.

(** [Anime{}]. *)
Definition zeroAnime : Anime :=
  {| Anime_Title := {| Romaji := ""; English := "" |};
     Ep_Number := 0; Ep_Links := []; TotalEpisodes := 0; Anime_CoverImage := "";
     AnilistId := 0; MalId := 0; AllanimeId := ""; IsAiring := false |}.

(** ** Decimal numerals *)

Module Numerals.

(** The value [Go.digits] reads off a decimal numeral, most significant
    digit first, continuing from [acc]. *)
Fixpoint numeral (d : Decimal.uint) (acc : Z) : Z :=
  match d with
  | Decimal.Nil => acc
  | Decimal.D0 l => numeral l (acc * 10 + 0)
  | Decimal.D1 l => numeral l (acc * 10 + 1)
  | Decimal.D2 l => numeral l (acc * 10 + 2)
  | Decimal.D3 l => numeral l (acc * 10 + 3)
  | Decimal.D4 l => numeral l (acc * 10 + 4)
  | Decimal.D5 l => numeral l (acc * 10 + 5)
  | Decimal.D6 l => numeral l (acc * 10 + 6)
  | Decimal.D7 l => numeral l (acc * 10 + 7)
  | Decimal.D8 l => numeral l (acc * 10 + 8)
  | Decimal.D9 l => numeral l (acc * 10 + 9)
  end.

End Numerals.

(** ** What the user sees of a dual write *)

Module Console.
Import Go Tracking TrackingObs.

(** The text of a [CurdOut] call. *)
Definition consoleLine (o : Prog.obs Callee) : option string :=
  match o with
  | Prog.Obs e _ =>
      match e with
      | OutLine msg => Some msg
      | _ => None
      end
  end.

(** The console lines of a run, in order. *)
Definition console (tr : list (Prog.obs Callee)) : list string :=
  omap consoleLine tr.


(** The lookup a conversion between two services makes. *)
Definition crossReference (id : Z) (fromService toService : Backend) : prog (Z * error) :=
  match fromService, toService with
  | AniList, MAL => GetAnimeMalID id
  | MAL, AniList => ConvertMALIDToAnilist id ""
  | _, _ => Prog.Ret (id, None)
  end.

End Console.

(** ** [internal/myanimelist.go]: account, list and catalogue *)

Module MALAccount.
Import Go MyAnimeList.
Local Open Scope prog_scope.

Record MALAnimeList : Type := {
  Data : list MALAnimeListEntry;
  Paging_Next : string
}.

Record MALAnimeDetails : Type := {
  Details_ID : Z;
  Details_Title : string;
  Details_MainPicture_Large : string;
  Details_MainPicture_Medium : string;
  Details_AlternativeTitles_Synonyms : list string;
  Details_AlternativeTitles_En : string;
  Details_AlternativeTitles_Ja : string;
  Details_NumEpisodes : Z;
  Details_Status : string;
  Details_MyListStatus : MALListStatus
}.

Record MALUserInfo : Type := {
  UserInfo_ID : Z;
  UserInfo_Name : string
}.

(** [RofiSelectPreview], declared in another file, as
    [SearchAnimeMALPreview] fills it. *)
Record RofiSelectPreview : Type := {
  Preview_Title : string;
  Preview_CoverImage : string
}.

(** The document [GetMALUserAnimeList] returns, in Go nested maps: the
    value at [data.MediaListCollection.lists], a list of objects each
    holding its [entries]. *)
Record MediaListGroup : Type := {
  entries : list AnilistEntry
}.

Record MediaListCollection : Type := {
  lists : list MediaListGroup
}.

(** One candidate of the preview search response. *)
Record PreviewNode : Type := {
  PreviewNode_ID : Z;
  PreviewNode_Title : string;
  PreviewNode_MainPicture_Large : string;
  PreviewNode_MainPicture_Medium : string
}.

Record scoredPreview : Type := {
  preview_id : string;
  preview_title : string;
  preview_cover : string;
  preview_score : Z
}.

Section Reads.
(** [json.Unmarshal] at each of the types decoded below. *)
Variable UnmarshalUserInfo : string -> MALUserInfo * error.
Variable UnmarshalList : string -> MALAnimeList * error.
Variable UnmarshalDetails : string -> MALAnimeDetails * error.
Variable UnmarshalPreview : string -> list PreviewNode * error.
(** The error [http.NewRequest] has for a URL that does not parse, [nil]
    for one that does. *)
Variable urlError : string -> error.
Variable levenshtein : string -> string -> Z.
Variable QueryEscape : string -> string.
Variable sort_Slice : forall A : Type, (A -> A -> bool) -> list A -> list A.

(** [http.NewRequest] on a URL that comes from outside the program. *)
Definition NewRequestTo (method url : string) (body : option Values) : Request * error :=
  match urlError url with
  | Some err => ({| Method := ""; URL := ""; Header := ∅; Body := None |}, Some err)
  | None => NewRequest method url body
  end.

Definition GetMALUserInfo (token : string) : prog (Z * string * error) :=
  let apiURL := malAPIURL +:+ "/users/@me" in
  match NewRequest "GET" apiURL None with
  | (_, Some err) => Prog.Ret (0, "", Some ("failed to create request: " +:+ err))
  | (req, None) =>
      let req := HeaderSet "Authorization" ("Bearer " +:+ token) req in
      r <- client_Do req;
      match r with
      | (_, Some err) => Prog.Ret (0, "", Some ("failed to make request: " +:+ err))
      | (resp, None) =>
          if negb (StatusCode resp =? StatusOK) then
            let body := (ReadAll resp).1 in
            Prog.Ret (0, "", Some ("failed to get user info. Status Code: " +:+
                                   Itoa (StatusCode resp) +:+ ", Response: " +:+ body))
          else
            match ReadAll resp with
            | (_, Some err) =>
                Prog.Ret (0, "", Some ("failed to read response body: " +:+ err))
            | (body, None) =>
                match UnmarshalUserInfo body with
                | (_, Some err) =>
                    Prog.Ret (0, "", Some ("failed to unmarshal response: " +:+ err))
                | (userInfo, None) =>
                    Prog.Ret (UserInfo_ID userInfo, UserInfo_Name userInfo, None)
                end
            end
      end
  end.

(** The loop of [GetMALUserAnimeList], one page per turn.  The Go loop runs
    for as long as the service hands out a next link; [fuel] bounds the
    number of turns, and [None] is the answer of a run that used it up. *)
Fixpoint GetMALUserAnimeList_pages (fuel : nat) (token : string)
    (allData : list MALAnimeListEntry) (nextURL : string)
    : prog (option (list MALAnimeListEntry * error)) :=
  if (nextURL =? "")%string then Prog.Ret (Some (allData, None))
  else
    match fuel with
    | O => Prog.Ret None
    | S fuel =>
        match NewRequestTo "GET" nextURL None with
        | (_, Some err) => Prog.Ret (Some ([], Some ("failed to create request: " +:+ err)))
        | (req, None) =>
            let req := HeaderSet "Authorization" ("Bearer " +:+ token) req in
            r <- client_Do req;
            match r with
            | (_, Some err) =>
                Prog.Ret (Some ([], Some ("failed to make request: " +:+ err)))
            | (resp, None) =>
                if negb (StatusCode resp =? StatusOK) then
                  let body := (ReadAll resp).1 in
                  Prog.Ret (Some ([], Some ("failed to get anime list. Status Code: " +:+
                                            Itoa (StatusCode resp) +:+ ", Response: " +:+
                                            body)))
                else
                  match ReadAll resp with
                  | (_, Some err) =>
                      Prog.Ret (Some ([], Some ("failed to read response body: " +:+ err)))
                  | (body, None) =>
                      match UnmarshalList body with
                      | (_, Some err) =>
                          Prog.Ret (Some ([], Some ("failed to unmarshal response: " +:+
                                                    err)))
                      | (animeList, None) =>
                          let allData := app allData (Data animeList) in
                          let nextURL := Paging_Next animeList in
                          GetMALUserAnimeList_pages fuel token allData nextURL
                      end
                  end
            end
        end
    end.

Definition GetMALUserAnimeList (fuel : nat) (token : string)
    : prog (option (option MediaListCollection * error)) :=
  let allData : list MALAnimeListEntry := [] in
  let nextURL :=
    malAPIURL +:+ "/users/@me/animelist?fields=list_status,num_episodes&limit=1000" in
  r <- GetMALUserAnimeList_pages fuel token allData nextURL;
  match r with
  | None => Prog.Ret None
  | Some (_, Some err) => Prog.Ret (Some (None, Some err))
  | Some (allData, None) =>
      let result :=
        {| lists := [ {| entries := convertMALToAnilistFormat allData |} ] |} in
      Prog.Ret (Some (Some result, None))
  end.

(** The tail of [SearchAnimeMALPreview]: score, sort, fill the map. *)
Definition previewDict (query : string) (data : list PreviewNode)
    : gmap string RofiSelectPreview :=
  let animeDict : gmap string RofiSelectPreview := ∅ in
  let scored : list scoredPreview := [] in
  let scored :=
    fold_left
      (fun scored anime =>
         let idStr := Itoa (PreviewNode_ID anime) in
         let title := PreviewNode_Title anime in
         let cover := PreviewNode_MainPicture_Large anime in
         let cover :=
           if (cover =? "")%string then PreviewNode_MainPicture_Medium anime else cover in
         let score := levenshtein title query in
         app scored [ {| preview_id := idStr; preview_title := title;
                         preview_cover := cover; preview_score := score |} ])
      data scored in
  let scored :=
    sort_Slice scoredPreview (fun si sj => preview_score si <? preview_score sj) scored in
  fold_left
    (fun animeDict s =>
       <[preview_id s := {| Preview_Title := preview_title s;
                            Preview_CoverImage := preview_cover s |}]> animeDict)
    scored animeDict.

Definition SearchAnimeMALPreview (query token : string)
    : prog (option (gmap string RofiSelectPreview) * error) :=
  let apiURL :=
    malAPIURL +:+ "/anime?q=" +:+ QueryEscape query +:+ "&limit=10&fields=main_picture" in
  match NewRequest "GET" apiURL None with
  | (_, Some err) => Prog.Ret (None, Some ("failed to create request: " +:+ err))
  | (req, None) =>
      let req := HeaderSet "Authorization" ("Bearer " +:+ token) req in
      r <- client_Do req;
      match r with
      | (_, Some err) => Prog.Ret (None, Some ("failed to make request: " +:+ err))
      | (resp, None) =>
          if negb (StatusCode resp =? StatusOK) then
            let body := (ReadAll resp).1 in
            Prog.Ret (None, Some ("failed to search for anime. Status Code: " +:+
                                  Itoa (StatusCode resp) +:+ ", Response: " +:+ body))
          else
            match ReadAll resp with
            | (_, Some err) =>
                Prog.Ret (None, Some ("failed to read response body: " +:+ err))
            | (body, None) =>
                match UnmarshalPreview body with
                | (_, Some err) =>
                    Prog.Ret (None, Some ("failed to unmarshal response: " +:+ err))
                | (data, None) => Prog.Ret (Some (previewDict query data), None)
                end
            end
      end
  end.

Definition GetMALAnimeDetails (malID : Z) (token : string) : prog (Anime * error) :=
  let apiURL :=
    malAPIURL +:+ "/anime/" +:+ Itoa malID +:+ "?fields=num_episodes,status,my_list_status" in
  match NewRequest "GET" apiURL None with
  | (_, Some err) => Prog.Ret (zeroAnime, Some ("failed to create request: " +:+ err))
  | (req, None) =>
      let req := HeaderSet "Authorization" ("Bearer " +:+ token) req in
      r <- client_Do req;
      match r with
      | (_, Some err) => Prog.Ret (zeroAnime, Some ("failed to make request: " +:+ err))
      | (resp, None) =>
          if negb (StatusCode resp =? StatusOK) then
            let body := (ReadAll resp).1 in
            Prog.Ret (zeroAnime, Some ("failed to get anime details. Status Code: " +:+
                                       Itoa (StatusCode resp) +:+ ", Response: " +:+ body))
          else
            match ReadAll resp with
            | (_, Some err) =>
                Prog.Ret (zeroAnime, Some ("failed to read response body: " +:+ err))
            | (body, None) =>
                match UnmarshalDetails body with
                | (_, Some err) =>
                    Prog.Ret (zeroAnime, Some ("failed to unmarshal response: " +:+ err))
                | (details, None) =>
                    let anime :=
                      {| Anime_Title := Anime_Title zeroAnime;
                         Ep_Number := Ep_Number zeroAnime;
                         Ep_Links := Ep_Links zeroAnime;
                         TotalEpisodes := Details_NumEpisodes details;
                         Anime_CoverImage := Anime_CoverImage zeroAnime;
                         AnilistId := AnilistId zeroAnime;
                         MalId := Details_ID details;
                         AllanimeId := AllanimeId zeroAnime;
                         IsAiring := (Details_Status details =? "currently_airing")%string |} in
                    Prog.Ret (anime, None)
                end
            end
      end
  end.

End Reads.

Definition AddAnimeToMALWatchingList (animeID : Z) (token : string) : prog error :=
  let apiURL := malAPIURL +:+ "/anime/" +:+ Itoa animeID +:+ "/my_list_status" in
  let data : Values := {[ "status" := ["watching"] ]} in
  match NewRequest "PATCH" apiURL (Some data) with
  | (_, Some err) => Prog.Ret (Some ("failed to create request: " +:+ err))
  | (req, None) =>
      let req := HeaderSet "Authorization" ("Bearer " +:+ token) req in
      let req := HeaderSet "Content-Type" "application/x-www-form-urlencoded" req in
      r <- client_Do req;
      match r with
      | (_, Some err) => Prog.Ret (Some ("failed to make request: " +:+ err))
      | (resp, None) =>
          if negb (StatusCode resp =? StatusOK) then
            let body := (ReadAll resp).1 in
            Prog.Ret (Some ("failed to add anime. Status Code: " +:+
                            Itoa (StatusCode resp) +:+ ", Response: " +:+ body))
          else
            CurdOut ("Anime with ID " +:+ Itoa animeID +:+
                     " has been added to your MyAnimeList watching list.");;
            Prog.Ret None
      end
  end.

End MALAccount.

(** ** What a run against MyAnimeList shows *)

Module MALAccountObs.
Import Go MyAnimeList MyAnimeListObs MALAccount.

(** The text of a [CurdOut] call. *)
Definition outLine (o : Prog.obs Sys) : option string :=
  match o with
  | Prog.Obs e _ =>
      match e with
      | OutLine msg => Some msg
      | _ => None
      end
  end.

(** The console lines of a run, in order. *)
Definition printed (tr : list (Prog.obs Sys)) : list string := omap outLine tr.

(** Whether the service took a request: the transport gave a response and
    its status is 200. *)
Definition acceptedReply (o : Prog.obs Sys) : option bool :=
  match o with
  | Prog.Obs e reply =>
      match e in Sys X return X -> option bool with
      | ClientDo _ => fun r =>
          Some match r.2 with
               | None => StatusCode r.1 =? StatusOK
               | Some _ => false
               end
      | _ => fun _ => None
      end reply
  end.

(** For each request of a run, in order, whether the service took it. *)
Definition accepted (tr : list (Prog.obs Sys)) : list bool := omap acceptedReply tr.

Definition succeeded (err : error) : bool :=
  match err with None => true | Some _ => false end.

(** The dates a run read off the clock. *)
Definition dateOf (o : Prog.obs Sys) : option string :=
  match o with
  | Prog.Obs e reply =>
      match e in Sys X return X -> option string with
      | NowFormat _ => fun r => Some r
      | _ => fun _ => None
      end reply
  end.

Definition dates (tr : list (Prog.obs Sys)) : list string := omap dateOf tr.

(** A write on the list entry of [mediaID]: a form-encoded [PATCH] under
    the caller's bearer token. *)
Definition entryPatch (token : string) (mediaID : Z) (data : Values) : Request :=
  {| Method := "PATCH";
     URL := malAPIURL +:+ "/anime/" +:+ Itoa mediaID +:+ "/my_list_status";
     Header := <["Content-Type" := "application/x-www-form-urlencoded"]>
                 (<["Authorization" := "Bearer " +:+ token]> ∅);
     Body := Some data |}.

(** A read: a [GET] without a body under the caller's bearer token. *)
Definition bearerGet (token url : string) : Request :=
  {| Method := "GET"; URL := url;
     Header := <["Authorization" := "Bearer " +:+ token]> ∅;
     Body := None |}.

(** What a conversion keeps of a list entry. *)
Definition carried (malEntry : MALAnimeListEntry) (entry : AnilistEntry) : Prop :=
  media_id (media entry) = Node_ID (Node malEntry) /\
  media_episodes (media entry) = Node_NumEpisodes (Node malEntry) /\
  media_title_romaji (media entry) = Node_Title (Node malEntry) /\
  media_title_english (media entry) = Node_Title (Node malEntry) /\
  media_title_native (media entry) = Node_Title (Node malEntry) /\
  media_coverImage_large (media entry) = Node_MainPicture_Large (Node malEntry) /\
  score entry = ListStatus_Score (ListStatus malEntry) /\
  progress entry = ListStatus_NumEpisodesWatched (ListStatus malEntry).

(** How a conversion reads the status of a list entry. *)
Definition statusRead (malEntry : MALAnimeListEntry) (entry : AnilistEntry) : Prop :=
  In (status entry) canonical /\
  (status entry = "REPEATING" <-> ListStatus_IsRewatching (ListStatus malEntry) = true) /\
  (ListStatus_IsRewatching (ListStatus malEntry) = false ->
   ~ In (ListStatus_Status (ListStatus malEntry))
        ["watching"; "completed"; "on_hold"; "dropped"; "plan_to_watch"] ->
   status entry = "CURRENT").

End MALAccountObs.

(** ** The pages of the list *)

Module MALPagesObs.
Import Go MyAnimeList MyAnimeListObs MALAccount MALAccountObs.

Section Pages.
Variable UnmarshalList : string -> MALAnimeList * error.

(** The page a reply carries: the transport gave a response, its status is
    200, its body was read and decodes. *)
Definition pageOf (o : Prog.obs Sys) : option MALAnimeList :=
  match o with
  | Prog.Obs e reply =>
      match e in Sys X return X -> option MALAnimeList with
      | ClientDo _ => fun r =>
          match r with
          | (resp, None) =>
              if StatusCode resp =? StatusOK then
                match ReadAll resp with
                | (body, None) =>
                    match UnmarshalList body with
                    | (page, None) => Some page
                    | (_, Some _) => None
                    end
                | (_, Some _) => None
                end
              else None
          | (_, Some _) => None
          end
      | _ => fun _ => None
      end reply
  end.

(** The pages a run received, in order. *)
Definition pagesOf (tr : list (Prog.obs Sys)) : list MALAnimeList := omap pageOf tr.

(** The address of the first page. *)
Definition firstPage : string :=
  malAPIURL +:+ "/users/@me/animelist?fields=list_status,num_episodes&limit=1000".

(** The addresses a run had in hand: the first page, then the next link of
    each page received. *)
Definition links (tr : list (Prog.obs Sys)) : list string :=
  firstPage :: (Paging_Next <$> pagesOf tr).

(** The document made of all the pages received. *)
Definition collected (tr : list (Prog.obs Sys)) : MediaListCollection :=
  {| lists := [ {| entries := convertMALToAnilistFormat (concat (Data <$> pagesOf tr)) |} ] |}.

(** Every request of the run is the read of the address in hand at its
    turn. *)
Definition followsLinks (token : string) (tr : list (Prog.obs Sys)) : Prop :=
  requests tr = bearerGet token <$> take (length (requests tr)) (links tr).

(** What the answer of a run says about the pages it received. *)
Definition listOutcome (fuel : nat) (tr : list (Prog.obs Sys))
    (r : option (option MediaListCollection * error)) : Prop :=
  match r with
  | None =>
      length (requests tr) = fuel /\ length (pagesOf tr) = fuel /\
      Forall (fun link => link <> "") (links tr)
  | Some (Some result, None) =>
      result = collected tr /\
      length (pagesOf tr) = length (requests tr) /\
      last (links tr) = Some ""
  | Some (None, Some _) =>
      Forall (fun link => link <> "") (links tr)
  | Some (Some _, Some _) | Some (None, None) => False
  end.

(** What a run of the loop from [nextURL] amounts to. *)
Definition loopOutcome (token : string) (fuel : nat) (allData : list MALAnimeListEntry)
    (nextURL : string)
    (rt : option (list MALAnimeListEntry * error) * list (Prog.obs Sys)) : Prop :=
  let tr := rt.2 in
  let inHand := nextURL :: (Paging_Next <$> pagesOf tr) in
  requests tr = bearerGet token <$> take (length (requests tr)) inHand /\
  match rt.1 with
  | None =>
      length (requests tr) = fuel /\ length (pagesOf tr) = fuel /\
      Forall (fun link => link <> "") inHand
  | Some (data, None) =>
      data = app allData (concat (Data <$> pagesOf tr)) /\
      length (pagesOf tr) = length (requests tr) /\
      last inHand = Some ""
  | Some (_, Some _) => Forall (fun link => link <> "") inHand
  end.

End Pages.

(** A service with a list of two pages: the first reply carries page one
    and a next link, every later reply the last page. *)
Definition pageOne : MALAnimeList :=
  {| Data := [ {| Node := {| Node_ID := 1; Node_Title := "Monster";
                              Node_MainPicture_Large := ""; Node_MainPicture_Medium := "";
                              Node_NumEpisodes := 74 |};
                  ListStatus := {| ListStatus_Status := "watching"; ListStatus_Score := 9;
                                   ListStatus_NumEpisodesWatched := 3;
                                   ListStatus_IsRewatching := false |} |} ];
     Paging_Next := "https://api.myanimelist.net/v2/users/@me/animelist?offset=1000" |}.

Definition pageTwo : MALAnimeList :=
  {| Data := [ {| Node := {| Node_ID := 2; Node_Title := "Mushishi";
                              Node_MainPicture_Large := ""; Node_MainPicture_Medium := "";
                              Node_NumEpisodes := 26 |};
                  ListStatus := {| ListStatus_Status := "completed"; ListStatus_Score := 10;
                                   ListStatus_NumEpisodesWatched := 26;
                                   ListStatus_IsRewatching := false |} |} ];
     Paging_Next := "" |}.

Definition decodePage (body : string) : MALAnimeList * error :=
  if (body =? "1")%string then (pageOne, None) else (pageTwo, None).

Definition twoPages : Prog.env Sys nat :=
  fun X e served =>
    match e in Sys X return X * nat with
    | GlobalConfig => (None, served)
    | RofiInput _ => (("", None), served)
    | PrintLine _ => (tt, served)
    | ScanInt => (None, served)
    | NowFormat _ => ("2025-01-01", served)
    | ClientDo _ =>
        (({| StatusCode := 200;
             ReadAll := (if served is O then "1" else "2", None) |}, None), S served)
    | OutLine _ => (tt, served)
    end.

Definition wellFormed (url : string) : error := None.

End MALPagesObs.

(** ** The preview map *)

Module MALPreviewObs.
Import Go MyAnimeList MyAnimeListObs MALAccount MALAccountObs.

(** The preview of a candidate: its title, and its large picture or, when
    it has none, its medium one. *)
Definition previewOf (anime : PreviewNode) : RofiSelectPreview :=
  {| Preview_Title := PreviewNode_Title anime;
     Preview_CoverImage :=
       if (PreviewNode_MainPicture_Large anime =? "")%string
       then PreviewNode_MainPicture_Medium anime
       else PreviewNode_MainPicture_Large anime |}.

(** The candidates the service sent: the body of the first response of the
    run, decoded. *)
Definition previewCandidatesOf (UnmarshalPreview : string -> list PreviewNode * error)
    (o : Prog.obs Sys) : option (list PreviewNode) :=
  match o with
  | Prog.Obs e reply =>
      match e in Sys X return X -> option (list PreviewNode) with
      | ClientDo _ => fun r => Some (UnmarshalPreview (ReadAll r.1).1).1
      | _ => fun _ => None
      end reply
  end.

Definition previewCandidates (UnmarshalPreview : string -> list PreviewNode * error)
    (tr : list (Prog.obs Sys)) : list PreviewNode :=
  default [] (head (omap (previewCandidatesOf UnmarshalPreview) tr)).

(** A map that holds the previews of [data] under their printed IDs and
    nothing else. *)
Definition previews (animeDict : gmap string RofiSelectPreview) (data : list PreviewNode)
    : Prop :=
  (forall (key : string) (preview : RofiSelectPreview),
     animeDict !! key = Some preview ->
     exists anime, In anime data /\ key = Itoa (PreviewNode_ID anime) /\
                   preview = previewOf anime) /\
  (forall anime, In anime data -> is_Some (animeDict !! Itoa (PreviewNode_ID anime))) /\
  (NoDup (PreviewNode_ID <$> data) ->
   forall anime, In anime data ->
     animeDict !! Itoa (PreviewNode_ID anime) = Some (previewOf anime)).

(** A successful preview search returns the previews of the candidates the
    service sent. *)
Definition previewed (UnmarshalPreview : string -> list PreviewNode * error)
    (p : prog (option (gmap string RofiSelectPreview) * error)) : Prop :=
  forall (S : Type) (h : Prog.env Sys S) (s : S),
    (Prog.result h p s).2 = None ->
    exists animeDict,
      (Prog.result h p s).1 = Some animeDict /\
      previews animeDict (previewCandidates UnmarshalPreview (Prog.trace h p s)).

(** A scored candidate, and the preview stored for it. *)
Definition scorePreview (levenshtein : string -> string -> Z) (query : string)
    (anime : PreviewNode) : scoredPreview :=
  {| preview_id := Itoa (PreviewNode_ID anime);
     preview_title := PreviewNode_Title anime;
     preview_cover := Preview_CoverImage (previewOf anime);
     preview_score := levenshtein (PreviewNode_Title anime) query |}.

Definition storedPreview (s : scoredPreview) : RofiSelectPreview :=
  {| Preview_Title := preview_title s; Preview_CoverImage := preview_cover s |}.

(** A preview response with two candidates, the second without a large
    picture. *)
Definition twoPreviews : list PreviewNode :=
  [ {| PreviewNode_ID := 19; PreviewNode_Title := "Monster";
       PreviewNode_MainPicture_Large := "https://cdn.example/19l.jpg";
       PreviewNode_MainPicture_Medium := "https://cdn.example/19.jpg" |};
    {| PreviewNode_ID := 457; PreviewNode_Title := "Mushishi";
       PreviewNode_MainPicture_Large := "";
       PreviewNode_MainPicture_Medium := "https://cdn.example/457.jpg" |} ].

Definition decodeTwoPreviews (body : string) : list PreviewNode * error :=
  (twoPreviews, None).

End MALPreviewObs.

(** ** Go's [strings] package, as far as [download.go] uses it *)

Module GoStrings.

(** [strings.HasPrefix]. *)
Fixpoint HasPrefix (s prefix : string) {struct prefix} : bool :=
  match prefix, s with
  | EmptyString, _ => true
  | String _ _, EmptyString => false
  | String p prefix, String c s => Ascii.eqb c p && HasPrefix s prefix
  end.

(** [strings.Contains]. *)
Fixpoint Contains (s substr : string) : bool :=
  HasPrefix s substr ||
  match s with
  | EmptyString => false
  | String _ rest => Contains rest substr
  end.

(** [s[:n]], for [n] up to [len(s)]. *)
Fixpoint slice_to (n : nat) (s : string) : string :=
  match n, s with
  | O, _ => EmptyString
  | S _, EmptyString => EmptyString
  | S n, String c rest => String c (slice_to n rest)
  end.

(** The loop of [strings.ReplaceAll] for a non-empty [old]: occurrences are
    taken left to right and do not overlap; [skip] counts the bytes of an
    occurrence still to pass over. *)
Fixpoint replaceFrom (skip : nat) (s old new : string) : string :=
  match s with
  | EmptyString => EmptyString
  | String c rest =>
      match skip with
      | S skip => replaceFrom skip rest old new
      | O =>
          if HasPrefix s old
          then new +:+ replaceFrom (String.length old - 1) rest old new
          else String c (replaceFrom O rest old new)
      end
  end.

(** [strings.ReplaceAll].  With an empty [old] Go puts [new] between the
    runes of [s]; that case is a parameter. *)
Definition ReplaceAll (betweenRunes : string -> string -> string)
    (s old new : string) : string :=
  if (old =? "")%string then betweenRunes s new else replaceFrom O s old new.

(** The six ASCII bytes that [strings.TrimSpace] takes for white space. *)
Definition asciiSpace (c : ascii) : bool :=
  let n := nat_of_ascii c in
  ((n =? 9) || (n =? 10) || (n =? 11) || (n =? 12) || (n =? 13) || (n =? 32))%nat.

(** [utf8.RuneSelf]: bytes from here up are not ASCII. *)
Definition RuneSelf : nat := 128.

Fixpoint reverse (acc s : string) : string :=
  match s with
  | EmptyString => acc
  | String c rest => reverse (String c acc) rest
  end.

Section TrimSpace.
(** [strings.TrimFunc(s, unicode.IsSpace)] and
    [strings.TrimRightFunc(s, unicode.IsSpace)], which [TrimSpace] hands a
    string over to at its first byte that is not ASCII. *)
Variable TrimFunc_IsSpace : string -> string.
Variable TrimRightFunc_IsSpace : string -> string.

(** The second loop of [TrimSpace], from the end of [s[start:]]; the string
    is given back to front, [stop] moving through it. *)
Fixpoint trimStop (backwards : string) : string :=
  match backwards with
  | EmptyString => EmptyString
  | String c rest =>
      if (RuneSelf <=? nat_of_ascii c)%nat then TrimRightFunc_IsSpace (reverse "" backwards)
      else if asciiSpace c then trimStop rest
      else reverse "" backwards
  end.

(** The first loop of [TrimSpace], [start] moving through [s]. *)
Fixpoint TrimSpace (s : string) : string :=
  match s with
  | EmptyString => trimStop (reverse "" s)
  | String c rest =>
      if (RuneSelf <=? nat_of_ascii c)%nat then TrimFunc_IsSpace s
      else if asciiSpace c then TrimSpace rest
      else trimStop (reverse "" s)
  end.

End TrimSpace.

End GoStrings.

(** ** [internal/download.go]: one episode *)

Module Download.
Import Go GoStrings.

(** What [downloadFile] reads of the response of [http.Get], and
    [getFileSize] of the responses to its own requests. *)
Record GetResponse : Type := {
  StatusCode : Z;
  Status : string;
  ContentLength : Z
}.

(** Everything a download reaches outside itself.  [getVideoDuration]
    ([ffprobe] run on the address, its output read as a float) and
    [parseFFmpegProgress] (the progress display) are taken by their outcome;
    [CopyBody] is [io.Copy(out, progressReader)] for a response of the given
    length.

    [estimateM3U8Size] is taken by its outcome as well, and that outcome is
    not all it does: it fetches the playlist at the address it is given,
    and when that is a master playlist it goes on, through itself, to the
    variant of the highest bandwidth named in the body; the size it returns
    is computed from the segments in floating point.  The addresses it
    reaches after the first are read from what the servers send and do not
    appear in a trace: of [estimateM3U8Size] a trace shows the address it
    was started on, no more. *)
Inductive Sys : Type -> Type :=
| AnimeName (anime : Anime) : Sys string
| ExpandEnv (s : string) : Sys string
| Stat (name : string) : Sys error
| Remove (name : string) : Sys error
| OutLine (msg : string) : Sys unit
| PrintLine : Sys unit
| LookPath (file : string) : Sys error
| VideoDuration (url : string) : Sys (Z * error)
| HttpHead (url : string) : Sys (GetResponse * error)
| NewRequest (method url : string) : Sys error
| ClientDo (method url : string) (header : list (string * string))
    : Sys (GetResponse * error)
| EstimateM3U8Size (playlistURL : string) : Sys (Z * error)
| StdoutPipe (command : list string) : Sys error
| Start (command : list string) : Sys error
| FFmpegProgress (duration : Z) : Sys unit
| Wait (command : list string) : Sys error
| Create (name : string) : Sys error
| HttpGet (url : string) : Sys (GetResponse * error)
| CopyBody (totalSize : Z) : Sys error.

Abbreviation prog := (Prog.t Sys).
Local Open Scope prog_scope.

(** [GetAnimeName], a function of another file. *)
Definition GetAnimeName (anime : Anime) : prog string := Prog.call (AnimeName anime).
Definition os_ExpandEnv (s : string) : prog string := Prog.call (ExpandEnv s).
Definition os_Stat (name : string) : prog error := Prog.call (Stat name).
Definition os_Remove (name : string) : prog error := Prog.call (Remove name).
Definition os_Create (name : string) : prog error := Prog.call (Create name).
Definition CurdOut (msg : string) : prog unit := Prog.call (OutLine msg).
(** [fmt.Println()]. *)
Definition Println : prog unit := Prog.call PrintLine.
Definition exec_LookPath (file : string) : prog error := Prog.call (LookPath file).
Definition getVideoDuration (url : string) : prog (Z * error) := Prog.call (VideoDuration url).
(** [client.Head(url)]. *)
Definition client_Head (url : string) : prog (GetResponse * error) :=
  Prog.call (HttpHead url).
(** [http.NewRequest(method, url, nil)], which fails on an address that
    does not parse. *)
Definition http_NewRequest (method url : string) : prog error :=
  Prog.call (NewRequest method url).
(** [client.Do(req)] for a request with the given method, address and
    headers. *)
Definition client_Do (method url : string) (header : list (string * string))
    : prog (GetResponse * error) :=
  Prog.call (ClientDo method url header).
Definition estimateM3U8Size (playlistURL : string) : prog (Z * error) :=
  Prog.call (EstimateM3U8Size playlistURL).
Definition cmd_StdoutPipe (command : list string) : prog error :=
  Prog.call (StdoutPipe command).
Definition cmd_Start (command : list string) : prog error := Prog.call (Start command).
Definition cmd_Wait (command : list string) : prog error := Prog.call (Wait command).
Definition parseFFmpegProgress (duration : Z) : prog unit :=
  Prog.call (FFmpegProgress duration).
Definition http_Get (url : string) : prog (GetResponse * error) := Prog.call (HttpGet url).
Definition io_Copy (totalSize : Z) : prog error := Prog.call (CopyBody totalSize).

Definition StatusOK : Z := 200.

Section Download.
(** The Unicode sides of [strings.ReplaceAll] and [strings.TrimSpace]. *)
Variable betweenRunes : string -> string -> string.
Variable TrimFunc_IsSpace : string -> string.
Variable TrimRightFunc_IsSpace : string -> string.
(** [filepath.Join] of a directory and a file name. *)
Variable filepath_Join : string -> string -> string.
(** [config.DownloadPath], a field of [CurdConfig] beside the ones above. *)
Variable DownloadPath : CurdConfig -> string.

Definition invalid : list string :=
  ["/"; "\"; ":"; "*"; "?"; String "034"%char ""; "<"; ">"; "|"].

Definition sanitizeFilename (name : string) : string :=
  let result := name in
  let result :=
    fold_left (fun result char => ReplaceAll betweenRunes result char "_") invalid result in
  let result := TrimSpace TrimFunc_IsSpace TrimRightFunc_IsSpace result in
  let result :=
    if Go.len result >? 200 then slice_to 200 result else result in
  result.

Definition getFileSize (url : string) : prog (Z * error) :=
  r <- client_Head url;
  got <-
    match r with
    | (_, Some _) =>
        err <- http_NewRequest "GET" url;
        match err with
        | Some err => Prog.Ret (inr err)
        | None =>
            r <- client_Do "GET" url [("Range", "bytes=0-0")];
            match r with
            | (_, Some err) => Prog.Ret (inr err)
            | (resp, None) => Prog.Ret (inl resp)
            end
        end
    | (resp, None) => Prog.Ret (inl resp)
    end;
  match got with
  | inr err => Prog.Ret (0, Some err)
  | inl resp =>
      if ContentLength resp >? 0 then Prog.Ret (ContentLength resp, None)
      else if Contains url ".m3u8" then estimateM3U8Size url
      else Prog.Ret (0, Some "could not determine file size")
  end.

Definition getVideoInfo (url : string) : prog (Z * Z * error) :=
  r <- getVideoDuration url;
  let duration := r.1 in
  r <- getFileSize url;
  let fileSize := r.1 in
  Prog.Ret (duration, fileSize, None).

Definition downloadWithFFmpeg (outputPath url : string) : prog error :=
  err <- exec_LookPath "ffmpeg";
  match err with
  | Some _ =>
      Prog.Ret (Some "ffmpeg not found. Please install ffmpeg to download streaming videos")
  | None =>
      CurdOut "";;
      CurdOut "Analyzing video...";;
      info <- getVideoInfo url;
      let '(duration, _, err) := info in
      (if match err with None => true | Some _ => false end && (duration >? 0) then
         CurdOut ("Duration: " +:+ Itoa (Z.quot duration 60) +:+ " minutes " +:+
                  Itoa (Z.rem duration 60) +:+ " seconds")
       else Prog.Ret tt);;
      CurdOut "";;
      CurdOut "Starting download...";;
      Println;;
      let cmd :=
        ["ffmpeg"; "-i"; url; "-c"; "copy"; "-bsf:a"; "aac_adtstoasc";
         "-progress"; "pipe:1"; "-loglevel"; "error"; "-nostats"; "-y"; outputPath] in
      err <- cmd_StdoutPipe cmd;
      match err with
      | Some err => Prog.Ret (Some ("failed to create stdout pipe: " +:+ err))
      | None =>
          err <- cmd_Start cmd;
          match err with
          | Some err => Prog.Ret (Some ("failed to start ffmpeg: " +:+ err))
          | None =>
              parseFFmpegProgress duration;;
              err <- cmd_Wait cmd;
              match err with
              | Some err => Prog.Ret (Some ("ffmpeg error: " +:+ err))
              | None =>
                  Println;;
                  Prog.Ret None
              end
          end
      end
  end.

Definition downloadFile (filepath url : string) : prog error :=
  err <- os_Create filepath;
  match err with
  | Some err => Prog.Ret (Some err)
  | None =>
      r <- http_Get url;
      match r with
      | (_, Some err) => Prog.Ret (Some err)
      | (resp, None) =>
          if negb (StatusCode resp =? StatusOK) then
            Prog.Ret (Some ("bad status: " +:+ Status resp))
          else
            let totalSize := ContentLength resp in
            err <- io_Copy totalSize;
            Println;;
            Prog.Ret err
      end
  end.

Definition DownloadEpisode (anime : Anime) (config : CurdConfig) : prog error :=
  animeName <- GetAnimeName anime;
  let animeName := sanitizeFilename animeName in
  let epNumber := Ep_Number anime in
  match Ep_Links anime with
  | [] => Prog.Ret (Some "no download links available for this episode")
  | videoURL :: _ =>
      let filename := animeName +:+ "_EP_" +:+ Itoa epNumber +:+ ".mp4" in
      downloadPath <- os_ExpandEnv (DownloadPath config);
      let fullPath := filepath_Join downloadPath filename in
      err <- os_Stat fullPath;
      removed <-
        match err with
        | None =>
            CurdOut ("File already exists, removing: " +:+ filename);;
            os_Remove fullPath
        | Some _ => Prog.Ret None
        end;
      match removed with
      | Some err => Prog.Ret (Some ("failed to remove existing file: " +:+ err))
      | None =>
          CurdOut ("Downloading: " +:+ filename);;
          CurdOut ("Episode: " +:+ Itoa epNumber);;
          CurdOut ("Destination: " +:+ downloadPath);;
          err <-
            (if Contains videoURL ".m3u8" || Contains videoURL "m3u8"
             then downloadWithFFmpeg fullPath videoURL
             else downloadFile fullPath videoURL);
          match err with
          | Some err => Prog.Ret (Some ("download failed: " +:+ err))
          | None =>
              CurdOut "";;
              CurdOut ("✓ Download complete: " +:+ filename);;
              Prog.Ret None
          end
      end
  end.

End Download.
End Download.

(** ** What a download shows *)

Module DownloadObs.
Import Go GoStrings Download.

(** The bytes of a string. *)
Definition bytes (s : string) : list ascii := list_ascii_of_string s.

(** A function that returns a part of its argument, as the trimming
    functions do. *)
Definition partOf (f : string -> string) : Prop :=
  forall s : string, exists before after : string, s = before +:+ f s +:+ after.

(** A name without any of the nine bytes [sanitizeFilename] replaces. *)
Definition clean (name : string) : Prop :=
  forall c : ascii, In c (bytes name) -> ~ In (String c "") invalid.

(** The bytes of a decimal numeral. *)
Definition numeric (c : ascii) : Prop :=
  c = "-"%char \/ (48 <= nat_of_ascii c <= 57)%nat.

(** Replacing a one-byte string by ["_"] replaces that byte wherever it
    is. *)
Definition substitute (old c : ascii) : ascii := if Ascii.eqb c old then "_"%char else c.

(** The nine bytes [sanitizeFilename] replaces. *)
Definition invalidBytes : list ascii :=
  ["/"; "\"; ":"; "*"; "?"; "034"; "<"; ">"; "|"]%char.

(** What [sanitizeFilename] promises of its result. *)
Definition sanitized (sanitizeFilename : string -> string) : Prop :=
  forall name : string,
    clean (sanitizeFilename name) /\ (String.length (sanitizeFilename name) <= 200)%nat.

(** The replies of a run to its questions about the title and the
    download directory. *)
Definition nameOf (o : Prog.obs Sys) : option string :=
  match o with
  | Prog.Obs e reply =>
      match e in Sys X return X -> option string with
      | AnimeName _ => fun r => Some r
      | _ => fun _ => None
      end reply
  end.

Definition directoryOf (o : Prog.obs Sys) : option string :=
  match o with
  | Prog.Obs e reply =>
      match e in Sys X return X -> option string with
      | ExpandEnv _ => fun r => Some r
      | _ => fun _ => None
      end reply
  end.

Definition askedName (tr : list (Prog.obs Sys)) : string := default "" (head (omap nameOf tr)).
Definition askedDirectory (tr : list (Prog.obs Sys)) : string :=
  default "" (head (omap directoryOf tr)).

(** The files a run names to the operating system: to [os.Stat],
    [os.Remove] and [os.Create], and as the output of the ffmpeg command
    (its last argument). *)
Definition touchedBy (o : Prog.obs Sys) : option string :=
  match o with
  | Prog.Obs e _ =>
      match e with
      | Stat name | Remove name | Create name => Some name
      | StdoutPipe command | Start command | Wait command => last command
      | _ => None
      end
  end.

Definition touched (tr : list (Prog.obs Sys)) : list string := omap touchedBy tr.

(** The addresses a run names itself: the one it runs [ffprobe] on, the
    ones of its [HEAD] and [GET] requests (of a request it only built as
    well), the input of the ffmpeg command (after [-i]) and the one of
    [http.Get].  What [ffprobe] and ffmpeg fetch from there is their own
    business. *)
Definition fetchedBy (o : Prog.obs Sys) : option string :=
  match o with
  | Prog.Obs e _ =>
      match e with
      | VideoDuration url | HttpHead url | NewRequest _ url | ClientDo _ url _
      | HttpGet url => Some url
      | StdoutPipe command | Start command | Wait command => command !! 2%nat
      | _ => None
      end
  end.

Definition fetched (tr : list (Prog.obs Sys)) : list string := omap fetchedBy tr.

(** The playlists a run starts [estimateM3U8Size] on.  From there
    [estimateM3U8Size] follows the playlist to addresses of the playlist's
    choosing, which are not in the trace. *)
Definition followedBy (o : Prog.obs Sys) : option string :=
  match o with
  | Prog.Obs e _ =>
      match e with
      | EstimateM3U8Size playlistURL => Some playlistURL
      | _ => None
      end
  end.

Definition followed (tr : list (Prog.obs Sys)) : list string := omap followedBy tr.

(** The console lines of a run. *)
Definition outLine (o : Prog.obs Sys) : option string :=
  match o with
  | Prog.Obs e _ =>
      match e with
      | OutLine msg => Some msg
      | _ => None
      end
  end.

Definition console (tr : list (Prog.obs Sys)) : list string := omap outLine tr.

(** The steps of a run, by kind. *)
Inductive Step : Type :=
| Asking | Checking | Removing | Printing | Probing | Streaming | Fetching.

Definition stepOf (o : Prog.obs Sys) : Step :=
  match o with
  | Prog.Obs e _ =>
      match e with
      | AnimeName _ | ExpandEnv _ => Asking
      | Stat _ => Checking
      | Remove _ => Removing
      | OutLine _ | PrintLine => Printing
      | LookPath _ | VideoDuration _ | HttpHead _ | NewRequest _ _ | ClientDo _ _ _
      | EstimateM3U8Size _ => Probing
      | StdoutPipe _ | Start _ | FFmpegProgress _ | Wait _ => Streaming
      | Create _ | HttpGet _ | CopyBody _ => Fetching
      end
  end.

Definition steps (tr : list (Prog.obs Sys)) : list Step := stepOf <$> tr.

Definition isDownload (k : Step) : bool :=
  match k with Probing | Streaming | Fetching => true | _ => false end.

Definition isStream (k : Step) : bool :=
  match k with Probing | Streaming => true | _ => false end.

Definition isFetch (k : Step) : bool :=
  match k with Fetching => true | _ => false end.

Definition isRemoving (k : Step) : bool :=
  match k with Removing => true | _ => false end.

(** The removals of a run, each with its outcome. *)
Definition removalOf (o : Prog.obs Sys) : option error :=
  match o with
  | Prog.Obs e reply =>
      match e in Sys X return X -> option error with
      | Remove _ => fun r => Some r
      | _ => fun _ => None
      end reply
  end.

Definition removals (tr : list (Prog.obs Sys)) : list error := omap removalOf tr.

(** The steps of a run from its first download step on. *)
Fixpoint sinceDownload (l : list Step) : list Step :=
  match l with
  | [] => []
  | k :: rest => if isDownload k then l else sinceDownload rest
  end.

(** The outcomes of the copies of a run, and the status codes it was
    answered with. *)
Definition copyOf (o : Prog.obs Sys) : option error :=
  match o with
  | Prog.Obs e reply =>
      match e in Sys X return X -> option error with
      | CopyBody _ => fun r => Some r
      | _ => fun _ => None
      end reply
  end.

Definition copies (tr : list (Prog.obs Sys)) : list error := omap copyOf tr.

Definition answerOf (o : Prog.obs Sys) : option (option Z) :=
  match o with
  | Prog.Obs e reply =>
      match e in Sys X return X -> option (option Z) with
      | HttpGet _ => fun r =>
          Some match r.2 with
               | None => Some (StatusCode r.1)
               | Some _ => None
               end
      | _ => fun _ => None
      end reply
  end.

(** For each [http.Get] of a run, the status code of the response, or
    nothing when the transport failed. *)
Definition answers (tr : list (Prog.obs Sys)) : list (option Z) := omap answerOf tr.

(** The commands a run started, and how their runs ended. *)
Definition startedBy (o : Prog.obs Sys) : option (list string) :=
  match o with
  | Prog.Obs e _ =>
      match e with
      | Start command => Some command
      | _ => None
      end
  end.

Definition started (tr : list (Prog.obs Sys)) : list (list string) := omap startedBy tr.

Definition waitOf (o : Prog.obs Sys) : option error :=
  match o with
  | Prog.Obs e reply =>
      match e in Sys X return X -> option error with
      | Wait _ => fun r => Some r
      | _ => fun _ => None
      end reply
  end.

Definition waits (tr : list (Prog.obs Sys)) : list error := omap waitOf tr.

(** The ffmpeg command of a download: copy the streams of [url] into
    [outputPath], overwriting, with the progress on standard output. *)
Definition ffmpegCommand (outputPath url : string) : list string :=
  ["ffmpeg"; "-i"; url; "-c"; "copy"; "-bsf:a"; "aac_adtstoasc";
   "-progress"; "pipe:1"; "-loglevel"; "error"; "-nostats"; "-y"; outputPath].

(** The file name of an episode. *)
Definition episodeFile (sanitizeFilename : string -> string) (name : string) (epNumber : Z)
    : string :=
  sanitizeFilename name +:+ "_EP_" +:+ Itoa epNumber +:+ ".mp4".

(** Every file a run names is the episode's file in the directory the run
    was given, and the name of that file holds none of the nine bytes. *)
Definition keepsToDirectory (sanitizeFilename : string -> string)
    (filepath_Join : string -> string -> string) (epNumber : Z) (p : prog error) : Prop :=
  forall (S : Type) (h : Prog.env Sys S) (s : S),
    let tr := Prog.trace h p s in
    let file := episodeFile sanitizeFilename (askedName tr) epNumber in
    clean file /\
    Forall (eq (filepath_Join (askedDirectory tr) file)) (touched tr).

(** Which downloader a run takes, and for which address: the first link is
    the only address the run names, and the only playlist it starts
    [estimateM3U8Size] on. *)
Definition routed (filepath_Join : string -> string -> string) (links : list string)
    (p : prog error) : Prop :=
  forall (S : Type) (h : Prog.env Sys S) (s : S),
    let tr := Prog.trace h p s in
    match links with
    | [] =>
        Prog.result h p s = Some "no download links available for this episode" /\
        steps tr = [Asking]
    | videoURL :: _ =>
        Forall (eq videoURL) (fetched tr) /\
        Forall (eq videoURL) (followed tr) /\
        (existsb isStream (steps tr) = true -> Contains videoURL "m3u8" = true) /\
        (existsb isFetch (steps tr) = true -> Contains videoURL "m3u8" = false)
    end.

(** How a run ends. *)
Definition concluded (sanitizeFilename : string -> string) (epNumber : Z)
    (links : list string) (p : prog error) : Prop :=
  forall (S : Type) (h : Prog.env Sys S) (s : S),
    let tr := Prog.trace h p s in
    let file := episodeFile sanitizeFilename (askedName tr) epNumber in
    (Prog.result h p s = None <->
     last (console tr) = Some ("✓ Download complete: " +:+ file)) /\
    match removals tr with
    | [] | [None] => links <> [] -> existsb isDownload (steps tr) = true
    | [Some err] =>
        Prog.result h p s = Some ("failed to remove existing file: " +:+ err) /\
        existsb isDownload (steps tr) = false
    | _ => False
    end /\
    existsb isRemoving (sinceDownload (steps tr)) = false.

(** The answers to the search for a program on the path. *)
Definition lookupOf (o : Prog.obs Sys) : option (string * error) :=
  match o with
  | Prog.Obs e reply =>
      match e in Sys X return X -> option (string * error) with
      | LookPath file => fun r => Some (file, r)
      | _ => fun _ => None
      end reply
  end.

Definition lookups (tr : list (Prog.obs Sys)) : list (string * error) := omap lookupOf tr.

(** A run that begins by creating [name]. *)
Definition firstCreates (name : string) (tr : list (Prog.obs Sys)) : Prop :=
  match tr with
  | o :: _ => stepOf o = Fetching /\ touchedBy o = Some name
  | [] => False
  end.

(** What a direct download does. *)
Definition fileFetched (filepath url : string) (p : prog error) : Prop :=
  forall (S : Type) (h : Prog.env Sys S) (s : S),
    let tr := Prog.trace h p s in
    firstCreates filepath tr /\
    touched tr = [filepath] /\
    Forall (eq url) (fetched tr) /\
    existsb isRemoving (steps tr) = false /\
    (copies tr <> [] -> answers tr = [Some StatusOK]) /\
    (Prog.result h p s = None <-> copies tr = [None]).

(** What a download through ffmpeg does.  [estimateM3U8Size] is started
    at most once, on the address given, and only when that address contains
    [".m3u8"]. *)
Definition streamed (outputPath url : string) (p : prog error) : Prop :=
  forall (S : Type) (h : Prog.env Sys S) (s : S),
    let tr := Prog.trace h p s in
    match lookups tr with
    | [("ffmpeg", Some _)] =>
        Prog.result h p s =
          Some "ffmpeg not found. Please install ffmpeg to download streaming videos" /\
        length tr = 1%nat
    | [("ffmpeg", None)] =>
        Forall (eq (ffmpegCommand outputPath url)) (started tr) /\
        Forall (eq url) (fetched tr) /\
        (followed tr = [] \/ followed tr = [url] /\ Contains url ".m3u8" = true) /\
        (Prog.result h p s = None <-> waits tr = [None])
    | _ => False
    end.

(** The requests of a size probe, each with the length its response
    announced (nothing when the request failed), and the sizes
    [estimateM3U8Size] came back with. *)
Definition lengthOf (o : Prog.obs Sys) : option (option Z) :=
  match o with
  | Prog.Obs e reply =>
      match e in Sys X return X -> option (option Z) with
      | HttpHead _ | ClientDo _ _ _ => fun r =>
          Some match r.2 with
               | None => Some (ContentLength r.1)
               | Some _ => None
               end
      | _ => fun _ => None
      end reply
  end.

Definition lengths (tr : list (Prog.obs Sys)) : list (option Z) := omap lengthOf tr.

Definition estimateOf (o : Prog.obs Sys) : option (Z * error) :=
  match o with
  | Prog.Obs e reply =>
      match e in Sys X return X -> option (Z * error) with
      | EstimateM3U8Size _ => fun r => Some r
      | _ => fun _ => None
      end reply
  end.

Definition estimates (tr : list (Prog.obs Sys)) : list (Z * error) := omap estimateOf tr.

(** The requests of a size probe, by method and headers. *)
Definition probeOf (o : Prog.obs Sys) : option (string * list (string * string)) :=
  match o with
  | Prog.Obs e _ =>
      match e with
      | HttpHead _ => Some ("HEAD", [])
      | ClientDo method _ header => Some (method, header)
      | _ => None
      end
  end.

Definition probes (tr : list (Prog.obs Sys)) : list (string * list (string * string)) :=
  omap probeOf tr.

(** What [getFileSize] does.  It asks with [HEAD], and with a [GET] for
    the first byte only after a [HEAD] that failed; every address it names
    is the one given.  A positive length announced by the response is the
    size.  Without one, [estimateM3U8Size] is started on the address when
    it contains [".m3u8"], and its outcome is the outcome; otherwise the
    size stays unknown.  When no request was answered the size is unknown
    as well. *)
Definition sized (url : string) (p : prog (Z * error)) : Prop :=
  forall (S : Type) (h : Prog.env Sys S) (s : S),
    let tr := Prog.trace h p s in
    let r := Prog.result h p s in
    let byHead := [("HEAD", [])] in
    let byGet := [("HEAD", []); ("GET", [("Range", "bytes=0-0")])] in
    let answered n :=
      if n >? 0 then r = (n, None) /\ followed tr = []
      else if Contains url ".m3u8" then followed tr = [url] /\ estimates tr = [r]
      else r = (0, Some "could not determine file size") /\ followed tr = [] in
    let unanswered := r.1 = 0 /\ r.2 <> None /\ followed tr = [] in
    Forall (eq url) (fetched tr) /\
    match lengths tr with
    | [Some n] => probes tr = byHead /\ answered n
    | [None] => probes tr = byHead /\ unanswered
    | [None; Some n] => probes tr = byGet /\ answered n
    | [None; None] => probes tr = byGet /\ unanswered
    | _ => False
    end.

(** Stand-ins for the parameters, for the worked examples. *)
Definition asIs (s : string) : string := s.
Definition joinSlash (dir file : string) : string := dir +:+ "/" +:+ file.
Definition inDownloads (config : CurdConfig) : string := "$HOME/Downloads".

Definition sampleAnime (links : list string) : Anime :=
  {| Anime_Title := {| Romaji := "Monster"; English := "Monster" |};
     Ep_Number := 3; Ep_Links := links; TotalEpisodes := 74; Anime_CoverImage := "";
     AnilistId := 19; MalId := 19; AllanimeId := "abc"; IsAiring := false |}.

End DownloadObs.

(** ** [internal/myanimelist.go]: the token file *)

Module MALAuth.
Import Go.

(** A [time.Time], as the instant it stands for: nanoseconds since the
    epoch. *)
Definition Time : Type := Z.

(** [t.Before(u)]. *)
Definition Before (t u : Time) : bool := t <? u.

Record MALToken : Type := {
  AccessToken : string;
  RefreshToken : string;
  TokenType : string;
  ExpiresIn : Z;
  ExpiresAt : Time
}.

(** The file system and the clock.  Permissions are the numbers Go writes
    in octal. *)
Inductive Sys : Type -> Type :=
| ReadFile (name : string) : Sys (string * error)
| MkdirAll (path : string) (perm : Z) : Sys error
| WriteFile (name data : string) (perm : Z) : Sys error
| Now : Sys Time.

Abbreviation prog := (Prog.t Sys).
Local Open Scope prog_scope.

Definition os_ReadFile (name : string) : prog (string * error) := Prog.call (ReadFile name).
Definition os_MkdirAll (path : string) (perm : Z) : prog error :=
  Prog.call (MkdirAll path perm).
Definition os_WriteFile (name data : string) (perm : Z) : prog error :=
  Prog.call (WriteFile name data perm).
Definition time_Now : prog Time := Prog.call Now.


Section Codec.
(** [json.Unmarshal] into a [MALToken], [json.Marshal] of a [*MALToken], and
    [filepath.Dir]. *)
Variable Unmarshal : string -> MALToken * error.
Variable Marshal : option MALToken -> string * error.
Variable filepath_Dir : string -> string.



(** The conjunction reads the clock only when the token is there and its
    access token is not empty. *)
Definition isMALTokenValid (token : option MALToken) : prog bool :=
  match token with
  | None => Prog.Ret false
  | Some token =>
      if negb (AccessToken token =? "")%string then
        now <- time_Now;
        Prog.Ret (Before now (ExpiresAt token))
      else Prog.Ret false
  end.

Definition GetMALTokenFromFile (tokenPath : string) : prog (string * error) :=
  r <- os_ReadFile tokenPath;
  match r with
  | (_, Some err) => Prog.Ret ("", Some ("failed to read token from file: " +:+ err))
  | (data, None) =>
      match Unmarshal data with
      | (_, Some err) => Prog.Ret ("", Some ("failed to parse token file: " +:+ err))
      | (token, None) =>
          valid <- isMALTokenValid (Some token);
          if negb valid then Prog.Ret ("", Some "token has expired")
          else Prog.Ret (AccessToken token, None)
      end
  end.

End Codec.
End MALAuth.

(** ** What a run on the token file shows *)

Module MALAuthObs.
Import Go MALAuth.

(** The files a run read, with what it was given. *)
Definition readOf (o : Prog.obs Sys) : option (string * (string * error)) :=
  match o with
  | Prog.Obs e reply =>
      match e in Sys X return X -> option (string * (string * error)) with
      | ReadFile name => fun r => Some (name, r)
      | _ => fun _ => None
      end reply
  end.

Definition reads (tr : list (Prog.obs Sys)) : list (string * (string * error)) :=
  omap readOf tr.

(** The instants a run read off the clock. *)
Definition instantOf (o : Prog.obs Sys) : option Time :=
  match o with
  | Prog.Obs e reply =>
      match e in Sys X return X -> option Time with
      | Now => fun r => Some r
      | _ => fun _ => None
      end reply
  end.

Definition clock (tr : list (Prog.obs Sys)) : list Time := omap instantOf tr.

(** The directories a run made and the files it wrote, each with the
    permissions asked for. *)
Definition madeBy (o : Prog.obs Sys) : option (string * Z) :=
  match o with
  | Prog.Obs e _ =>
      match e with
      | MkdirAll path perm => Some (path, perm)
      | _ => None
      end
  end.

Definition made (tr : list (Prog.obs Sys)) : list (string * Z) := omap madeBy tr.

Definition writtenBy (o : Prog.obs Sys) : option (string * string * Z) :=
  match o with
  | Prog.Obs e _ =>
      match e with
      | WriteFile name data perm => Some (name, data, perm)
      | _ => None
      end
  end.

Definition written (tr : list (Prog.obs Sys)) : list (string * string * Z) :=
  omap writtenBy tr.

(** A token that is good at [now]. *)
Definition good (token : MALToken) (now : Time) : Prop :=
  AccessToken token <> "" /\ now < ExpiresAt token.

(** What [GetMALTokenFromFile] does with the file at [tokenPath]. *)
Definition tokenRead (Unmarshal : string -> MALToken * error) (tokenPath : string)
    (p : prog (string * error)) : Prop :=
  forall (S : Type) (h : Prog.env Sys S) (s : S),
    let tr := Prog.trace h p s in
    let r := Prog.result h p s in
    fst <$> reads tr = [tokenPath] /\
    made tr = [] /\ written tr = [] /\
    (r.2 = None <->
     exists (data : string) (token : MALToken) (now : Time),
       snd <$> reads tr = [(data, None)] /\ Unmarshal data = (token, None) /\
       clock tr = [now] /\ good token now /\ r.1 = AccessToken token) /\
    (r.2 <> None -> r.1 = "") /\
    (forall (data : string) (token : MALToken),
       snd <$> reads tr = [(data, None)] -> Unmarshal data = (token, None) ->
       (AccessToken token = "" -> clock tr = []) /\
       (r.2 <> None -> r.2 = Some "token has expired")).





End MALAuthObs.

(** ** [internal/download.go]: the menus *)

Module DownloadMenu.
Import Go.

(** The field of [User] the menu reads. *)
Record User : Type := {
  User_AnimeList : AnimeList
}.

(** What the menus call outside themselves: the selection dialogs, the log
    and the console, the local database, the catalogue search, the link
    resolver and [DownloadEpisode]. *)
Inductive Callee : Type -> Type :=
| Select (options : list SelectionOption) : Callee (SelectionOption * error)
| MultiSelect (options : list SelectionOption) : Callee (list SelectionOption * error)
| LogLine (msg : string) : Callee unit
| OutLine (msg : string) : Callee unit
| FindLocal (animes : list Anime) (anilistId : Z) (allanimeId : string)
    : Callee (option Anime)
| Search (query mode : string) : Callee (list SelectionOption * error)
| EpisodeURL (config : CurdConfig) (allanimeId : string) (epNum : Z)
    : Callee (list string * error)
| Download (anime : Anime) (config : CurdConfig) : Callee error.

Abbreviation prog := (Prog.t Callee).
Local Open Scope prog_scope.

Definition DynamicSelect (options : list SelectionOption) : prog (SelectionOption * error) :=
  Prog.call (Select options).
Definition DynamicMultiSelect (options : list SelectionOption)
    : prog (list SelectionOption * error) :=
  Prog.call (MultiSelect options).
Definition Log (msg : string) : prog unit := Prog.call (LogLine msg).
Definition CurdOut (msg : string) : prog unit := Prog.call (OutLine msg).
Definition LocalFindAnime (animes : list Anime) (anilistId : Z) (allanimeId : string)
    : prog (option Anime) :=
  Prog.call (FindLocal animes anilistId allanimeId).
Definition SearchAnime (query mode : string) : prog (list SelectionOption * error) :=
  Prog.call (Search query mode).
Definition GetEpisodeURL (config : CurdConfig) (allanimeId : string) (epNum : Z)
    : prog (list string * error) :=
  Prog.call (EpisodeURL config allanimeId epNum).
Definition DownloadEpisode (anime : Anime) (config : CurdConfig) : prog error :=
  Prog.call (Download anime config).

(** The newline of ["\n"]. *)
Definition newline : string := String "010"%char "".

Definition setEp_Number (anime : Anime) (number : Z) : Anime :=
  {| Anime_Title := Anime_Title anime; Ep_Number := number; Ep_Links := Ep_Links anime;
     TotalEpisodes := TotalEpisodes anime; Anime_CoverImage := Anime_CoverImage anime;
     AnilistId := AnilistId anime; MalId := MalId anime; AllanimeId := AllanimeId anime;
     IsAiring := IsAiring anime |}.

Definition setEp_Links (anime : Anime) (links : list string) : Anime :=
  {| Anime_Title := Anime_Title anime; Ep_Number := Ep_Number anime; Ep_Links := links;
     TotalEpisodes := TotalEpisodes anime; Anime_CoverImage := Anime_CoverImage anime;
     AnilistId := AnilistId anime; MalId := MalId anime; AllanimeId := AllanimeId anime;
     IsAiring := IsAiring anime |}.

Definition setAllanimeId (anime : Anime) (allanimeId : string) : Anime :=
  {| Anime_Title := Anime_Title anime; Ep_Number := Ep_Number anime;
     Ep_Links := Ep_Links anime;
     TotalEpisodes := TotalEpisodes anime; Anime_CoverImage := Anime_CoverImage anime;
     AnilistId := AnilistId anime; MalId := MalId anime; AllanimeId := allanimeId;
     IsAiring := IsAiring anime |}.

Definition backOption : SelectionOption := {| Key := "back"; Label := "<- Back" |}.

Section Menu.
(** [fmt.Sscanf(key, "%d", &epNum)]: the integer scanned, or nothing when
    none was, which leaves [epNum] at zero. *)
Variable Sscanf_d : string -> option Z.
(** [config.AnimeNameLanguage] and [config.SubOrDub], fields of
    [CurdConfig] beside the ones above, and [entry.Media.Title] with its
    romaji and english forms. *)
Variable AnimeNameLanguage : CurdConfig -> string.
Variable SubOrDub : CurdConfig -> string.
Variable MediaTitle : Media -> AnimeTitle.

(** The loop over the selected episodes, [i] counting them. *)
Fixpoint downloadSelected (anime : Anime) (config : CurdConfig)
    (validEpisodes : list SelectionOption) (i total successCount failCount : Z)
    : prog (Anime * Z * Z) :=
  match validEpisodes with
  | [] => Prog.Ret (anime, successCount, failCount)
  | selected :: rest =>
      let epNum := default 0 (Sscanf_d (Key selected)) in
      if epNum <=? 0 then
        CurdOut ("Invalid episode selection: " +:+ Key selected);;
        downloadSelected anime config rest (i + 1) total successCount (failCount + 1)
      else
        CurdOut (newline +:+ "[" +:+ Itoa (i + 1) +:+ "/" +:+ Itoa total +:+
                 "] Downloading Episode " +:+ Itoa epNum +:+ "...");;
        let anime := setEp_Number anime epNum in
        r <- GetEpisodeURL config (AllanimeId anime) epNum;
        match r with
        | (_, Some err) =>
            CurdOut ("Error getting episode links for Episode " +:+ Itoa epNum +:+
                     ": " +:+ err);;
            downloadSelected anime config rest (i + 1) total successCount (failCount + 1)
        | (links, None) =>
            if lenSlice links =? 0 then
              CurdOut ("No download links available for Episode " +:+ Itoa epNum);;
              downloadSelected anime config rest (i + 1) total successCount (failCount + 1)
            else
              let anime := setEp_Links anime links in
              err <- DownloadEpisode anime config;
              match err with
              | Some err =>
                  CurdOut ("Error downloading Episode " +:+ Itoa epNum +:+ ": " +:+ err);;
                  downloadSelected anime config rest (i + 1) total successCount
                                   (failCount + 1)
              | None =>
                  downloadSelected anime config rest (i + 1) total (successCount + 1)
                                   failCount
              end
        end
  end.

(** The episode menu: the back button, then one option per episode from 1
    to the total, the current one marked. *)
Definition episodeOptions (anime : Anime) : list SelectionOption :=
  let episodes := [backOption] in
  let currentEp := Ep_Number anime in
  fold_left
    (fun episodes i =>
       let label := "Episode " +:+ Itoa i in
       let label := if i =? currentEp then label +:+ " (Current)" else label in
       app episodes [ {| Key := Itoa i; Label := label |} ])
    (seqZ 1 (TotalEpisodes anime)) episodes.

Definition continueOptions : list SelectionOption :=
  [ {| Key := "yes"; Label := "Download more episodes" |};
    {| Key := "no"; Label := "Back to main menu" |} ].

(** [downloadEpisodeSelection] calls itself for as long as the user asks
    for more; [fuel] bounds the number of rounds, and [None] is the answer
    of a run that used it up.  The changes of a round to [anime] stay for
    the next one. *)
Fixpoint downloadEpisodeSelection (fuel : nat) (anime : Anime) (config : CurdConfig)
    : prog (option unit) :=
  match fuel with
  | O => Prog.Ret None
  | S fuel =>
      if TotalEpisodes anime =? 0 then
        CurdOut "Total episodes information not available";;
        Prog.Ret (Some tt)
      else
        let episodes := episodeOptions anime in
        r <- DynamicMultiSelect episodes;
        match r with
        | (_, Some err) =>
            CurdOut ("Selection cancelled: " +:+ err);;
            Prog.Ret (Some tt)
        | (selectedEpisodes, None) =>
            if lenSlice selectedEpisodes =? 0 then Prog.Ret (Some tt)
            else
              let validEpisodes :=
                fold_left
                  (fun validEpisodes ep =>
                     if negb (Key ep =? "back")%string && negb (Key ep =? "-1")%string
                     then app validEpisodes [ep] else validEpisodes)
                  selectedEpisodes [] in
              if lenSlice validEpisodes =? 0 then Prog.Ret (Some tt)
              else
                done <- downloadSelected anime config validEpisodes 0
                                         (lenSlice validEpisodes) 0 0;
                let '(anime, successCount, failCount) := done in
                CurdOut (newline +:+ "✓ Download complete! Success: " +:+
                         Itoa successCount +:+ ", Failed: " +:+ Itoa failCount);;
                r <- DynamicSelect continueOptions;
                match r with
                | (_, Some _) => Prog.Ret (Some tt)
                | (continueChoice, None) =>
                    if (Key continueChoice =? "no")%string ||
                       (Key continueChoice =? "-1")%string
                    then Prog.Ret (Some tt)
                    else downloadEpisodeSelection fuel anime config
                end
        end
  end.

Definition getAnimeNameFromEntry (config : CurdConfig) (title : AnimeTitle) : string :=
  if negb (English title =? "")%string && (AnimeNameLanguage config =? "english")%string
  then English title
  else Romaji title.

(** One of the four loops that fill the menu; the preview map is filled
    beside the options, and nothing reads it. *)
Definition addEntries (config : CurdConfig) (category : list Entry)
    (filled : list SelectionOption * gmap string MALAccount.RofiSelectPreview)
    : list SelectionOption * gmap string MALAccount.RofiSelectPreview :=
  fold_left
    (fun filled entry =>
       let '(animeListOptions, animeListMapPreview) := filled in
       let option :=
         {| Key := Itoa (ID (EntryMedia entry));
            Label := getAnimeNameFromEntry config (MediaTitle (EntryMedia entry)) +:+
                     " (" +:+ Itoa (Episodes (EntryMedia entry)) +:+ " episodes)" |} in
       (app animeListOptions [option],
        <[Key option := {| MALAccount.Preview_Title := Label option;
                           MALAccount.Preview_CoverImage := CoverImage entry |}]>
          animeListMapPreview))
    category filled.

(** One of the four loops that look the selection up, up to its [break]. *)
Fixpoint findSelected (category : list Entry) (selectedID : string) : option Entry :=
  match category with
  | [] => None
  | entry :: rest =>
      if (Itoa (ID (EntryMedia entry)) =? selectedID)%string then Some entry
      else findSelected rest selectedID
  end.

(** The loop that matches a search result by its label. *)
Fixpoint autoMatch (animeList : list SelectionOption) (targetLabel : string)
    : option string :=
  match animeList with
  | [] => None
  | option :: rest =>
      if (Label option =? targetLabel)%string then Some (Key option)
      else autoMatch rest targetLabel
  end.

Definition DownloadAnimeMenu (fuel : nat) (config : CurdConfig) (user : User)
    (databaseAnimes : list Anime) : prog (option unit) :=
  let animeListOptions : list SelectionOption := [] in
  let animeListMapPreview : gmap string MALAccount.RofiSelectPreview := ∅ in
  let animeListOptions := app animeListOptions [backOption] in
  let filled := (animeListOptions, animeListMapPreview) in
  let filled := addEntries config (Watching (User_AnimeList user)) filled in
  let filled := addEntries config (Completed (User_AnimeList user)) filled in
  let filled := addEntries config (Paused (User_AnimeList user)) filled in
  let filled := addEntries config (Planning (User_AnimeList user)) filled in
  let '(animeListOptions, animeListMapPreview) := filled in
  r <- DynamicSelect animeListOptions;
  match r with
  | (_, Some err) =>
      Log ("Error selecting anime: " +:+ err);;
      Prog.Ret (Some tt)
  | (selectedAnime, None) =>
      if (Key selectedAnime =? "back")%string || (Key selectedAnime =? "-1")%string
      then Prog.Ret (Some tt)
      else
        let selectedID := Key selectedAnime in
        let animeEntry := findSelected (Watching (User_AnimeList user)) selectedID in
        let animeEntry :=
          match animeEntry with
          | None => findSelected (Completed (User_AnimeList user)) selectedID
          | Some _ => animeEntry
          end in
        let animeEntry :=
          match animeEntry with
          | None => findSelected (Paused (User_AnimeList user)) selectedID
          | Some _ => animeEntry
          end in
        let animeEntry :=
          match animeEntry with
          | None => findSelected (Planning (User_AnimeList user)) selectedID
          | Some _ => animeEntry
          end in
        match animeEntry with
        | None =>
            CurdOut "Error: Could not find selected anime";;
            Prog.Ret (Some tt)
        | Some animeEntry =>
            let anime :=
              {| Anime_Title := MediaTitle (EntryMedia animeEntry);
                 Ep_Number := Ep_Number zeroAnime;
                 Ep_Links := Ep_Links zeroAnime;
                 TotalEpisodes := Episodes (EntryMedia animeEntry);
                 Anime_CoverImage := CoverImage animeEntry;
                 AnilistId := ID (EntryMedia animeEntry);
                 MalId := MalId zeroAnime;
                 AllanimeId := AllanimeId zeroAnime;
                 IsAiring := IsAiring zeroAnime |} in
            let currentEp := Progress animeEntry + 1 in
            let anime := setEp_Number anime currentEp in
            animePointer <- LocalFindAnime databaseAnimes (AnilistId anime) "";
            match animePointer with
            | Some animePointer =>
                let anime := setAllanimeId anime (AllanimeId animePointer) in
                downloadEpisodeSelection fuel anime config
            | None =>
                let userQuery := Romaji (Anime_Title anime) in
                r <- SearchAnime userQuery (SubOrDub config);
                match r with
                | (_, Some err) =>
                    CurdOut ("Error searching anime: " +:+ err);;
                    Prog.Ret (Some tt)
                | (animeList, None) =>
                    if lenSlice animeList =? 0 then
                      CurdOut "No results found for this anime";;
                      Prog.Ret (Some tt)
                    else
                      let targetLabel :=
                        userQuery +:+ " (" +:+ Itoa (TotalEpisodes anime) +:+ " episodes)" in
                      match autoMatch animeList targetLabel with
                      | Some key =>
                          let anime := setAllanimeId anime key in
                          downloadEpisodeSelection fuel anime config
                      | None =>
                          CurdOut "Could not auto-match anime, please select manually:";;
                          r <- DynamicSelect animeList;
                          match r with
                          | (_, Some _) => Prog.Ret (Some tt)
                          | (selectedAllanime, None) =>
                              if (Key selectedAllanime =? "-1")%string
                              then Prog.Ret (Some tt)
                              else
                                let anime := setAllanimeId anime (Key selectedAllanime) in
                                downloadEpisodeSelection fuel anime config
                          end
                      end
                end
            end
        end
  end.

End Menu.
End DownloadMenu.

(** ** Where a run leaves the environment *)

Module ProgObs.

(** The state of the environment after a run. *)
Fixpoint final {E : Type -> Type} {S R : Type} (h : Prog.env E S) (p : Prog.t E R) (s : S)
    : S :=
  match p with
  | Prog.Ret _ => s
  | Prog.Vis e k => final h (k (h _ e s).1) (h _ e s).2
  end.

End ProgObs.

(** ** What a run of the menus shows *)

Module DownloadMenuObs.
Import Go GoStrings DownloadMenu.

(** The calls of [DownloadEpisode], each with its outcome. *)
Definition downloadOf (o : Prog.obs Callee) : option (Anime * error) :=
  match o with
  | Prog.Obs e reply =>
      match e in Callee X return X -> option (Anime * error) with
      | Download anime _ => fun r => Some (anime, r)
      | _ => fun _ => None
      end reply
  end.

Definition downloads (tr : list (Prog.obs Callee)) : list (Anime * error) :=
  omap downloadOf tr.

(** The calls of [GetEpisodeURL]: the show, the episode, and the answer. *)
Definition resolutionOf (o : Prog.obs Callee)
    : option (string * Z * (list string * error)) :=
  match o with
  | Prog.Obs e reply =>
      match e in Callee X return X -> option (string * Z * (list string * error)) with
      | EpisodeURL _ allanimeId epNum => fun r => Some (allanimeId, epNum, r)
      | _ => fun _ => None
      end reply
  end.

Definition resolutions (tr : list (Prog.obs Callee))
    : list (string * Z * (list string * error)) :=
  omap resolutionOf tr.

(** The console lines of a run. *)
Definition outLine (o : Prog.obs Callee) : option string :=
  match o with
  | Prog.Obs e _ =>
      match e with
      | OutLine msg => Some msg
      | _ => None
      end
  end.

Definition console (tr : list (Prog.obs Callee)) : list string := omap outLine tr.

(** The episodes picked in the multi-selection dialogs of a run: for each
    dialog that was not cancelled, the picks other than the back button. *)
Definition isPick (ep : SelectionOption) : bool :=
  negb (Key ep =? "back")%string && negb (Key ep =? "-1")%string.

Definition picksOf (o : Prog.obs Callee) : option (list SelectionOption) :=
  match o with
  | Prog.Obs e reply =>
      match e in Callee X return X -> option (list SelectionOption) with
      | MultiSelect _ => fun r =>
          match r with
          | (selected, None) => Some (List.filter isPick selected)
          | (_, Some _) => None
          end
      | _ => fun _ => None
      end reply
  end.

Definition picks (tr : list (Prog.obs Callee)) : list SelectionOption :=
  concat (omap picksOf tr).

(** The episode an answer of [GetEpisodeURL] makes ready for download: the
    show with that episode number and those links, when there are links. *)
Definition downloadable (anime : Anime) (r : string * Z * (list string * error))
    : option Anime :=
  match r with
  | (_, epNum, (links, None)) =>
      match links with
      | [] => None
      | _ :: _ => Some (setEp_Links (setEp_Number anime epNum) links)
      end
  | (_, _, (_, Some _)) => None
  end.

(** Every download of a run is the download of an episode whose links were
    just resolved, for the show the menu was opened on. *)
Definition downloadsResolved (anime : Anime) (p : prog (option unit)) : Prop :=
  forall (S : Type) (h : Prog.env Callee S) (s : S),
    let tr := Prog.trace h p s in
    Forall (fun r => r.1.1 = AllanimeId anime /\ 0 < r.1.2) (resolutions tr) /\
    fst <$> downloads tr = omap (downloadable anime) (resolutions tr).

(** The summary line of a round. *)
Definition summaryLine (tally : Z * Z) : string :=
  newline +:+ "✓ Download complete! Success: " +:+ Itoa tally.1 +:+
  ", Failed: " +:+ Itoa tally.2.

Definition isSummary (line : string) : bool :=
  HasPrefix line (newline +:+ "✓ Download complete! Success: ").

(** The lines that report an episode that was not downloaded. *)
Definition isFailureReport (line : string) : bool :=
  HasPrefix line "Invalid episode selection: " ||
  HasPrefix line "Error getting episode links for Episode " ||
  HasPrefix line "No download links available for Episode " ||
  HasPrefix line "Error downloading Episode ".

Definition succeededDownload (d : Anime * error) : bool :=
  match d.2 with None => true | Some _ => false end.

Definition total (l : list Z) : Z := fold_right Z.add 0 l.

(** The summaries of a run add up: their successes are the downloads that
    returned no error, their failures are the failure reports printed, and
    together they are the episodes picked. *)
Definition talliesAddUp (p : prog (option unit)) : Prop :=
  forall (S : Type) (h : Prog.env Callee S) (s : S),
    let tr := Prog.trace h p s in
    exists tallies : list (Z * Z),
      List.filter isSummary (console tr) = summaryLine <$> tallies /\
      total (fst <$> tallies) =
        Z.of_nat (length (List.filter succeededDownload (downloads tr))) /\
      total (snd <$> tallies) =
        Z.of_nat (length (List.filter isFailureReport (console tr))) /\
      total (fst <$> tallies) + total (snd <$> tallies) = Z.of_nat (length (picks tr)).

(** Two values of [Anime] that differ in the episode at most. *)
Definition sameShow (a b : Anime) : Prop :=
  Anime_Title a = Anime_Title b /\ TotalEpisodes a = TotalEpisodes b /\
  Anime_CoverImage a = Anime_CoverImage b /\ AnilistId a = AnilistId b /\
  MalId a = MalId b /\ AllanimeId a = AllanimeId b /\ IsAiring a = IsAiring b.

(** What the loop over the picked episodes amounts to, started on [anime]
    with the counters at [successCount] and [failCount]. *)
Definition loopFacts (anime : Anime) (picked : nat) (successCount failCount : Z)
    (rt : Anime * Z * Z * list (Prog.obs Callee)) : Prop :=
  let tr := rt.2 in
  sameShow rt.1.1.1 anime /\
  rt.1.1.2 = successCount + Z.of_nat (length (List.filter succeededDownload (downloads tr))) /\
  rt.1.2 = failCount + Z.of_nat (length (List.filter isFailureReport (console tr))) /\
  rt.1.1.2 + rt.1.2 = successCount + failCount + Z.of_nat picked /\
  List.filter isSummary (console tr) = [] /\
  picks tr = [] /\
  Forall (fun r => r.1.1 = AllanimeId anime /\ 0 < r.1.2) (resolutions tr) /\
  fst <$> downloads tr = omap (downloadable anime) (resolutions tr).

(** What a run of the episode menu amounts to. *)
Definition roundFacts (anime : Anime) (tr : list (Prog.obs Callee)) : Prop :=
  (Forall (fun r => r.1.1 = AllanimeId anime /\ 0 < r.1.2) (resolutions tr) /\
   fst <$> downloads tr = omap (downloadable anime) (resolutions tr)) /\
  exists tallies : list (Z * Z),
    List.filter isSummary (console tr) = summaryLine <$> tallies /\
    total (fst <$> tallies) =
      Z.of_nat (length (List.filter succeededDownload (downloads tr))) /\
    total (snd <$> tallies) =
      Z.of_nat (length (List.filter isFailureReport (console tr))) /\
    total (fst <$> tallies) + total (snd <$> tallies) = Z.of_nat (length (picks tr)).

(** The selection dialogs of a run: the options shown and the answer. *)
Definition choiceOf (o : Prog.obs Callee)
    : option (list SelectionOption * (SelectionOption * error)) :=
  match o with
  | Prog.Obs e reply =>
      match e in Callee X
            return X -> option (list SelectionOption * (SelectionOption * error)) with
      | Select options => fun r => Some (options, r)
      | _ => fun _ => None
      end reply
  end.

Definition choices (tr : list (Prog.obs Callee))
    : list (list SelectionOption * (SelectionOption * error)) :=
  omap choiceOf tr.

(** The lookups of a run in the local database. *)
Definition lookupOf (o : Prog.obs Callee) : option (list Anime * Z * string) :=
  match o with
  | Prog.Obs e _ =>
      match e with
      | FindLocal animes anilistId allanimeId => Some (animes, anilistId, allanimeId)
      | _ => None
      end
  end.

Definition lookups (tr : list (Prog.obs Callee)) : list (list Anime * Z * string) :=
  omap lookupOf tr.

(** The log lines of a run. *)
Definition logLine (o : Prog.obs Callee) : option string :=
  match o with
  | Prog.Obs e _ =>
      match e with
      | LogLine msg => Some msg
      | _ => None
      end
  end.

Definition logged (tr : list (Prog.obs Callee)) : list string := omap logLine tr.

(** The entries the menu shows, in the order it shows them. *)
Definition shown (user : User) : list Entry :=
  Watching (User_AnimeList user) ++ Completed (User_AnimeList user) ++
  Paused (User_AnimeList user) ++ Planning (User_AnimeList user).

(** The option of an entry. *)
Definition entryOption (AnimeNameLanguage : CurdConfig -> string)
    (MediaTitle : Media -> AnimeTitle) (config : CurdConfig) (entry : Entry)
    : SelectionOption :=
  {| Key := Itoa (ID (EntryMedia entry));
     Label := getAnimeNameFromEntry AnimeNameLanguage config
                (MediaTitle (EntryMedia entry)) +:+
              " (" +:+ Itoa (Episodes (EntryMedia entry)) +:+ " episodes)" |}.

(** What the first dialog of the menu shows, and what the menu makes of
    the answer. *)
Definition selectionResolved (AnimeNameLanguage : CurdConfig -> string)
    (MediaTitle : Media -> AnimeTitle) (config : CurdConfig) (user : User)
    (databaseAnimes : list Anime) (p : prog (option unit)) : Prop :=
  forall (S : Type) (h : Prog.env Callee S) (s : S),
    let tr := Prog.trace h p s in
    fst <$> head (choices tr) =
      Some (backOption :: (entryOption AnimeNameLanguage MediaTitle config <$> shown user)) /\
    (forall (selected : SelectionOption) (err : string),
       snd <$> head (choices tr) = Some (selected, Some err) ->
       logged tr = ["Error selecting anime: " +:+ err] /\ length tr = 2%nat) /\
    (forall selected : SelectionOption,
       snd <$> head (choices tr) = Some (selected, None) ->
       (Key selected = "back" \/ Key selected = "-1" -> length tr = 1%nat) /\
       (Key selected <> "back" -> Key selected <> "-1" ->
        (forall entry : Entry,
           In entry (shown user) -> Key selected = Itoa (ID (EntryMedia entry)) ->
           head (lookups tr) = Some (databaseAnimes, ID (EntryMedia entry), "")) /\
        ((forall entry : Entry,
            In entry (shown user) -> Key selected <> Itoa (ID (EntryMedia entry))) ->
         console tr = ["Error: Could not find selected anime"] /\ length tr = 2%nat))).

End DownloadMenuObs.

(** ** [internal/myanimelist.go]: from a MyAnimeList ID to an AniList ID *)

Module AnilistBridge.
Import Go.

(** An [http.Request] with a JSON body, and what the function reads of the
    response. *)
Record Request : Type := {
  Method : string;
  URL : string;
  Header : gmap string string;
  Body : string
}.

Record Response : Type := {
  StatusCode : Z;
  ReadAll : string * error
}.

Inductive Sys : Type -> Type :=
| ClientDo (req : Request) : Sys (Response * error).

Abbreviation prog := (Prog.t Sys).
Local Open Scope prog_scope.

Definition client_Do (req : Request) : prog (Response * error) := Prog.call (ClientDo req).

(** The methods and the URL used below are valid: the error of
    [http.NewRequest] is [nil]. *)
Definition NewRequest (method url body : string) : Request * error :=
  ({| Method := method; URL := url; Header := ∅; Body := body |}, None).

Definition HeaderSet (key value : string) (req : Request) : Request :=
  {| Method := Method req; URL := URL req;
     Header := <[key := value]> (Header req); Body := Body req |}.

Definition StatusOK : Z := 200.

(** How a call ends: it returns, or it panics on a failed type
    assertion. *)
Inductive Outcome : Type :=
| Returned (id : Z) (err : error)
| Panicked.

Section Decode.
(** The values [json.Unmarshal] stores in an [interface{}], with the two
    type assertions the function makes on them, and [float64] with its
    conversion to [int]. *)
Variable Value : Type.
Variable float64 : Type.
Variable asMap : Value -> option (gmap string Value).
Variable asFloat64 : Value -> option float64.
Variable int_of_float64 : float64 -> Z.
(** [json.Marshal] of the request (the query text with [malId] among the
    variables) and [json.Unmarshal] into a [map[string]interface{}]. *)
Variable MarshalQuery : Z -> string * error.
Variable Unmarshal : string -> gmap string Value * error.

Definition ConvertMALIDToAnilist (malID : Z) (token : string) : prog Outcome :=
  let url := "https://graphql.anilist.co" in
  match MarshalQuery malID with
  | (_, Some err) =>
      Prog.Ret (Returned 0 (Some ("failed to marshal request body: " +:+ err)))
  | (requestBody, None) =>
      match NewRequest "POST" url requestBody with
      | (_, Some err) => Prog.Ret (Returned 0 (Some ("failed to create request: " +:+ err)))
      | (req, None) =>
          let req := HeaderSet "Content-Type" "application/json" req in
          let req :=
            if negb (token =? "")%string
            then HeaderSet "Authorization" ("Bearer " +:+ token) req
            else req in
          r <- client_Do req;
          match r with
          | (_, Some err) =>
              Prog.Ret (Returned 0 (Some ("failed to send request: " +:+ err)))
          | (resp, None) =>
              match ReadAll resp with
              | (_, Some err) =>
                  Prog.Ret (Returned 0 (Some ("failed to read response body: " +:+ err)))
              | (body, None) =>
                  if negb (StatusCode resp =? StatusOK) then
                    Prog.Ret (Returned 0 (Some ("failed with status " +:+
                                                Itoa (StatusCode resp) +:+ ": " +:+ body)))
                  else
                    match Unmarshal body with
                    | (_, Some err) =>
                        Prog.Ret (Returned 0 (Some ("failed to unmarshal response: " +:+
                                                    err)))
                    | (responseData, None) =>
                        match responseData !! "data" ≫= asMap with
                        | None => Prog.Ret (Returned 0 (Some "invalid response format"))
                        | Some data =>
                            match data !! "Media" ≫= asMap with
                            | None => Prog.Ret (Returned 0 (Some "anime not found"))
                            | Some media =>
                                match media !! "id" ≫= asFloat64 with
                                | None => Prog.Ret Panicked
                                | Some id =>
                                    let anilistID := int_of_float64 id in
                                    Prog.Ret (Returned anilistID None)
                                end
                            end
                        end
                    end
              end
          end
      end
  end.

End Decode.
End AnilistBridge.

Module AnilistBridgeObs.
Import Go AnilistBridge.

Definition requestOf (o : Prog.obs Sys) : option Request :=
  match o with
  | Prog.Obs e _ =>
      match e with
      | ClientDo req => Some req
      end
  end.

Definition requests (tr : list (Prog.obs Sys)) : list Request := omap requestOf tr.

Definition replyOf (o : Prog.obs Sys) : option (Response * error) :=
  match o with
  | Prog.Obs e reply =>
      match e in Sys X return X -> option (Response * error) with
      | ClientDo _ => fun r => Some r
      end reply
  end.

Definition replies (tr : list (Prog.obs Sys)) : list (Response * error) := omap replyOf tr.

(** The lookup request: the query as JSON, under the caller's bearer token
    when there is one and without an [Authorization] header otherwise. *)
Definition lookupRequest (token requestBody : string) : Request :=
  {| Method := "POST"; URL := "https://graphql.anilist.co";
     Header :=
       if (token =? "")%string
       then {[ "Content-Type" := "application/json" ]}
       else <["Authorization" := "Bearer " +:+ token]>
              {[ "Content-Type" := "application/json" ]};
     Body := requestBody |}.

Section Decode.
Variable Value : Type.
Variable float64 : Type.
Variable asMap : Value -> option (gmap string Value).
Variable asFloat64 : Value -> option float64.
Variable Unmarshal : string -> gmap string Value * error.

(** The [Media] object of a reply with status 200 whose body was read and
    decodes to [{"data": {"Media": {...}}}]. *)
Definition mediaOf (reply : Response * error) : option (gmap string Value) :=
  match reply with
  | (resp, None) =>
      match ReadAll resp with
      | (body, None) =>
          if StatusCode resp =? StatusOK then
            match Unmarshal body with
            | (responseData, None) =>
                data ← responseData !! "data" ≫= asMap;
                data !! "Media" ≫= asMap
            | (_, Some _) => None
            end
          else None
      | (_, Some _) => None
      end
  | (_, Some _) => None
  end.

(** What a lookup does. *)
Definition bridged (int_of_float64 : float64 -> Z) (MarshalQuery : Z -> string * error)
    (malID : Z) (token : string) (p : prog Outcome) : Prop :=
  forall (S : Type) (h : Prog.env Sys S) (s : S),
    let tr := Prog.trace h p s in
    match MarshalQuery malID with
    | (_, Some err) =>
        requests tr = [] /\
        Prog.result h p s = Returned 0 (Some ("failed to marshal request body: " +:+ err))
    | (requestBody, None) =>
        requests tr = [lookupRequest token requestBody] /\
        match Prog.result h p s with
        | Returned id None =>
            exists media number,
              mediaOf <$> replies tr = [Some media] /\
              media !! "id" ≫= asFloat64 = Some number /\ id = int_of_float64 number
        | Returned id (Some _) =>
            id = 0 /\
            forall media, mediaOf <$> replies tr <> [Some media]
        | Panicked =>
            exists media,
              mediaOf <$> replies tr = [Some media] /\
              media !! "id" ≫= asFloat64 = None
        end
    end.

End Decode.

End AnilistBridgeObs.

(** * Properties *)

Module SortSpec.
Import Go Sort SortObs.
Local Open Scope list_scope.

Section Insertion.
Context {A : Type}.
Variable less : A -> A -> bool.

Local Abbreviation insertRev := (insertRev less).
Local Abbreviation insertAll := (insertAll less).

Lemma length_insertRev (x : A) (rp : list A) :
  length (insertRev x rp) = S (length rp).
Proof.
  induction rp as [|y rp IH]; simpl; [reflexivity|].
  destruct (less x y); simpl; [now rewrite IH|reflexivity].
Qed.

Lemma at_middle (front : list A) (x : A) (back : list A) :
  at_ (front ++ x :: back) (Z.of_nat (length front)) = Some x.
Proof.
  unfold at_. destruct (Z.ltb_spec (Z.of_nat (length front)) 0) as [H|_]; [lia|].
  rewrite Nat2Z.id. apply list_lookup_middle. reflexivity.
Qed.

Lemma at_middle_next (front : list A) (y x : A) (back : list A) :
  at_ (front ++ y :: x :: back) (Z.of_nat (S (length front))) = Some x.
Proof.
  replace (front ++ y :: x :: back) with ((front ++ [y]) ++ x :: back)
    by now rewrite <- app_assoc.
  replace (S (length front)) with (length (front ++ [y]))
    by (rewrite length_app; simpl; lia).
  apply at_middle.
Qed.

Lemma Swap_adjacent (front : list A) (y x : A) (back : list A) :
  Swap (front ++ y :: x :: back)
       (Z.of_nat (S (length front))) (Z.of_nat (length front))
  = front ++ x :: y :: back.
Proof.
  unfold Swap.
  rewrite at_middle_next, at_middle, !Nat2Z.id.
  rewrite insert_app_r_alt by lia. rewrite Nat.sub_diag. simpl.
  rewrite insert_app_r_alt by lia.
  replace (S (length front) - length front)%nat with 1%nat by lia.
  reflexivity.
Qed.

Lemma insertionShift_spec (rp : list A) :
  forall (x : A) (back : list A) (fuel : nat),
    (length rp <= fuel)%nat ->
    insertionShift less fuel (rev rp ++ x :: back) 0 (Z.of_nat (length rp))
    = rev (insertRev x rp) ++ back.
Proof.
  induction rp as [|y rp IH]; intros x back fuel Hfuel.
  - destruct fuel; simpl; reflexivity.
  - destruct fuel as [|fuel]; [simpl in Hfuel; lia|].
    cbn [insertionShift insertRev rev length].
    rewrite <- app_assoc. cbn [app].
    replace (length rp) with (length (rev rp)) by apply length_rev.
    unfold Less.
    replace (Z.of_nat (S (length (rev rp))) - 1) with (Z.of_nat (length (rev rp))) by lia.
    rewrite at_middle_next, at_middle.
    destruct (Z.gtb_spec (Z.of_nat (S (length (rev rp)))) 0) as [_|H]; [|lia].
    cbn [andb]. destruct (less x y).
    + rewrite Swap_adjacent, length_rev.
      rewrite IH by (simpl in Hfuel; lia).
      cbn [rev]. now rewrite <- app_assoc.
    + cbn [rev]. now rewrite <- !app_assoc.
Qed.

Lemma insertionLoop_spec (back : list A) :
  forall (rp : list A) (fuel : nat),
    (length back <= fuel)%nat ->
    insertionLoop less fuel (rev rp ++ back) 0
                  (Z.of_nat (length rp + length back)) (Z.of_nat (length rp))
    = rev (insertAll back rp).
Proof.
  induction back as [|x back IH]; intros rp fuel Hfuel.
  - rewrite app_nil_r, Nat.add_0_r.
    destruct fuel; cbn [insertionLoop insertAll fold_left]; [reflexivity|].
    now rewrite Z.ltb_irrefl.
  - destruct fuel as [|fuel]; [simpl in Hfuel; lia|].
    cbn [insertionLoop insertAll fold_left length].
    destruct (Z.ltb_spec (Z.of_nat (length rp)) (Z.of_nat (length rp + S (length back))))
      as [_|H]; [|lia].
    rewrite Z.sub_0_r, Nat2Z.id.
    rewrite insertionShift_spec by lia.
    specialize (IH (insertRev x rp) fuel).
    rewrite length_insertRev in IH.
    replace (Z.of_nat (length rp) + 1) with (Z.of_nat (S (length rp))) by lia.
    replace (length rp + S (length back))%nat with (S (length rp) + length back)%nat by lia.
    apply IH. simpl in Hfuel. lia.
Qed.

Lemma insertionSort_spec (l : list A) :
  insertionSort_func less l 0 (lenSlice l) = rev (insertAll l []).
Proof.
  unfold insertionSort_func, lenSlice. rewrite Z.sub_0_r, Nat2Z.id.
  destruct l as [|x l]; [reflexivity|].
  pose proof (insertionLoop_spec l [x] (length (x :: l))) as H.
  cbn [rev app length Nat.add] in H. cbn [length].
  replace (0 + 1) with (Z.of_nat 1) by reflexivity.
  rewrite H by lia. reflexivity.
Qed.

Lemma insertRev_perm (x : A) (rp : list A) : insertRev x rp ≡ₚ x :: rp.
Proof.
  induction rp as [|y rp IH]; simpl; [reflexivity|].
  destruct (less x y); [|reflexivity].
  rewrite IH. apply Permutation_swap.
Qed.

Lemma insertAll_perm (l : list A) : forall rp : list A, insertAll l rp ≡ₚ l ++ rp.
Proof.
  induction l as [|x l IH]; intros rp; cbn [insertAll fold_left app]; [reflexivity|].
  fold (insertAll l (insertRev x rp)). rewrite IH, insertRev_perm.
  symmetry. apply Permutation_middle.
Qed.

End Insertion.

Section ByKey.
Context {A : Type}.
Variable key : A -> Z.

Local Abbreviation keyLess := (keyLess key).
Local Abbreviation ascending := (ascending key).
Local Abbreviation descending := (descending key).

Lemma insertRev_descending (x : A) (rp : list A) :
  StronglySorted descending rp -> StronglySorted descending (insertRev keyLess x rp).
Proof.
  induction 1 as [|y rp Hsorted IH Hall]; simpl.
  - repeat constructor.
  - unfold keyLess at 1. destruct (Z.ltb_spec (key x) (key y)) as [Hlt|Hge].
    + constructor; [exact IH|].
      rewrite insertRev_perm. constructor; [unfold descending; lia|exact Hall].
    + constructor; [now constructor|].
      constructor; [exact Hge|].
      eapply Forall_impl; [exact Hall|]. unfold descending. intros z Hz. lia.
Qed.

Lemma insertAll_descending (l : list A) :
  forall rp : list A,
    StronglySorted descending rp -> StronglySorted descending (insertAll keyLess l rp).
Proof.
  induction l as [|x l IH]; intros rp Hrp; cbn [insertAll fold_left]; [exact Hrp|].
  apply IH. now apply insertRev_descending.
Qed.

Lemma StronglySorted_snoc (R : A -> A -> Prop) (l : list A) (x : A) :
  StronglySorted R l -> Forall (fun y => R y x) l -> StronglySorted R (l ++ [x]).
Proof.
  induction 1 as [|y l Hsorted IH Hall]; intros Hx; simpl.
  - repeat constructor.
  - apply Forall_cons_1 in Hx as [Hyx Hlx].
    constructor; [now apply IH|].
    apply Forall_app. split; [exact Hall|now constructor].
Qed.

Lemma rev_descending (rp : list A) :
  StronglySorted descending rp -> StronglySorted ascending (rev rp).
Proof.
  induction 1 as [|y rp Hsorted IH Hall]; simpl; [constructor|].
  apply StronglySorted_snoc; [exact IH|].
  apply Forall_forall. intros z Hz. apply list_elem_of_In, in_rev, list_elem_of_In in Hz.
  rewrite Forall_forall in Hall. now apply Hall.
Qed.

Lemma filter_rev (P : A -> Prop) `{!forall x, Decision (P x)} (l : list A) :
  filter P (rev l) = rev (filter P l).
Proof.
  induction l as [|x l IH]; simpl; [reflexivity|].
  rewrite filter_app, IH.
  destruct (decide (P x)) as [Hx|Hx].
  - now rewrite !filter_cons_True by exact Hx.
  - rewrite !filter_cons_False by exact Hx. now rewrite filter_nil, app_nil_r.
Qed.

Lemma insertRev_filter (d : Z) (x : A) (rp : list A) :
  filter (fun o => key o = d) (insertRev keyLess x rp) =
  filter (fun o => key o = d) (x :: rp).
Proof.
  induction rp as [|y rp IH]; simpl; [reflexivity|].
  unfold keyLess at 1. destruct (Z.ltb_spec (key x) (key y)) as [Hlt|Hge]; [|reflexivity].
  rewrite filter_cons, IH, !filter_cons.
  destruct (decide (key y = d)), (decide (key x = d)); try reflexivity. lia.
Qed.

Lemma insertAll_filter (d : Z) (l : list A) :
  forall rp : list A,
    filter (fun o => key o = d) (rev (insertAll keyLess l rp)) =
    filter (fun o => key o = d) (rev rp ++ l).
Proof.
  induction l as [|x l IH]; intros rp; cbn [insertAll fold_left].
  - now rewrite app_nil_r.
  - fold (insertAll keyLess l (insertRev keyLess x rp)).
    rewrite IH, !filter_app, !filter_rev, insertRev_filter.
    rewrite !filter_cons. destruct (decide (key x = d)); simpl.
    + now rewrite <- app_assoc.
    + reflexivity.
Qed.

(** Insertion sort on integer keys: the same elements, in ascending order of
    the key, elements of equal key in their original order. *)
Lemma insertionSort_stable (l : list A) :
  let out := insertionSort_func keyLess l 0 (lenSlice l) in
  out ≡ₚ l /\
  Sorted ascending out /\
  forall d : Z, filter (fun o => key o = d) out = filter (fun o => key o = d) l.
Proof.
  cbn zeta. rewrite insertionSort_spec. split; [|split].
  - rewrite <- Permutation_rev, insertAll_perm. now rewrite app_nil_r.
  - apply StronglySorted_Sorted, rev_descending, insertAll_descending. constructor.
  - intros d. now rewrite insertAll_filter.
Qed.

End ByKey.
End SortSpec.

Module TrackingSpec.
Import Go Tracking TrackingObs.

Section Dual.
Variable unicodeLower : string -> string.
Variables (anilistToken malToken : string) (anilistID malID : Z).

Lemma skipped_negb (token : string) (mediaID : Z) :
  negb (token =? "")%string && (mediaID >? 0) = negb (skipped token mediaID).
Proof.
  unfold skipped. rewrite negb_orb. f_equal.
  rewrite Z.gtb_ltb, Z.leb_antisym. now rewrite negb_involutive.
Qed.

Lemma skipped_iff (token : string) (mediaID : Z) :
  skipped token mediaID = true <-> token = "" \/ mediaID <= 0.
Proof.
  unfold skipped. rewrite orb_true_iff, String.eqb_eq, Z.leb_le. tauto.
Qed.

Ltac answer h :=
  match goal with
  | |- context [h ?X ?e ?s] =>
      let r := fresh "r" in
      let s' := fresh "s" in
      destruct (h X e s) as [r s']; try destruct r; simpl
  end.

Ltac symbolic h :=
  unfold Prog.trace, Prog.result; simpl;
  repeat first [ progress simpl | answer h ].

Lemma UpdateAnimeProgressDual_run (progress : Z) (config : CurdConfig) :
  DualTracking config = true ->
  dualRun
    (UpdateAnimeProgressDual unicodeLower anilistToken malToken anilistID malID progress config)
    (owed malToken malID (UpdateProgress malToken malID progress)
          anilistToken anilistID (UpdateProgress anilistToken anilistID progress)).
Proof.
  intros Hdual S h s. unfold UpdateAnimeProgressDual, owed.
  rewrite Hdual, !skipped_negb.
  destruct (skipped malToken malID), (skipped anilistToken anilistID);
    symbolic h; auto.
Qed.

Lemma UpdateAnimeStatusDual_run (status : string) (config : CurdConfig) :
  DualTracking config = true ->
  dualRun
    (UpdateAnimeStatusDual unicodeLower anilistToken malToken anilistID malID status config)
    (owed malToken malID (UpdateStatus malToken malID status)
          anilistToken anilistID (UpdateStatus anilistToken anilistID status)).
Proof.
  intros Hdual S h s. unfold UpdateAnimeStatusDual, owed.
  rewrite Hdual, !skipped_negb.
  destruct (skipped malToken malID), (skipped anilistToken anilistID);
    symbolic h; auto.
Qed.

Lemma RateAnimeDual_run (config : CurdConfig) :
  DualTracking config = true ->
  dualRun
    (RateAnimeDual unicodeLower anilistToken malToken anilistID malID config)
    (owed malToken malID (Rate malToken malID)
          anilistToken anilistID (Rate anilistToken anilistID)).
Proof.
  intros Hdual S h s. unfold RateAnimeDual, owed.
  rewrite Hdual, !skipped_negb.
  destruct (skipped malToken malID), (skipped anilistToken anilistID);
    symbolic h; auto.
Qed.

Lemma aggregate_none (inv : list invocation) :
  Forall (fun i => i.2 = None) inv -> aggregate inv = None.
Proof.
  intros Hok. unfold aggregate.
  replace (omap failureText inv) with (@nil string); [reflexivity|].
  induction Hok as [|[[b m] r] inv Hr _ IH]; simpl in *; [reflexivity|].
  now subst r.
Qed.

Lemma aggregate_some (inv : list invocation) :
  Exists (fun i => i.2 <> None) inv ->
  aggregate inv =
    Some ("dual tracking errors: " +:+ Join (omap failureText inv) "; ").
Proof.
  intros Hbad. unfold aggregate.
  destruct (omap failureText inv) as [|e errors] eqn:Herr; [|reflexivity].
  exfalso. induction Hbad as [[[b m] r] inv Hr|[[b m] r] inv _ IH]; simpl in *.
  - destruct r; [discriminate|congruence].
  - destruct r; [discriminate|auto].
Qed.

Lemma UpdateAnimeProgressDual_single (progress : Z) (config : CurdConfig) :
  DualTracking config = false ->
  let b := primary unicodeLower config in
  singleRun
    (UpdateAnimeProgressDual unicodeLower anilistToken malToken anilistID malID progress config)
    b (UpdateProgress (pick b malToken anilistToken) (pick b malID anilistID) progress).
Proof.
  intros Hdual b S h s. subst b. unfold UpdateAnimeProgressDual, primary.
  rewrite Hdual.
  destruct (GetTrackingService unicodeLower config =? "mal")%string;
    symbolic h; auto.
Qed.

Lemma UpdateAnimeStatusDual_single (status : string) (config : CurdConfig) :
  DualTracking config = false ->
  let b := primary unicodeLower config in
  singleRun
    (UpdateAnimeStatusDual unicodeLower anilistToken malToken anilistID malID status config)
    b (UpdateStatus (pick b malToken anilistToken) (pick b malID anilistID) status).
Proof.
  intros Hdual b S h s. subst b. unfold UpdateAnimeStatusDual, primary.
  rewrite Hdual.
  destruct (GetTrackingService unicodeLower config =? "mal")%string;
    symbolic h; auto.
Qed.

Lemma RateAnimeDual_single (config : CurdConfig) :
  DualTracking config = false ->
  let b := primary unicodeLower config in
  singleRun
    (RateAnimeDual unicodeLower anilistToken malToken anilistID malID config)
    b (Rate (pick b malToken anilistToken) (pick b malID anilistID)).
Proof.
  intros Hdual b S h s. subst b. unfold RateAnimeDual, primary.
  rewrite Hdual.
  destruct (GetTrackingService unicodeLower config =? "mal")%string;
    symbolic h; auto.
Qed.

Lemma dualRun_independent (p : prog error) (calls : list (Backend * Method)) :
  dualRun p calls -> independent p calls.
Proof.
  intros Hrun S h s. destruct (Hrun S h s) as [Hcalls Hres].
  split; [exact Hcalls|]. intros Hok. rewrite Hres. now apply aggregate_none.
Qed.

Lemma dualRun_reports (p : prog error) (calls : list (Backend * Method)) :
  dualRun p calls -> reports p calls.
Proof.
  intros Hrun S h s. destruct (Hrun S h s) as [Hcalls Hres].
  split; [exact Hcalls|]. intros Hbad. rewrite Hres. now apply aggregate_some.
Qed.

Lemma resolution_holds (config : CurdConfig) : resolution unicodeLower config.
Proof.
  unfold resolution, primary, GetTrackingService.
  set (name := ToLower unicodeLower (TrackingService config)).
  split; [|split].
  - intros [-> | ->]; split; reflexivity.
  - intros [H1 H2]. apply String.eqb_neq in H1, H2. now rewrite H1, H2.
  - intros Hempty. subst name. now rewrite Hempty.
Qed.

(** C1: with dual tracking on, the progress, status and rating writes each
    call every service that is not skipped (empty token or non-positive
    media ID), MyAnimeList first and AniList second, whatever the other call
    returned, and return no error when none of the calls made failed. *)
Theorem dual_write_independent (progress : Z) (status : string) (config : CurdConfig) :
  DualTracking config = true ->
  independent
    (UpdateAnimeProgressDual unicodeLower anilistToken malToken anilistID malID progress config)
    (owed malToken malID (UpdateProgress malToken malID progress)
          anilistToken anilistID (UpdateProgress anilistToken anilistID progress)) /\
  independent
    (UpdateAnimeStatusDual unicodeLower anilistToken malToken anilistID malID status config)
    (owed malToken malID (UpdateStatus malToken malID status)
          anilistToken anilistID (UpdateStatus anilistToken anilistID status)) /\
  independent
    (RateAnimeDual unicodeLower anilistToken malToken anilistID malID config)
    (owed malToken malID (Rate malToken malID)
          anilistToken anilistID (Rate anilistToken anilistID)).
Proof.
  intros Hdual. split; [|split]; apply dualRun_independent.
  - now apply UpdateAnimeProgressDual_run.
  - now apply UpdateAnimeStatusDual_run.
  - now apply RateAnimeDual_run.
Qed.

(** C2, amended: with dual tracking on, a progress, status or rating write
    in which some call failed returns the error
    ["dual tracking errors: "] followed by the ["<backend>: <error>"] pairs of
    the failed calls joined by ["; "], MyAnimeList's pair before AniList's,
    whichever of the two is the primary service. *)
Theorem dual_write_reports (progress : Z) (status : string) (config : CurdConfig) :
  DualTracking config = true ->
  reports
    (UpdateAnimeProgressDual unicodeLower anilistToken malToken anilistID malID progress config)
    (owed malToken malID (UpdateProgress malToken malID progress)
          anilistToken anilistID (UpdateProgress anilistToken anilistID progress)) /\
  reports
    (UpdateAnimeStatusDual unicodeLower anilistToken malToken anilistID malID status config)
    (owed malToken malID (UpdateStatus malToken malID status)
          anilistToken anilistID (UpdateStatus anilistToken anilistID status)) /\
  reports
    (RateAnimeDual unicodeLower anilistToken malToken anilistID malID config)
    (owed malToken malID (Rate malToken malID)
          anilistToken anilistID (Rate anilistToken anilistID)).
Proof.
  intros Hdual. split; [|split]; apply dualRun_reports.
  - now apply UpdateAnimeProgressDual_run.
  - now apply UpdateAnimeStatusDual_run.
  - now apply RateAnimeDual_run.
Qed.

(** C3: with dual tracking off, the progress, status and rating writes each
    make exactly one call, to the primary service with that service's token
    and media ID, and return what it returned; the primary service is
    MyAnimeList when the lower-cased configured name is ["mal"] or
    ["myanimelist"] and AniList for every other name, the empty one
    included. *)
Theorem single_write_primary (progress : Z) (status : string) (config : CurdConfig) :
  DualTracking config = false ->
  let b := primary unicodeLower config in
  singleRun
    (UpdateAnimeProgressDual unicodeLower anilistToken malToken anilistID malID progress config)
    b (UpdateProgress (pick b malToken anilistToken) (pick b malID anilistID) progress) /\
  singleRun
    (UpdateAnimeStatusDual unicodeLower anilistToken malToken anilistID malID status config)
    b (UpdateStatus (pick b malToken anilistToken) (pick b malID anilistID) status) /\
  singleRun
    (RateAnimeDual unicodeLower anilistToken malToken anilistID malID config)
    b (Rate (pick b malToken anilistToken) (pick b malID anilistID)) /\
  resolution unicodeLower config.
Proof.
  intros Hdual b. subst b. split; [|split; [|split]].
  - now apply UpdateAnimeProgressDual_single.
  - now apply UpdateAnimeStatusDual_single.
  - now apply RateAnimeDual_single.
  - apply resolution_holds.
Qed.

(** C10: [UpdateAnimeProgressUnified] makes exactly one call, the progress
    update of the primary service with the token and media ID it was given,
    and returns what that call returned, whether dual tracking is on or
    off. *)
Theorem unified_progress_primary_only (token : string) (mediaID progress : Z)
    (config : CurdConfig) :
  singleRun (UpdateAnimeProgressUnified unicodeLower token mediaID progress config)
            (primary unicodeLower config) (UpdateProgress token mediaID progress).
Proof.
  intros S h s. unfold UpdateAnimeProgressUnified, primary.
  destruct (GetTrackingService unicodeLower config =? "mal")%string,
           (DualTracking config); symbolic h; auto.
Qed.

End Dual.

(** C5: converting an ID from a service to the same service returns the ID
    with no error, and calls nothing outside the function. *)
Theorem convert_same_service (id : Z) (b : string) :
  ConvertIDIfNeeded id b b = Prog.Ret (id, None) /\
  forall (S : Type) (h : Prog.env Callee S) (s : S),
    Prog.result h (ConvertIDIfNeeded id b b) s = (id, None) /\
    Prog.trace h (ConvertIDIfNeeded id b b) s = [].
Proof.
  assert (Hret : ConvertIDIfNeeded id b b = Prog.Ret (id, None)).
  { unfold ConvertIDIfNeeded. now rewrite String.eqb_refl. }
  split; [exact Hret|]. intros S h s. now rewrite Hret.
Qed.

Lemma supportedPair_dec (fromService toService : string) :
  supportedPair fromService toService <->
  (fromService =? "anilist")%string &&
    ((toService =? "mal")%string || (toService =? "myanimelist")%string) ||
  ((fromService =? "mal")%string || (fromService =? "myanimelist")%string) &&
    (toService =? "anilist")%string = true.
Proof.
  unfold supportedPair.
  rewrite orb_true_iff, !andb_true_iff, !orb_true_iff, !String.eqb_eq. tauto.
Qed.

(** C9, amended: the names are compared as they are, without case
    normalisation.  For two different names, ["anilist"] to ["mal"] or
    ["myanimelist"] is the MyAnimeList-ID lookup, ["mal"] or ["myanimelist"]
    to ["anilist"] is the AniList-ID lookup with an empty token, and the
    result is the unsupported-conversion error (and the ID unchanged)
    exactly for every other pair. *)
Theorem convert_unsupported_iff (id : Z) (fromService toService : string) :
  fromService <> toService ->
  (fromService = "anilist" /\ (toService = "mal" \/ toService = "myanimelist") ->
   ConvertIDIfNeeded id fromService toService = GetAnimeMalID id) /\
  ((fromService = "mal" \/ fromService = "myanimelist") /\ toService = "anilist" ->
   ConvertIDIfNeeded id fromService toService = ConvertMALIDToAnilist id "") /\
  (ConvertIDIfNeeded id fromService toService = unsupported id fromService toService <->
   ~ supportedPair fromService toService).
Proof.
  intros Hne. apply String.eqb_neq in Hne.
  unfold ConvertIDIfNeeded. rewrite Hne. split; [|split].
  - intros [-> [-> | ->]]; reflexivity.
  - intros [[-> | ->] ->]; reflexivity.
  - rewrite supportedPair_dec.
    destruct ((fromService =? "anilist")%string &&
              ((toService =? "mal")%string || (toService =? "myanimelist")%string)) eqn:H1;
      simpl.
    { split; [discriminate|intros H; now contradiction H]. }
    destruct (((fromService =? "mal")%string || (fromService =? "myanimelist")%string) &&
              (toService =? "anilist")%string) eqn:H2.
    { split; [discriminate|intros H; now contradiction H]. }
    split; [discriminate|reflexivity].
Qed.

Lemma scanCategory_find (category : list Entry) (id : Z) :
  scanCategory category id = List.find (fun e => ID (EntryMedia e) =? id) category.
Proof.
  induction category as [|entry rest IH]; simpl; [reflexivity|].
  now destruct (ID (EntryMedia entry) =? id).
Qed.

Lemma scanCategory_app (front back : list Entry) (id : Z) :
  scanCategory (front ++ back) id =
    match scanCategory front id with
    | Some entry => Some entry
    | None => scanCategory back id
    end.
Proof.
  induction front as [|entry rest IH]; simpl; [reflexivity|].
  now destruct (ID (EntryMedia entry) =? id).
Qed.

Lemma scanCategories_concat (categories : list (list Entry)) (id : Z) :
  scanCategories categories id = scanCategory (concat categories) id.
Proof.
  induction categories as [|category rest IH]; simpl; [reflexivity|].
  now rewrite scanCategory_app, IH.
Qed.

(** C4: [FindAnimeByIDUnified] fails with the invalid-ID error when the text
    is not an integer; otherwise it returns the first entry with that media
    ID in the order Watching, Completed, Paused, Dropped, Planning,
    Rewatching, and fails with the not-found error when there is none. *)
Theorem find_by_id_first_in_order (list : AnimeList) (idStr : string) :
  FindAnimeByIDUnified list idStr =
    match Atoi idStr with
    | None => (None, Some ("invalid ID format: " +:+ idStr))
    | Some id =>
        match List.find (fun e => ID (EntryMedia e) =? id) (inScanOrder list) with
        | Some entry => (Some entry, None)
        | None => (None, Some ("anime with ID " +:+ Itoa id +:+ " not found"))
        end
    end.
Proof.
  unfold FindAnimeByIDUnified, inScanOrder.
  destruct (Atoi idStr) as [id|]; [|reflexivity].
  rewrite scanCategories_concat, scanCategory_find. simpl.
  now rewrite app_nil_r.
Qed.

(** The primary service wins nothing in the message order: with MyAnimeList
    as the primary service and both calls failing, MyAnimeList's pair still
    comes first. *)
Lemma secondary_first_refuted :
  let p := UpdateAnimeProgressDual noUnicode "anilist-token" "mal-token" 21 20 5
             dualOnMALPrimary in
  let inv := invocations (Prog.trace (fixedOutcome bothDown) p tt) in
  primary noUnicode dualOnMALPrimary = MAL /\
  Prog.result (fixedOutcome bothDown) p tt =
    Some "dual tracking errors: MAL: mal down; AniList: anilist down" /\
  secondaryFirstMessage noUnicode dualOnMALPrimary inv =
    Some "dual tracking errors: AniList: anilist down; MAL: mal down" /\
  Prog.result (fixedOutcome bothDown) p tt <>
    secondaryFirstMessage noUnicode dualOnMALPrimary inv.
Proof. vm_compute. repeat split; discriminate. Qed.

(** Both names are service names once lower-cased, yet the conversion is
    reported as unsupported. *)
Lemma conversion_claim_refuted :
  ~ conversionClaim noUnicode 5 "AniList" "mal".
Proof.
  unfold conversionClaim. intros Hclaim.
  assert (Hne : "AniList" <> "mal") by discriminate.
  destruct (Hclaim Hne) as [Hfail _].
  destruct (Hfail eq_refl) as [Hno | Hno]; apply Hno; vm_compute; auto.
Qed.

Lemma dual_write_independent_witness :
  independent
    (UpdateAnimeProgressDual noUnicode "anilist-token" "" 21 20 5 dualOn)
    (owed "" 20 (UpdateProgress "" 20 5)
          "anilist-token" 21 (UpdateProgress "anilist-token" 21 5)) /\
  independent
    (UpdateAnimeStatusDual noUnicode "anilist-token" "" 21 20 "CURRENT" dualOn)
    (owed "" 20 (UpdateStatus "" 20 "CURRENT")
          "anilist-token" 21 (UpdateStatus "anilist-token" 21 "CURRENT")) /\
  independent
    (RateAnimeDual noUnicode "anilist-token" "" 21 20 dualOn)
    (owed "" 20 (Rate "" 20) "anilist-token" 21 (Rate "anilist-token" 21)).
Proof.
  apply (dual_write_independent noUnicode "anilist-token" "" 21 20 5 "CURRENT" dualOn).
  reflexivity.
Defined.

Lemma dual_write_reports_witness :
  reports
    (UpdateAnimeProgressDual noUnicode "anilist-token" "mal-token" 21 20 5 dualOnMALPrimary)
    (owed "mal-token" 20 (UpdateProgress "mal-token" 20 5)
          "anilist-token" 21 (UpdateProgress "anilist-token" 21 5)) /\
  reports
    (UpdateAnimeStatusDual noUnicode "anilist-token" "mal-token" 21 20 "CURRENT"
       dualOnMALPrimary)
    (owed "mal-token" 20 (UpdateStatus "mal-token" 20 "CURRENT")
          "anilist-token" 21 (UpdateStatus "anilist-token" 21 "CURRENT")) /\
  reports
    (RateAnimeDual noUnicode "anilist-token" "mal-token" 21 20 dualOnMALPrimary)
    (owed "mal-token" 20 (Rate "mal-token" 20)
          "anilist-token" 21 (Rate "anilist-token" 21)).
Proof.
  apply (dual_write_reports noUnicode "anilist-token" "mal-token" 21 20 5 "CURRENT"
           dualOnMALPrimary).
  reflexivity.
Defined.

Lemma single_write_primary_witness :
  singleRun
    (UpdateAnimeProgressDual noUnicode "anilist-token" "mal-token" 21 20 5 dualOff)
    MAL (UpdateProgress "mal-token" 20 5) /\
  singleRun
    (UpdateAnimeStatusDual noUnicode "anilist-token" "mal-token" 21 20 "CURRENT" dualOff)
    MAL (UpdateStatus "mal-token" 20 "CURRENT") /\
  singleRun
    (RateAnimeDual noUnicode "anilist-token" "mal-token" 21 20 dualOff)
    MAL (Rate "mal-token" 20) /\
  resolution noUnicode dualOff.
Proof.
  apply (single_write_primary noUnicode "anilist-token" "mal-token" 21 20 5 "CURRENT" dualOff).
  reflexivity.
Defined.

Lemma convert_unsupported_iff_witness :
  (ConvertIDIfNeeded 5 "AniList" "mal" = unsupported 5 "AniList" "mal" <->
   ~ supportedPair "AniList" "mal").
Proof.
  apply (convert_unsupported_iff 5 "AniList" "mal"). discriminate.
Defined.

End TrackingSpec.

Module MyAnimeListSpec.
Import Go MyAnimeList MyAnimeListObs.

Ltac step := cbn [Prog.run Prog.bind Prog.call client_Do NewRequest CurdOut Now_Format
                  GetGlobalConfig GetUserInputFromRofi Println Scanln fst snd
                  String.eqb Ascii.eqb Bool.eqb negb andb orb].
Ltac answer h :=
  match goal with
  | |- context [h ?X ?e ?s] =>
      is_var s;
      let r := fresh "r" in
      let s' := fresh "s" in
      destruct (h X e s) as [r s']
  end.
Ltac branch :=
  match goal with
  | |- context [Prog.run _ (match ?x with _ => _ end) _] => destruct x eqn:?
  | |- context [Prog.run _ (Prog.bind (match ?x with _ => _ end) _) _] => destruct x eqn:?
  end.
Ltac execute h := step; repeat (first [answer h | branch]; step).
(** The same, keeping each reply as an equation, and the replies recalled
    where the environment is asked again. *)
Ltac ask h :=
  match goal with
  | |- context [h ?X ?e ?s] =>
      is_var s;
      let r := fresh "r" in
      let s' := fresh "s" in
      destruct (h X e s) as [r s'] eqn:?
  end.
Ltac execute_eq h := step; repeat (first [ask h | branch]; step).
Ltac recall h :=
  repeat match goal with
  | H : h _ _ _ = _ |- _ => rewrite H; clear H; cbv beta iota; cbn [fst snd]
  end.
Ltac observe := cbv [requests requestOf replies replyOf head omap list_omap fmap list_fmap
                     Body HeaderSet Header Method URL default
                     convertMALToAnilistFormat fold_left app from_option id] in *.
Ltac fields :=
  unfold patched, ValuesSet;
  repeat match goal with
  | |- context [ (<[?k := ?v]> ?m) !! ?k ] => rewrite (lookup_insert_eq m k v)
  | |- context [ (<[?k := ?v]> ?m) !! ?j ] =>
      rewrite (lookup_insert_ne m k j v) by discriminate
  | |- context [ {[?k := ?v]} !! ?k ] => rewrite lookup_singleton_eq
  | |- context [ {[?k := ?v]} !! ?j ] => rewrite lookup_singleton_ne by discriminate
  end;
  unfold convertMALEntry;
  cbn [status ListStatus ListStatus_Status ListStatus_IsRewatching
       String.eqb Ascii.eqb Bool.eqb].

Lemma roundTrips_unflagged (prior : MALListStatus) :
  ListStatus_IsRewatching prior = false ->
  Forall (roundTrips prior) canonical.
Proof.
  intros Hflag. destruct prior as [st sc ep rw]. simpl in Hflag. subst rw.
  apply List.Forall_forall. intros status Hin token mediaID node S h s.
  unfold canonical in Hin. simpl in Hin.
  repeat (destruct Hin as [<- | Hin]); try contradiction.
  all: unfold readBack, Prog.trace, UpdateMALAnimeStatus.
  all: execute h; observe; fields; reflexivity.
Qed.

(** On an entry that was just added, all six statuses are read back as
    written. *)
Lemma fresh_entry_round_trip : Forall (roundTrips freshListStatus) canonical.
Proof. now apply roundTrips_unflagged. Qed.






Section Rate.
Variable AtoiError : string -> string.

(** X25: what [RateAnimeMAL] does with what its input source holds.  It
    reads the configuration and asks through the prompt or on the console,
    as the configuration says.  An integer below 0 or above 10 is refused
    with ["score must be between 0 and 10"] before any request; an integer
    from 0 to 10 is sent in exactly one request, the [PATCH] whose [score]
    field is that integer in decimal, and the run succeeds exactly when the
    service answers 200.  Without a configuration, after a failed prompt and
    for a prompt text that is not an integer the run fails before any
    request.  A console line from which no integer was scanned is sent as
    the score 0. *)
Theorem rating_validated (token : string) (mediaID : Z) :

  validated AtoiError (RateAnimeMAL AtoiError token mediaID) token mediaID.
Proof.
  intros S h s. cbv zeta. unfold Prog.trace, Prog.result, RateAnimeMAL.
  execute_eq h.
  all: unfold supply; recall h.
  all: repeat match goal with
       | scanned : option Z |- _ => destruct scanned; cbn [default from_option id] in *
       end.
  all: try match goal with
       | H : (0 <? 0) || (0 >? 10) = true |- _ => discriminate H
       end.
  all: repeat match goal with
       | H : RofiSelection _ = _ |- _ => rewrite H; clear H
       | H : Atoi _ = _ |- _ => rewrite H; clear H
       | H : (_ || _) = _ |- _ => rewrite H; clear H
       | H : negb _ = false |- _ => apply negb_false_iff, Z.eqb_eq in H
       | H : negb _ = true |- _ => apply negb_true_iff, Z.eqb_neq in H
       end.
  all: cbv beta iota; observe; cbn [fst snd].
  all: try (split; reflexivity).
  all: (split; [reflexivity|]).
  all: split; intros Hend;
         first [ reflexivity | discriminate Hend
               | now injection Hend
               | match goal with H : StatusCode _ = StatusOK |- _ => now rewrite H end ].
Qed.

(** C8: on the console, a line from which [fmt.Scanln] scans no integer
    (letters, or a numeral beyond 64 bits) leaves the score at 0:
    [RateAnimeMAL] reports no validation error, sends the [PATCH] with
    [score=0] and returns [nil]. *)
Theorem rating_unscanned (token : string) (mediaID : Z) :
  let p := RateAnimeMAL AtoiError token mediaID in
  supply unscannedConsole tt = Unscanned /\
  Prog.result unscannedConsole p tt = None /\
  requests (Prog.trace unscannedConsole p tt) = [ratingRequest token mediaID 0].
Proof. cbv zeta. split; [reflexivity|]. split; reflexivity. Qed.
End Rate.

Import SortObs SortSpec.
Local Open Scope list_scope.

Lemma insertionSlice_sorts : sortsByKey insertionSlice.
Proof.
  intros A key l. unfold insertionSlice.
  destruct (insertionSort_stable key l) as (Hperm & Hsorted & _).
  split; [exact Hperm|exact Hsorted].
Qed.

Lemma insertionSlice_short : insertionWhenShort insertionSlice.
Proof. intros A less l _. reflexivity. Qed.

(** Go's [sort.Slice] sorts a slice of at most twelve elements by
    insertion. *)
Lemma Slice_short : insertionWhenShort (@Sort.Slice).
Proof.
  intros A less l Hlen. unfold Sort.Slice. cbn [Sort.pdqsort_func].
  unfold lenSlice, Sort.maxInsertion.
  destruct (Z.leb_spec (Z.of_nat (length l) - 0) 12) as [_|H]; [reflexivity|lia].
Qed.

Lemma fold_left_snoc {A B : Type} (f : A -> B) (l : list A) :
  forall acc : list B, fold_left (fun acc a => acc ++ [f a]) l acc = acc ++ (f <$> l).
Proof.
  induction l as [|a l IH]; intros acc; simpl; [now rewrite app_nil_r|].
  rewrite IH. now rewrite <- app_assoc.
Qed.

Section Search.
Variable levenshtein : string -> string -> Z.
Variable QueryEscape : string -> string.
Variable UnmarshalSearch : string -> list SearchNode * error.
Variable sort_Slice : forall A : Type, (A -> A -> bool) -> list A -> list A.
Variable query : string.

Lemma rankResults_eq (data : list SearchNode) :
  rankResults levenshtein sort_Slice query data =
  resultOf <$> sort_Slice scoredAnime (fun si sj => scored_score si <? scored_score sj)
                 (scoreCandidate levenshtein query <$> data).
Proof.
  unfold rankResults.
  rewrite (fold_left_snoc resultOf), app_nil_l.
  now rewrite (fold_left_snoc (scoreCandidate levenshtein query)), app_nil_l.
Qed.

Local Abbreviation consistent := (consistent levenshtein query).

Lemma scored_consistent (data : list SearchNode) :
  Forall consistent (scoreCandidate levenshtein query <$> data).
Proof. apply Forall_fmap, Forall_true. intros anime. reflexivity. Qed.

Lemma results_sorted (scored : list scoredAnime) :
  Forall consistent scored ->
  Sorted (fun x y => scored_score x <= scored_score y) scored ->
  closestFirst levenshtein query (resultOf <$> scored).
Proof.
  intros Hcons Hsorted. unfold closestFirst.
  induction Hsorted as [|x scored Hsorted IH Hhd]; simpl; [constructor|].
  apply Forall_cons_1 in Hcons as [Hx Hrest].
  constructor; [now apply IH|].
  destruct Hhd as [|y scored Hxy]; simpl; constructor.
  apply Forall_cons_1 in Hrest as [Hy _].
  unfold consistent in Hx, Hy. lia.
Qed.

Lemma results_filter (d : Z) (scored : list scoredAnime) :
  Forall consistent scored ->
  filter (fun o => distance levenshtein query o = d) (resultOf <$> scored) =
  resultOf <$> filter (fun s => scored_score s = d) scored.
Proof.
  induction 1 as [|x scored Hx Hrest IH]; [reflexivity|].
  rewrite fmap_cons, !filter_cons, IH. unfold consistent in Hx.
  destruct (decide (distance levenshtein query (resultOf x) = d)),
           (decide (scored_score x = d)); try reflexivity; lia.
Qed.

Hypothesis sorts : sortsByKey sort_Slice.
Hypothesis short : insertionWhenShort sort_Slice.

Lemma rankResults_ranked (data : list SearchNode) :
  let results := rankResults levenshtein sort_Slice query data in
  results ≡ₚ candidate <$> data /\
  closestFirst levenshtein query results /\
  ((length data <= 12)%nat ->
   tiesInOrder levenshtein query (candidate <$> data) results).
Proof.
  cbn zeta. rewrite rankResults_eq.
  destruct (sorts scoredAnime scored_score (scoreCandidate levenshtein query <$> data))
    as [Hperm Hsorted].
  assert (Hcand : candidate <$> data = resultOf <$> (scoreCandidate levenshtein query <$> data)).
  { rewrite <- list_fmap_compose. reflexivity. }
  assert (Hcons : Forall consistent
            (sort_Slice scoredAnime (fun si sj => scored_score si <? scored_score sj)
               (scoreCandidate levenshtein query <$> data))).
  { rewrite Hperm. apply scored_consistent. }
  split; [|split].
  - rewrite Hcand. now apply fmap_Permutation.
  - now apply results_sorted.
  - intros Hlen d. rewrite Hcand.
    rewrite !results_filter by (exact Hcons || apply scored_consistent).
    f_equal. rewrite short by now rewrite length_fmap.
    destruct (insertionSort_stable scored_score (scoreCandidate levenshtein query <$> data))
      as (_ & _ & Hstable).
    apply Hstable.
Qed.

End Search.

(** C7: [SearchAnimeMAL] asks the service for ten candidates; when the
    search succeeds on a response of at most twelve, it returns the
    candidates the service sent, ordered by ascending edit distance between
    title and query, and candidates at the same distance keep the order in
    which the service sent them.  The sort is Go's own [sort.Slice]. *)
Theorem search_ranked (levenshtein : string -> string -> Z)
    (QueryEscape : string -> string)
    (UnmarshalSearch : string -> list SearchNode * error) (query token : string) :
  ranked levenshtein QueryEscape UnmarshalSearch query
         (SearchAnimeMAL levenshtein QueryEscape UnmarshalSearch (@Sort.Slice) query token).
Proof.
  intros S h s. unfold Prog.result, Prog.trace, SearchAnimeMAL.
  execute h; cbn [fst snd]; try discriminate.
  intros _. unfold backendCandidates, candidatesOf.
  cbn [omap list_omap head default from_option id fst snd].
  match goal with H : ReadAll _ = _ |- _ => rewrite H end.
  cbn [fst].
  match goal with H : UnmarshalSearch _ = _ |- _ => rewrite H end.
  cbn [fst]. rewrite length_fmap. intros Hlen.
  split; [reflexivity|].
  assert (Hsame : rankResults levenshtein (@Sort.Slice) query l =
                  rankResults levenshtein insertionSlice query l).
  { rewrite !rankResults_eq. f_equal. apply Slice_short. now rewrite length_fmap. }
  rewrite Hsame.
  destruct (rankResults_ranked levenshtein insertionSlice query
              insertionSlice_sorts insertionSlice_short l) as (Hperm & Hsorted & Hties).
  auto.
Qed.

Lemma search_ranked_witness :
  let p := SearchAnimeMAL levenshteinModel (fun q => q) decodeTen (@Sort.Slice)
             "Monster" "token" in
  let r := Prog.result searchReply p tt in
  let sent := candidate <$> backendCandidates decodeTen (Prog.trace searchReply p tt) in
  URL <$> requests (Prog.trace searchReply p tt) = [searchURL (fun q => q) "Monster"] /\
  r.1 ≡ₚ sent /\
  closestFirst levenshteinModel "Monster" r.1 /\
  tiesInOrder levenshteinModel "Monster" sent r.1.
Proof.
  apply (search_ranked levenshteinModel (fun q => q) decodeTen "Monster" "token"
           unit searchReply tt).
  - reflexivity.
  - vm_compute. lia.
Defined.

(** The bound is needed.  Answered with thirteen candidates, more than the
    ten asked for, [sort.Slice] no longer sorts by insertion, and candidates
    at the same distance change places. *)
Lemma ties_reordered_beyond_twelve :
  ~ rankedStably levenshteinModel decodeThirteen "Monster"
      (SearchAnimeMAL levenshteinModel (fun q => q) decodeThirteen (@Sort.Slice)
         "Monster" "token").
Proof.
  intros Hclaim. specialize (Hclaim unit searchReply tt).
  cbn zeta in Hclaim. destruct Hclaim as [_ Hties]; [reflexivity|].
  specialize (Hties 0). vm_compute in Hties. discriminate Hties.
Qed.

End MyAnimeListSpec.

(** * Worked examples *)

Module Examples.
Import Go Tracking TrackingObs MyAnimeList MyAnimeListObs SortObs.

Example Atoi_decimal : Atoi "42" = Some 42.
Proof. reflexivity. Qed.

Example Atoi_signed : Atoi "-7" = Some (-7) /\ Atoi "+7" = Some 7.
Proof. split; reflexivity. Qed.

Example Atoi_rejects :
  Atoi "notanumber" = None /\ Atoi "" = None /\ Atoi "-" = None /\
  Atoi "12a" = None /\ Atoi "1_000" = None /\ Atoi " 5" = None.
Proof. repeat split; reflexivity. Qed.

Example Atoi_range :
  Atoi "9223372036854775807" = Some int64_max /\
  Atoi "9223372036854775808" = None /\
  Atoi "-9223372036854775808" = Some int64_min.
Proof. repeat split; vm_compute; reflexivity. Qed.

Example Itoa_examples : Itoa 0 = "0" /\ Itoa 120 = "120" /\ Itoa (-15) = "-15".
Proof. repeat split; reflexivity. Qed.

Example Join_examples :
  Join [] "; " = "" /\ Join ["a"] "; " = "a" /\ Join ["a"; "b"; "c"] "; " = "a; b; c".
Proof. repeat split; reflexivity. Qed.

Example service_names :
  let service name :=
    GetTrackingService noUnicode
      {| TrackingService := name; DualTracking := false; RofiSelection := false |} in
  service "MAL" = "mal" /\ service "MyAnimeList" = "mal" /\
  service "" = "anilist" /\ service "AniList" = "anilist" /\ service "kitsu" = "anilist".
Proof. repeat split; reflexivity. Qed.

Example find_watching_wins :
  FindAnimeByIDUnified inconsistentList "21" = (Some (entry 21 "One Piece" "CURRENT"), None).
Proof. reflexivity. Qed.

Example find_in_later_category :
  FindAnimeByIDUnified inconsistentList "30" = (Some (entry 30 "Evangelion" "PLANNING"), None).
Proof. reflexivity. Qed.

Example find_invalid_id :
  FindAnimeByIDUnified inconsistentList "notanumber" =
    (None, Some "invalid ID format: notanumber").
Proof. reflexivity. Qed.

Example find_not_found :
  FindAnimeByIDUnified emptyList "999999" = (None, Some "anime with ID 999999 not found").
Proof. reflexivity. Qed.

Example dual_write_skips_unlinked :
  let p := UpdateAnimeProgressDual noUnicode "anilist-token" "" 21 0 5 dualOn in
  invocations (Prog.trace (fixedOutcome allUp) p tt) =
    [(AniList, UpdateProgress "anilist-token" 21 5, None)] /\
  Prog.result (fixedOutcome allUp) p tt = None.
Proof. split; reflexivity. Qed.

Example dual_write_partial_failure :
  let p := UpdateAnimeStatusDual noUnicode "anilist-token" "mal-token" 21 20 "COMPLETED"
             dualOn in
  invocations (Prog.trace (fixedOutcome malDown) p tt) =
    [(MAL, UpdateStatus "mal-token" 20 "COMPLETED", Some "503");
     (AniList, UpdateStatus "anilist-token" 21 "COMPLETED", None)] /\
  Prog.result (fixedOutcome malDown) p tt = Some "dual tracking errors: MAL: 503".
Proof. split; reflexivity. Qed.

Example single_write_uses_primary :
  let p := RateAnimeDual noUnicode "anilist-token" "mal-token" 21 20 dualOff in
  invocations (Prog.trace (fixedOutcome malDown) p tt) =
    [(MAL, Rate "mal-token" 20, Some "503")] /\
  Prog.result (fixedOutcome malDown) p tt = Some "503".
Proof. split; reflexivity. Qed.

Example convert_examples :
  ConvertIDIfNeeded 5 "anilist" "anilist" = Prog.Ret (5, None) /\
  ConvertIDIfNeeded 5 "anilist" "mal" = GetAnimeMalID 5 /\
  ConvertIDIfNeeded 5 "myanimelist" "anilist" = ConvertMALIDToAnilist 5 "" /\
  ConvertIDIfNeeded 5 "AniList" "mal" =
    Prog.Ret (5, Some "unsupported service conversion: AniList to mal") /\
  ConvertIDIfNeeded 5 "mal" "myanimelist" =
    Prog.Ret (5, Some "unsupported service conversion: mal to myanimelist").
Proof. repeat split; reflexivity. Qed.

Example convert_entries :
  let listed st rw :=
    {| Node := {| Node_ID := 1; Node_Title := "t"; Node_MainPicture_Large := "";
                  Node_MainPicture_Medium := ""; Node_NumEpisodes := 12 |};
       ListStatus := {| ListStatus_Status := st; ListStatus_Score := 0;
                        ListStatus_NumEpisodesWatched := 0;
                        ListStatus_IsRewatching := rw |} |} in
  status <$> convertMALToAnilistFormat
    [listed "watching" false; listed "completed" false; listed "on_hold" false;
     listed "dropped" false; listed "plan_to_watch" false; listed "watching" true;
     listed "something_else" false]
  = ["CURRENT"; "COMPLETED"; "PAUSED"; "DROPPED"; "PLANNING"; "REPEATING"; "CURRENT"].
Proof. reflexivity. Qed.

Example editDistance_examples :
  editDistance "kitten" "sitting" = 3%nat /\ editDistance "Monster" "Monster" = 0%nat /\
  editDistance "Monsters" "Monster" = 1%nat /\ editDistance "" "abc" = 3%nat.
Proof. repeat split; reflexivity. Qed.

Example sort_three :
  Sort.Slice byFirst [(3, "a"); (1, "b"); (2, "c")] = [(1, "b"); (2, "c"); (3, "a")].
Proof. vm_compute. reflexivity. Qed.

Example sort_short_keeps_ties :
  Sort.Slice byFirst [(1, "a"); (0, "b"); (0, "c"); (1, "d"); (0, "e")]
  = [(0, "b"); (0, "c"); (0, "e"); (1, "a"); (1, "d")].
Proof. vm_compute. reflexivity. Qed.

(** Ten candidates, as many as a search asks for: the three at distance 0
    come first, then the four at distance 1, the one at distance 2 and the
    two at distance 7, each group in the order the service sent it. *)
Example search_ten :
  Key <$> rankResults levenshteinModel (@Sort.Slice) "Monster" ten
  = ["2"; "4"; "7"; "3"; "5"; "6"; "10"; "9"; "1"; "8"].
Proof. vm_compute. reflexivity. Qed.

Example search_ten_distances :
  (fun anime => levenshteinModel (SearchNode_Title anime) "Monster") <$> ten
  = [7; 0; 1; 0; 1; 1; 0; 7; 2; 1].
Proof. vm_compute. reflexivity. Qed.

(** Thirteen candidates: the seventh comes out first. *)
Example search_thirteen :
  Key <$> rankResults levenshteinModel (@Sort.Slice) "Monster" thirteen
  = ["6"; "1"; "2"; "3"; "4"; "5"; "7"; "8"; "9"; "10"; "11"; "12"; "100"].
Proof. vm_compute. reflexivity. Qed.

(** A rating through the prompt: [11] is refused before any request, [7] is
    sent as it is. *)
Example rate_eleven :
  Prog.run (ratingPrompt "11") (RateAnimeMAL (fun s => s) "token" 21) tt
  = (Some "score must be between 0 and 10",
     [Prog.Obs GlobalConfig (Some promptConfig);
      Prog.Obs (RofiInput "Enter a score for the anime (0-10)") ("11", None)]).
Proof. reflexivity. Qed.

Example rate_seven :
  let p := RateAnimeMAL (fun s => s) "token" 21 in
  Prog.result (ratingPrompt "7") p tt = None /\
  requests (Prog.trace (ratingPrompt "7") p tt) = [ratingRequest "token" 21 7].
Proof. split; reflexivity. Qed.

End Examples.

(** * Further properties *)

Module GoFacts.
Import Go Numerals.
Import Decimal.

Lemma digits_string_of_uint (d : Decimal.uint) :
  forall acc : Z, digits acc (NilEmpty.string_of_uint d) = Some (numeral d acc).
Proof.
  induction d; intros acc; cbn [NilEmpty.string_of_uint digits numeral];
    [reflexivity|..]; cbn [digit nat_of_ascii]; apply IHd.
Qed.

Lemma numeral_pos (d : Decimal.uint) :
  forall p : positive, numeral d (Z.pos p) = Z.pos (Pos.of_uint_acc d p).
Proof.
  induction d; intros p; cbn [numeral Pos.of_uint_acc]; [reflexivity|..];
    match goal with
    | |- numeral _ ?a = _ =>
        match goal with
        | |- _ = Z.pos (Pos.of_uint_acc _ ?q) =>
            replace a with (Z.pos q) by lia
        end
    end; apply IHd.
Qed.

Lemma numeral_zero (d : Decimal.uint) : numeral d 0 = Z.of_N (Pos.of_uint d).
Proof.
  induction d; cbn [numeral Pos.of_uint]; [reflexivity|exact IHd|..];
    cbn [Z.mul Z.add Z.of_N]; apply numeral_pos.
Qed.

Lemma unsigned_to_uint (p : positive) :
  unsigned (NilEmpty.string_of_uint (Pos.to_uint p)) = Some (Z.pos p).
Proof.
  unfold unsigned.
  destruct (NilEmpty.string_of_uint (Pos.to_uint p)) eqn:Hs.
  - pose proof (DecimalPos.Unsigned.to_uint_nonnil p) as Hnil.
    destruct (Pos.to_uint p); [congruence|discriminate Hs..].
  - rewrite <- Hs, digits_string_of_uint, numeral_zero, DecimalPos.Unsigned.of_to.
    reflexivity.
Qed.

Lemma Itoa_pos (p : positive) :
  Itoa (Z.pos p) = NilEmpty.string_of_uint (Pos.to_uint p).
Proof.
  unfold Itoa. cbn [Z.to_int NilZero.string_of_int NilZero.string_of_uint].
  pose proof (DecimalPos.Unsigned.to_uint_nonnil p) as Hnil.
  destruct (Pos.to_uint p); [congruence|reflexivity..].
Qed.

Lemma Itoa_neg (p : positive) :
  Itoa (Z.neg p) = String "-" (NilEmpty.string_of_uint (Pos.to_uint p)).
Proof.
  unfold Itoa. cbn [Z.to_int NilZero.string_of_int NilZero.string_of_uint].
  pose proof (DecimalPos.Unsigned.to_uint_nonnil p) as Hnil.
  destruct (Pos.to_uint p); [congruence|reflexivity..].
Qed.

(** The first byte of a decimal numeral is a digit, not a sign. *)
Lemma string_of_uint_head (d : Decimal.uint) (c : ascii) (rest : string) :
  NilEmpty.string_of_uint d = String c rest -> c <> "-"%char /\ c <> "+"%char.
Proof. destruct d; simpl; intros [= <- _]; split; discriminate. Qed.

Lemma Atoi_unsigned (s : string) (c : ascii) (rest : string) (n : Z) :
  s = String c rest -> c <> "-"%char -> c <> "+"%char ->
  unsigned s = Some n ->
  int64_min <= n <= int64_max ->
  Atoi s = Some n.
Proof.
  intros -> Hminus Hplus Hn Hrange. unfold Atoi.
  assert (Hsigned :
    match String c rest with
    | String "-" rest0 => Z.opp <$> unsigned rest0
    | String "+" rest0 => unsigned rest0
    | _ => unsigned (String c rest)
    end = unsigned (String c rest)).
  { destruct c as [[|] [|] [|] [|] [|] [|] [|] [|]]; try reflexivity; congruence. }
  rewrite Hsigned, Hn. cbn [mbind option_bind].
  destruct (Z.leb_spec int64_min n), (Z.leb_spec n int64_max); try lia. reflexivity.
Qed.

(** [strconv.Atoi] reads back what [strconv.Itoa] printed. *)
Lemma Atoi_Itoa (n : Z) : int64_min <= n <= int64_max -> Atoi (Itoa n) = Some n.
Proof.
  intros Hrange. destruct n as [|p|p].
  - reflexivity.
  - rewrite Itoa_pos.
    destruct (NilEmpty.string_of_uint (Pos.to_uint p)) as [|c rest] eqn:Hs.
    + pose proof (unsigned_to_uint p) as H. rewrite Hs in H. discriminate H.
    + destruct (string_of_uint_head _ _ _ Hs) as [Hminus Hplus].
      eapply Atoi_unsigned; eauto. rewrite <- Hs. apply unsigned_to_uint.
  - rewrite Itoa_neg. unfold Atoi. rewrite unsigned_to_uint.
    cbn [fmap option_fmap option_map mbind option_bind].
    change (- Z.pos p) with (Z.neg p).
    destruct (Z.leb_spec int64_min (Z.neg p)), (Z.leb_spec (Z.neg p) int64_max);
      try lia. reflexivity.
Qed.

Lemma string_of_uint_inj (d e : Decimal.uint) :
  NilEmpty.string_of_uint d = NilEmpty.string_of_uint e -> d = e.
Proof.
  intros H. apply (f_equal NilEmpty.uint_of_string) in H.
  rewrite !NilEmpty.usu in H. congruence.
Qed.

Lemma to_uint_not_zero (p : positive) :
  NilEmpty.string_of_uint (Pos.to_uint p) <> "0".
Proof.
  intros H. change "0" with (NilEmpty.string_of_uint (D0 Nil)) in H.
  apply string_of_uint_inj in H.
  pose proof (DecimalPos.Unsigned.of_to p) as Hp. rewrite H in Hp. discriminate Hp.
Qed.

Lemma to_uint_not_signed (p : positive) (s : string) :
  NilEmpty.string_of_uint (Pos.to_uint p) <> String "-" s.
Proof.
  intros H. apply string_of_uint_head in H. destruct H as [H _]. congruence.
Qed.

(** [strconv.Itoa] prints different integers differently. *)
Lemma Itoa_inj (n m : Z) : Itoa n = Itoa m -> n = m.
Proof.
  destruct n as [|p|p], m as [|q|q]; rewrite ?Itoa_pos, ?Itoa_neg;
    change (Itoa 0) with "0"; intros H; try reflexivity;
    try (symmetry in H; apply to_uint_not_zero in H; contradiction);
    try (apply to_uint_not_zero in H; contradiction);
    try (symmetry in H; apply to_uint_not_signed in H; contradiction);
    try (apply to_uint_not_signed in H; contradiction);
    try discriminate H.
  - apply string_of_uint_inj, DecimalPos.Unsigned.to_uint_inj in H. congruence.
  - injection H as H. apply string_of_uint_inj, DecimalPos.Unsigned.to_uint_inj in H. congruence.
Qed.
End GoFacts.

Module TrackingFacts.
Import Go Tracking TrackingObs Console.

(** X1: [FindAnimeByIDUnified] accepts the decimal text of every 64-bit ID,
    as [strconv.Itoa] and the [%d] verb print it: the lookup of such a key
    never fails with the invalid-ID error; it returns the first entry with
    that ID in the order Watching, Completed, Paused, Dropped, Planning,
    Rewatching, and the not-found error when there is none. *)
Theorem find_by_printed_id (list : AnimeList) (id : Z) :
  int64_min <= id <= int64_max ->
  FindAnimeByIDUnified list (Itoa id) =
    match List.find (fun e => ID (EntryMedia e) =? id) (inScanOrder list) with
    | Some entry => (Some entry, None)
    | None => (None, Some ("anime with ID " +:+ Itoa id +:+ " not found"))
    end.
Proof.
  intros Hrange. unfold FindAnimeByIDUnified, inScanOrder.
  rewrite (GoFacts.Atoi_Itoa id Hrange).
  rewrite TrackingSpec.scanCategories_concat, TrackingSpec.scanCategory_find.
  cbn [concat]. now rewrite app_nil_r.
Qed.

Lemma find_by_printed_id_witness :
  int64_min <= 21 <= int64_max /\
  FindAnimeByIDUnified inconsistentList (Itoa 21) =
    match List.find (fun e => ID (EntryMedia e) =? 21) (inScanOrder inconsistentList) with
    | Some entry => (Some entry, None)
    | None => (None, Some ("anime with ID " +:+ Itoa 21 +:+ " not found"))
    end.
Proof.
  assert (H : int64_min <= 21 <= int64_max) by (unfold int64_min, int64_max; lia).
  split; [exact H | exact (find_by_printed_id inconsistentList 21 H)].
Defined.

Section Configured.
Variable unicodeLower : string -> string.

Lemma GetTrackingService_primary (config : CurdConfig) :
  GetTrackingService unicodeLower config =
    match primary unicodeLower config with MAL => "mal" | AniList => "anilist" end.
Proof.
  unfold primary, GetTrackingService.
  destruct ((ToLower unicodeLower (TrackingService config) =? "mal")%string ||
            (ToLower unicodeLower (TrackingService config) =? "myanimelist")%string);
    reflexivity.
Qed.

(** X2: between the service names [GetTrackingService] resolves two
    configurations to, [ConvertIDIfNeeded] always has a route: it returns
    the ID as it is when both resolve to the same service, asks
    [GetAnimeMalID] from AniList to MAL, and [ConvertMALIDToAnilist] with an
    empty token from MAL to AniList; the unsupported-conversion error is
    never the answer, whatever the configured names are. *)
Theorem convert_between_configured (id : Z) (fromConfig toConfig : CurdConfig) :
  ConvertIDIfNeeded id (GetTrackingService unicodeLower fromConfig)
                       (GetTrackingService unicodeLower toConfig) =
    crossReference id (primary unicodeLower fromConfig) (primary unicodeLower toConfig).
Proof.
  rewrite !GetTrackingService_primary.
  destruct (primary unicodeLower fromConfig), (primary unicodeLower toConfig);
    reflexivity.
Qed.

Variables (anilistToken malToken : string) (anilistID malID : Z).

Ltac answer h :=
  match goal with
  | |- context [h ?X ?e ?s] =>
      let r := fresh "r" in
      let s' := fresh "s" in
      destruct (h X e s) as [r s']; try destruct r; simpl
  end.

Ltac symbolic h :=
  unfold Prog.trace, Prog.result; simpl;
  repeat first [ progress simpl | answer h ].


End Configured.
End TrackingFacts.

Module MALAccountFacts.
Import Go MyAnimeList MyAnimeListObs MALAccount MALAccountObs.

Ltac step := cbn [Prog.run Prog.bind Prog.call client_Do NewRequest CurdOut Now_Format
                  GetGlobalConfig GetUserInputFromRofi Println Scanln fst snd
                  String.eqb Ascii.eqb Bool.eqb negb andb orb].
Ltac answer h :=
  match goal with
  | |- context [h ?X ?e ?s] =>
      is_var s;
      let r := fresh "r" in
      let s' := fresh "s" in
      destruct (h X e s) as [r s']
  end.
Ltac branch :=
  match goal with
  | |- context [Prog.run _ (match ?x with _ => _ end) _] => destruct x eqn:?
  | |- context [Prog.run _ (Prog.bind (match ?x with _ => _ end) _) _] => destruct x eqn:?
  end.
Ltac execute h := step; repeat (first [answer h | branch]; step).
Ltac observe :=
  cbv [requests requestOf printed outLine accepted acceptedReply succeeded dates dateOf
       head omap list_omap fmap list_fmap fst snd
       Body HeaderSet Header Method URL default from_option id entryPatch bearerGet] in *.

Lemma convert_loop (malEntries : list MALAnimeListEntry) :
  forall acc : list AnilistEntry,
    fold_left (fun entries malEntry => app entries [convertMALEntry malEntry]) malEntries acc
    = app acc (convertMALEntry <$> malEntries).
Proof.
  induction malEntries as [|e l IH]; intros acc; cbn [fold_left fmap list_fmap].
  - now rewrite app_nil_r.
  - rewrite IH, <- app_assoc. reflexivity.
Qed.

Lemma convertMALToAnilistFormat_fmap (malEntries : list MALAnimeListEntry) :
  convertMALToAnilistFormat malEntries = convertMALEntry <$> malEntries.
Proof. unfold convertMALToAnilistFormat. now rewrite convert_loop. Qed.

Lemma convertMALEntry_carried (malEntry : MALAnimeListEntry) :
  carried malEntry (convertMALEntry malEntry).
Proof. unfold carried, convertMALEntry. cbn. tauto. Qed.

Ltac member := unfold canonical; cbn [In]; repeat (first [left; reflexivity | right]).

Lemma convertMALEntry_statusRead (malEntry : MALAnimeListEntry) :
  statusRead malEntry (convertMALEntry malEntry).
Proof.
  destruct malEntry as [node [st sc ep rw]].
  unfold statusRead, convertMALEntry.
  cbn [status ListStatus ListStatus_Status ListStatus_IsRewatching].
  destruct rw.
  - split; [member|]. split; [tauto|discriminate].
  - destruct (String.eqb_spec st "watching");
      [|destruct (String.eqb_spec st "completed");
        [|destruct (String.eqb_spec st "on_hold");
          [|destruct (String.eqb_spec st "dropped");
            [|destruct (String.eqb_spec st "plan_to_watch")]]]].
    all: (split; [member|]).
    all: (split; [split; discriminate|]).
    all: intros _ Hout; try reflexivity; exfalso; apply Hout; subst st; cbn [In]; repeat (first [left; reflexivity | right]).
Qed.

(** X4: [convertMALToAnilistFormat] turns a MyAnimeList list into one
    AniList-shaped entry per list entry, in the same order, carrying the ID,
    the episode count, the title (three times), the large cover, the score
    and the progress.  The status of every converted entry is one of the six
    AniList names: it is REPEATING exactly for the entries flagged as being
    rewatched, and CURRENT for an entry whose MyAnimeList status is none of
    the five known names (an empty status included). *)
Theorem list_conversion_total (malEntries : list MALAnimeListEntry) :
  Forall2 (fun malEntry entry => carried malEntry entry /\ statusRead malEntry entry)
          malEntries (convertMALToAnilistFormat malEntries).
Proof.
  rewrite convertMALToAnilistFormat_fmap.
  induction malEntries as [|e l IH]; cbn [fmap list_fmap]; constructor; [|exact IH].
  split; [apply convertMALEntry_carried | apply convertMALEntry_statusRead].
Qed.

(** X5: how a write on MyAnimeList ends.  [UpdateMALAnimeProgress],
    [UpdateMALAnimeStatus] and [AddAnimeToMALWatchingList] send exactly one
    request in every run; they return no error exactly when the transport
    gave a response and its status is 200 (any other status, 201 or 204
    included, is an error), and they print their confirmation line exactly
    then and nothing otherwise. *)
Theorem write_outcome (token : string) (mediaID progress : Z) (status : string) :
  forall (S : Type) (h : Prog.env Sys S) (s : S),
    (let p := UpdateMALAnimeProgress token mediaID progress in
     accepted (Prog.trace h p s) = [succeeded (Prog.result h p s)] /\
     printed (Prog.trace h p s) =
       if succeeded (Prog.result h p s)
       then ["MyAnimeList progress updated! Latest watched episode: " +:+ Itoa progress]
       else []) /\
    (let p := UpdateMALAnimeStatus token mediaID status in
     accepted (Prog.trace h p s) = [succeeded (Prog.result h p s)] /\
     printed (Prog.trace h p s) =
       if succeeded (Prog.result h p s)
       then ["MyAnimeList status updated to: " +:+ default "" (statusMap !! status)]
       else []) /\
    (let p := AddAnimeToMALWatchingList mediaID token in
     accepted (Prog.trace h p s) = [succeeded (Prog.result h p s)] /\
     printed (Prog.trace h p s) =
       if succeeded (Prog.result h p s)
       then ["Anime with ID " +:+ Itoa mediaID +:+
             " has been added to your MyAnimeList watching list."]
       else []).
Proof.
  intros S h s. split; [|split]; cbv zeta.
  - unfold Prog.trace, Prog.result, UpdateMALAnimeProgress.
    execute h; observe; try (split; reflexivity).
    all: match goal with H : negb _ = _ |- _ => 
           cbv [StatusOK] in *; destruct (StatusCode _ =? 200); try discriminate H end.
    all: split; reflexivity.
  - unfold Prog.trace, Prog.result, UpdateMALAnimeStatus.
    execute h; observe; try (split; reflexivity).
    all: match goal with H : negb _ = _ |- _ => 
           cbv [StatusOK] in *; destruct (StatusCode _ =? 200); try discriminate H end.
    all: split; reflexivity.
  - unfold Prog.trace, Prog.result, AddAnimeToMALWatchingList.
    execute h; observe; try (split; reflexivity).
    all: match goal with H : negb _ = _ |- _ => 
           cbv [StatusOK] in *; destruct (StatusCode _ =? 200); try discriminate H end.
    all: split; reflexivity.
Qed.

Ltac okStatus :=
  match goal with
  | H : negb _ = _ |- _ =>
      cbv [StatusOK] in *; destruct (StatusCode _ =? 200); try discriminate H
  end.

(** X6: adding a title to the watching list and setting its status to
    CURRENT are the same write: in every run [AddAnimeToMALWatchingList] and
    [UpdateMALAnimeStatus] with ["CURRENT"] send one and the same request,
    the [PATCH] of the entry with the single form field [status=watching]
    (they differ in the line printed and in the text of the error). *)
Theorem add_is_status_current (animeID : Z) (token : string) :
  forall (S : Type) (h : Prog.env Sys S) (s : S),
    requests (Prog.trace h (AddAnimeToMALWatchingList animeID token) s) =
      [entryPatch token animeID {[ "status" := ["watching"] ]}] /\
    requests (Prog.trace h (UpdateMALAnimeStatus token animeID "CURRENT") s) =
      [entryPatch token animeID {[ "status" := ["watching"] ]}].
Proof.
  intros S h s. split.
  - unfold Prog.trace, AddAnimeToMALWatchingList. execute h; observe; reflexivity.
  - unfold Prog.trace, UpdateMALAnimeStatus. execute h; observe; reflexivity.
Qed.

Ltac lookups :=
  unfold ValuesSet, ValuesGet;
  repeat match goal with
  | |- context [ (<[?k := ?v]> ?m) !! ?k ] => rewrite (lookup_insert_eq m k v)
  | |- context [ (<[?k := ?v]> ?m) !! ?j ] =>
      rewrite (lookup_insert_ne m k j v) by discriminate
  | |- context [ {[?k := ?v]} !! ?k ] => rewrite lookup_singleton_eq
  | |- context [ {[?k := ?v]} !! ?j ] => rewrite lookup_singleton_ne by discriminate
  end.

Lemma only_status (v : string) (key : string) :
  ({[ "status" := [v] ]} : Values) !! key <> None -> key = "status".
Proof.
  intros Hk. destruct (String.eqb_spec key "status") as [->|Hne]; [reflexivity|].
  rewrite lookup_singleton_ne in Hk by congruence. congruence.
Qed.

Lemma only_status_and (extra w v : string) (key : string) :
  (<[extra := [w]]> ({[ "status" := [v] ]} : Values)) !! key <> None ->
  key = "status" \/ key = extra.
Proof.
  intros Hk. destruct (String.eqb_spec key extra) as [->|Hne]; [now right|].
  rewrite lookup_insert_ne in Hk by congruence. left. now apply only_status in Hk.
Qed.

(** X7: what a status write sends, for any status text.
    [UpdateMALAnimeStatus] sends one [PATCH] of the entry whose form holds
    [status], [finish_date] and [is_rewatching] at most, so it never touches
    the score or the progress; [finish_date] is there exactly for COMPLETED,
    and is the date the clock gave in that run; [is_rewatching=true] is there
    exactly for REPEATING and [is_rewatching] is never sent otherwise; the
    [status] field is the empty string exactly for a status outside the six
    AniList names.  [UpdateMALAnimeProgress] sends the single field
    [num_watched_episodes], whatever the progress. *)
Theorem write_frame (token : string) (mediaID progress : Z) (status : string) :
  forall (S : Type) (h : Prog.env Sys S) (s : S),
    requests (Prog.trace h (UpdateMALAnimeProgress token mediaID progress) s) =
      [entryPatch token mediaID {[ "num_watched_episodes" := [Itoa progress] ]}] /\
    let tr := Prog.trace h (UpdateMALAnimeStatus token mediaID status) s in
    exists data : Values,
      requests tr = [entryPatch token mediaID data] /\
      (forall key : string,
         data !! key <> None ->
         key = "status" \/ key = "finish_date" \/ key = "is_rewatching") /\
      (dates tr = [] <-> status <> "COMPLETED") /\
      data !! "finish_date" = (fun date => [date]) <$> head (dates tr) /\
      data !! "is_rewatching" =
        (if (status =? "REPEATING")%string then Some ["true"] else None) /\
      (ValuesGet "status" data = "" <-> ~ In status canonical).
Proof.
  intros S h s. split.
  { unfold Prog.trace, UpdateMALAnimeProgress. execute h; observe; reflexivity. }
  cbv zeta. unfold Prog.trace, UpdateMALAnimeStatus.
  destruct (String.eqb_spec status "CURRENT") as [->|H1];
    [|destruct (String.eqb_spec status "COMPLETED") as [->|H2];
      [|destruct (String.eqb_spec status "PAUSED") as [->|H3];
        [|destruct (String.eqb_spec status "DROPPED") as [->|H4];
          [|destruct (String.eqb_spec status "PLANNING") as [->|H5];
            [|destruct (String.eqb_spec status "REPEATING") as [->|H6]]]]]].
  all: execute h; observe.
  all: eexists; (split; [reflexivity|]).
  all: (split; [intros key Hk;
                first [ apply only_status in Hk; tauto
                      | apply only_status_and in Hk; tauto ]|]).
  all: (split; [split; [first [discriminate | intros _; assumption | intros _; discriminate] 
                       | first [reflexivity | intros Hc; exfalso; now apply Hc ]]|]).
  all: (split; [lookups; reflexivity|]).
  all: (split; [lookups; reflexivity|]).
  all: lookups; split;
    [ try discriminate; intros _ Hin; unfold canonical in Hin; cbn [In] in Hin;
      intuition congruence
    | intros Hout; try reflexivity; exfalso; apply Hout; member ].
Qed.

End MALAccountFacts.

Module ProgFacts.

(** A program that ends by a pure step makes the calls of the program
    before that step. *)
Lemma run_bind_ret {E : Type -> Type} {S A B : Type} (h : Prog.env E S)
    (p : Prog.t E A) (f : A -> B) :
  forall s : S,
    Prog.run h (Prog.bind p (fun a => Prog.Ret (f a))) s =
    (f (Prog.run h p s).1, (Prog.run h p s).2).
Proof.
  induction p as [a|X e k IH]; intros s; cbn [Prog.bind Prog.run]; [reflexivity|].
  rewrite IH. reflexivity.
Qed.

Lemma run_bind_pure {E : Type -> Type} {S A B : Type} (h : Prog.env E S)
    (p : Prog.t E A) (k : A -> Prog.t E B) (f : A -> B) :
  (forall a : A, k a = Prog.Ret (f a)) ->
  forall s : S,
    Prog.run h (Prog.bind p k) s = (f (Prog.run h p s).1, (Prog.run h p s).2).
Proof.
  intros Hk. induction p as [a|X e k' IH]; intros s; cbn [Prog.bind Prog.run].
  - now rewrite Hk.
  - rewrite IH. reflexivity.
Qed.

End ProgFacts.

Module MALPagesFacts.
Import Go MyAnimeList MyAnimeListObs MALAccount MALAccountObs MALPagesObs.

Section Pages.
Variable UnmarshalList : string -> MALAnimeList * error.
Variable urlError : string -> error.
Variable token : string.

Local Abbreviation pages := (GetMALUserAnimeList_pages UnmarshalList urlError).
Local Abbreviation pagesOf := (pagesOf UnmarshalList).

Lemma pages_outcome (fuel : nat) :
  forall (allData : list MALAnimeListEntry) (nextURL : string)
         (S : Type) (h : Prog.env Sys S) (s : S),
    loopOutcome UnmarshalList token fuel allData nextURL (Prog.run h (pages fuel token allData nextURL) s).
Proof.
  induction fuel as [|fuel IH]; intros allData nextURL S h s.
  - cbn [GetMALUserAnimeList_pages].
    destruct (String.eqb_spec nextURL "") as [->|Hne]; cbn [Prog.run];
      unfold loopOutcome; cbn.
    + split; [reflexivity|]. now rewrite app_nil_r.
    + split; [reflexivity|]. repeat split. now repeat constructor.
  - cbn [GetMALUserAnimeList_pages].
    destruct (String.eqb_spec nextURL "") as [->|Hne].
    { cbn [Prog.run]. unfold loopOutcome; cbn. split; [reflexivity|].
      now rewrite app_nil_r. }
    unfold NewRequestTo. destruct (urlError nextURL) as [err|].
    { cbn [Prog.run]. unfold loopOutcome; cbn. split; [reflexivity|].
      now repeat constructor. }
    cbn [NewRequest Prog.bind Prog.run client_Do Prog.call].
    destruct (h _ (ClientDo (HeaderSet "Authorization" ("Bearer " +:+ token)
                {| Method := "GET"; URL := nextURL; Header := ∅; Body := None |})) s)
      as [[resp [err|]] s'] eqn:Hreply; cbn [fst snd].
    { cbn [Prog.run]. unfold loopOutcome.
      cbn [fst snd requests pagesOf MALPagesObs.pagesOf omap list_omap requestOf pageOf
           fmap list_fmap length take].
      split; [reflexivity|]. now repeat constructor. }
    destruct (StatusCode resp =? StatusOK) eqn:Hok; cbn [negb].
    2:{ cbn [Prog.run]. unfold loopOutcome.
        cbn [fst snd requests pagesOf MALPagesObs.pagesOf omap list_omap requestOf pageOf
             fmap list_fmap length take].
        rewrite Hok. cbn [fmap list_fmap]. split; [reflexivity|]. now repeat constructor. }
    destruct (ReadAll resp) as [body [err|]] eqn:Hread.
    { cbn [Prog.run]. unfold loopOutcome.
      cbn [fst snd requests pagesOf MALPagesObs.pagesOf omap list_omap requestOf pageOf
           fmap list_fmap length take].
      rewrite Hok, Hread. cbn [fmap list_fmap]. split; [reflexivity|].
      now repeat constructor. }
    destruct (UnmarshalList body) as [animeList [err|]] eqn:Hpage.
    { cbn [Prog.run]. unfold loopOutcome.
      cbn [fst snd requests pagesOf MALPagesObs.pagesOf omap list_omap requestOf pageOf
           fmap list_fmap length take].
      rewrite Hok, Hread, Hpage. cbn [fmap list_fmap]. split; [reflexivity|].
      now repeat constructor. }
    specialize (IH (app allData (Data animeList)) (Paging_Next animeList) S h s').
    destruct (Prog.run h (pages fuel token (app allData (Data animeList))
                            (Paging_Next animeList)) s') as [res tr].
    unfold loopOutcome in IH. cbn [fst snd] in IH.
    unfold loopOutcome.
    cbn [fst snd requests pagesOf MALPagesObs.pagesOf omap list_omap requestOf pageOf
         fmap list_fmap length take].
    rewrite Hok, Hread, Hpage.
    fold (requests tr). fold (pagesOf tr).
    cbn [fmap list_fmap concat length take].
    destruct IH as [Hreq Hres]. split.
    + f_equal. exact Hreq.
    + destruct res as [[data [err|]]|].
      * constructor; [exact Hne|exact Hres].
      * destruct Hres as (Hdata & Hlen & Hlast). split; [|split].
        -- rewrite Hdata, <- app_assoc. reflexivity.
        -- now rewrite Hlen.
        -- rewrite <- Hlast. reflexivity.
      * destruct Hres as (Hn & Hp & Hall). split; [|split].
        -- now rewrite Hn.
        -- now rewrite Hp.
        -- constructor; [exact Hne|exact Hall].
Qed.

Lemma pages_more_fuel (fuel more : nat) :
  forall (allData : list MALAnimeListEntry) (nextURL : string)
         (S : Type) (h : Prog.env Sys S) (s : S),
    (Prog.run h (pages fuel token allData nextURL) s).1 <> None ->
    Prog.run h (pages (fuel + more) token allData nextURL) s =
    Prog.run h (pages fuel token allData nextURL) s.
Proof.
  induction fuel as [|fuel IH]; intros allData nextURL S h s.
  - cbn [Nat.add]. destruct more as [|more]; [reflexivity|].
    cbn [GetMALUserAnimeList_pages].
    destruct (String.eqb_spec nextURL "") as [->|Hne]; [reflexivity|].
    cbn [Prog.run fst]. congruence.
  - cbn [Nat.add GetMALUserAnimeList_pages].
    destruct (String.eqb_spec nextURL "") as [->|Hne]; [reflexivity|].
    unfold NewRequestTo. destruct (urlError nextURL) as [err|]; [reflexivity|].
    cbn [NewRequest Prog.bind Prog.run client_Do Prog.call].
    destruct (h _ (ClientDo (HeaderSet "Authorization" ("Bearer " +:+ token)
                {| Method := "GET"; URL := nextURL; Header := ∅; Body := None |})) s)
      as [[resp [err|]] s'] eqn:Hreply; cbn [fst snd]; [reflexivity|].
    destruct (StatusCode resp =? StatusOK); cbn [negb]; [|reflexivity].
    destruct (ReadAll resp) as [body [err|]]; [reflexivity|].
    destruct (UnmarshalList body) as [animeList [err|]]; [reflexivity|].
    intros Hret. rewrite IH; [reflexivity|exact Hret].
Qed.

Local Abbreviation GetMALUserAnimeList := (GetMALUserAnimeList UnmarshalList urlError).

Lemma GetMALUserAnimeList_run (fuel : nat) (S : Type) (h : Prog.env Sys S) (s : S) :
  Prog.run h (GetMALUserAnimeList fuel token) s =
  (let rt := Prog.run h (pages fuel token [] firstPage) s in
   (match rt.1 with
    | None => None
    | Some (_, Some err) => Some (None, Some err)
    | Some (allData, None) =>
        Some (Some {| lists := [ {| entries := convertMALToAnilistFormat allData |} ] |},
              None)
    end, rt.2)).
Proof.
  unfold MALAccount.GetMALUserAnimeList.
  apply (ProgFacts.run_bind_pure h _ _
           (fun r : option (list MALAnimeListEntry * error) =>
              match r with
              | None => None
              | Some (_, Some err) => Some (None, Some err)
              | Some (allData, None) =>
                  Some (Some {| lists := [ {| entries := convertMALToAnilistFormat allData |} ] |},
                        None)
              end)).
  intros [[allData [err|]]|]; reflexivity.
Qed.

(** X8: [GetMALUserAnimeList] walks the list by its next links.  In every
    run, each request is a [GET] without a body under the caller's bearer
    token; the first goes to
    [/users/@me/animelist?fields=list_status,num_episodes&limit=1000] and
    each later one to the next link of the page received just before. *)
Theorem list_follows_next_links (fuel : nat) :
  forall (S : Type) (h : Prog.env Sys S) (s : S),
    followsLinks UnmarshalList token (Prog.trace h (GetMALUserAnimeList fuel token) s).
Proof.
  intros S h s. unfold followsLinks, links, Prog.trace.
  rewrite GetMALUserAnimeList_run. cbn [snd].
  exact (proj1 (pages_outcome fuel [] firstPage S h s)).
Qed.

(** X9: what [GetMALUserAnimeList] returns.  A run that returns a document
    received a page for every request it made, the last of them without a
    next link, and the document holds one list whose entries are the
    conversion of the entries of all the pages, in the order received.  A
    run that returns an error returns no document, whatever pages came
    before.  A run the bound on the number of turns stopped had made that
    many requests and received that many pages, each with a next link. *)
Theorem list_result (fuel : nat) :
  forall (S : Type) (h : Prog.env Sys S) (s : S),
    listOutcome UnmarshalList fuel
      (Prog.trace h (GetMALUserAnimeList fuel token) s)
      (Prog.result h (GetMALUserAnimeList fuel token) s).
Proof.
  intros S h s. unfold listOutcome, links, collected, Prog.trace, Prog.result.
  rewrite GetMALUserAnimeList_run. cbn [fst snd].
  destruct (pages_outcome fuel [] firstPage S h s) as [_ Hres].
  cbn [fst snd] in Hres.
  destruct (Prog.run h (pages fuel token [] firstPage) s) as [[[data [err|]]|] tr];
    cbn [fst snd] in *.
  - exact Hres.
  - destruct Hres as (-> & Hlen & Hlast). cbn [app]. auto.
  - exact Hres.
Qed.

(** X10: the bound on the number of turns does not show in the answer.
    When a run of [GetMALUserAnimeList] with some bound returns (a document
    or an error), the run with any larger bound makes the same calls and
    returns the same. *)
Theorem list_fuel_enough (fuel more : nat) :
  forall (S : Type) (h : Prog.env Sys S) (s : S),
    Prog.result h (GetMALUserAnimeList fuel token) s <> None ->
    Prog.run h (GetMALUserAnimeList (fuel + more) token) s =
    Prog.run h (GetMALUserAnimeList fuel token) s.
Proof.
  intros S h s. unfold Prog.result. rewrite !GetMALUserAnimeList_run. cbn [fst snd].
  intros Hret. rewrite pages_more_fuel; [reflexivity|].
  intros Hnone. apply Hret. now rewrite Hnone.
Qed.

End Pages.

Lemma list_fuel_enough_witness :
  Prog.result twoPages (GetMALUserAnimeList decodePage wellFormed 2 "token") 0%nat <> None /\
  Prog.run twoPages (GetMALUserAnimeList decodePage wellFormed (2 + 3) "token") 0%nat =
  Prog.run twoPages (GetMALUserAnimeList decodePage wellFormed 2 "token") 0%nat.
Proof.
  assert (H : Prog.result twoPages (GetMALUserAnimeList decodePage wellFormed 2 "token")
                0%nat <> None) by (vm_compute; discriminate).
  split; [exact H|].
  exact (list_fuel_enough decodePage wellFormed "token" 2 3 nat twoPages 0%nat H).
Defined.

End MALPagesFacts.

Module MALPreviewFacts.
Import Go MyAnimeList MyAnimeListObs MALAccount MALAccountObs MALPreviewObs.

Ltac step := cbn [Prog.run Prog.bind Prog.call client_Do NewRequest CurdOut Now_Format
                  GetGlobalConfig GetUserInputFromRofi Println Scanln fst snd
                  String.eqb Ascii.eqb Bool.eqb negb andb orb].
Ltac answer h :=
  match goal with
  | |- context [h ?X ?e ?s] =>
      is_var s;
      let r := fresh "r" in
      let s' := fresh "s" in
      destruct (h X e s) as [r s']
  end.
Ltac branch :=
  match goal with
  | |- context [Prog.run _ (match ?x with _ => _ end) _] => destruct x eqn:?
  | |- context [Prog.run _ (Prog.bind (match ?x with _ => _ end) _) _] => destruct x eqn:?
  end.
Ltac execute h := step; repeat (first [answer h | branch]; step).

Section Fill.
Context {A : Type} (key : A -> string) (value : A -> RofiSelectPreview).

Local Abbreviation fill :=
  (fold_left (fun (animeDict : gmap string RofiSelectPreview) s =>
                <[key s := value s]> animeDict)).

Lemma fill_from (l : list A) :
  forall (start : gmap string RofiSelectPreview) (k : string) (v : RofiSelectPreview),
    fill l start !! k = Some v ->
    (exists s, In s l /\ key s = k /\ value s = v) \/ start !! k = Some v.
Proof.
  induction l as [|a l IH]; intros start k v Hk; cbn [fold_left] in Hk; [now right|].
  apply IH in Hk. destruct Hk as [(s & Hin & Hkey & Hval)|Hk].
  - left. exists s. cbn [In]. auto.
  - destruct (String.eqb_spec (key a) k) as [Heq|Hne].
    + subst k. rewrite lookup_insert_eq in Hk. injection Hk as <-.
      left. exists a. cbn [In]. auto.
    + rewrite lookup_insert_ne in Hk by exact Hne. now right.
Qed.

Lemma fill_keeps (l : list A) :
  forall (start : gmap string RofiSelectPreview) (k : string),
    is_Some (start !! k) -> is_Some (fill l start !! k).
Proof.
  induction l as [|a l IH]; intros start k Hk; cbn [fold_left]; [exact Hk|].
  apply IH. destruct (String.eqb_spec (key a) k) as [Heq|Hne].
  - subst k. rewrite lookup_insert_eq. eauto.
  - rewrite lookup_insert_ne by exact Hne. exact Hk.
Qed.

Lemma fill_holds (l : list A) :
  forall (start : gmap string RofiSelectPreview) (s : A),
    In s l -> is_Some (fill l start !! key s).
Proof.
  induction l as [|a l IH]; intros start s Hin; cbn [fold_left]; [destruct Hin|].
  destruct Hin as [->|Hin]; [|now apply IH].
  apply fill_keeps. rewrite lookup_insert_eq. eauto.
Qed.

End Fill.

Lemma NoDup_fmap_eq {A B : Type} (f : A -> B) (l : list A) (x y : A) :
  NoDup (f <$> l) -> In x l -> In y l -> f x = f y -> x = y.
Proof.
  induction l as [|a l IH]; intros Hnd Hx Hy Hf; [destruct Hx|].
  cbn [fmap list_fmap] in Hnd. apply NoDup_cons in Hnd. destruct Hnd as [Hnotin Hnd].
  destruct Hx as [->|Hx], Hy as [->|Hy]; auto.
  - exfalso. apply Hnotin. rewrite Hf. apply list_elem_of_In.
    apply (in_map f) in Hy. exact Hy.
  - exfalso. apply Hnotin. rewrite <- Hf. apply list_elem_of_In.
    apply (in_map f) in Hx. exact Hx.
Qed.

Section Preview.
Variable levenshtein : string -> string -> Z.
Variable QueryEscape : string -> string.
Variable UnmarshalPreview : string -> list PreviewNode * error.
Variable sort_Slice : forall A : Type, (A -> A -> bool) -> list A -> list A.
Hypothesis sort_Slice_sorts : sortsByKey sort_Slice.

Lemma score_loop (query : string) (data : list PreviewNode) :
  forall acc : list scoredPreview,
    fold_left
      (fun scored anime =>
         let idStr := Itoa (PreviewNode_ID anime) in
         let title := PreviewNode_Title anime in
         let cover := PreviewNode_MainPicture_Large anime in
         let cover :=
           if (cover =? "")%string then PreviewNode_MainPicture_Medium anime else cover in
         let score := levenshtein title query in
         app scored [ {| preview_id := idStr; preview_title := title;
                         preview_cover := cover; preview_score := score |} ])
      data acc
    = app acc (scorePreview levenshtein query <$> data).
Proof.
  induction data as [|a l IH]; intros acc; cbn [fold_left fmap list_fmap].
  - now rewrite app_nil_r.
  - rewrite IH, <- app_assoc. reflexivity.
Qed.

Lemma previewDict_eq (query : string) (data : list PreviewNode) :
  previewDict levenshtein sort_Slice query data =
  fold_left (fun (animeDict : gmap string RofiSelectPreview) s =>
               <[preview_id s := storedPreview s]> animeDict)
            (sort_Slice scoredPreview (fun si sj => preview_score si <? preview_score sj)
               (scorePreview levenshtein query <$> data))
            ∅.
Proof. unfold previewDict. cbv zeta. rewrite score_loop. reflexivity. Qed.

Lemma previewDict_previews (query : string) (data : list PreviewNode) :
  previews (previewDict levenshtein sort_Slice query data) data.
Proof.
  rewrite previewDict_eq.
  destruct (sort_Slice_sorts scoredPreview preview_score
              (scorePreview levenshtein query <$> data)) as [Hperm _].
  set (sorted := sort_Slice scoredPreview _ _) in *.
  assert (Hin : forall s, In s sorted <-> exists anime, In anime data /\
                                          s = scorePreview levenshtein query anime).
  { intros s. rewrite <- !list_elem_of_In, Hperm, list_elem_of_fmap.
    split; intros (anime & H1 & H2); exists anime; rewrite <- ?list_elem_of_In in *;
      rewrite ?list_elem_of_In in *; auto. }
  assert (Hfrom : forall key preview,
            fold_left (fun (animeDict : gmap string RofiSelectPreview) s =>
                         <[preview_id s := storedPreview s]> animeDict) sorted ∅ !! key
            = Some preview ->
            exists anime, In anime data /\ key = Itoa (PreviewNode_ID anime) /\
                          preview = previewOf anime).
  { intros key preview Hk. apply fill_from in Hk.
    destruct Hk as [(s & Hs & Hkey & Hval)|Hk]; [|now rewrite lookup_empty in Hk].
    apply Hin in Hs. destruct Hs as (anime & Hanime & ->).
    exists anime. split; [exact Hanime|]. split; [now rewrite <- Hkey|].
    rewrite <- Hval. reflexivity. }
  assert (Hholds : forall anime, In anime data ->
            is_Some (fold_left (fun (animeDict : gmap string RofiSelectPreview) s =>
                         <[preview_id s := storedPreview s]> animeDict) sorted ∅
                     !! Itoa (PreviewNode_ID anime))).
  { intros anime Hanime.
    apply (fill_holds preview_id storedPreview sorted ∅
             (scorePreview levenshtein query anime)).
    apply Hin. eauto. }
  split; [exact Hfrom|]. split; [exact Hholds|].
  intros Hnd anime Hanime.
  destruct (Hholds anime Hanime) as [preview Hpreview].
  rewrite Hpreview. f_equal.
  destruct (Hfrom _ _ Hpreview) as (other & Hother & Hkey & ->).
  apply GoFacts.Itoa_inj in Hkey.
  now rewrite (NoDup_fmap_eq PreviewNode_ID data anime other Hnd Hanime Hother Hkey).
Qed.

(** X11: the preview map.  When [sort.Slice] keeps to its contract, a
    successful [SearchAnimeMALPreview] returns a map that holds, under the
    decimal text of its ID, an entry for every candidate the service sent
    and no other entry; every entry is the title of a candidate with that ID
    and its large picture, or its medium picture when the large one is
    empty; when the IDs sent are distinct, each candidate is found under its
    own ID.  The ranking by edit distance leaves no trace in the map. *)
Theorem preview_map (query token : string) :
  previewed UnmarshalPreview
    (SearchAnimeMALPreview UnmarshalPreview levenshtein QueryEscape sort_Slice query token).
Proof.
  intros S h s. unfold Prog.result, Prog.trace, SearchAnimeMALPreview.
  execute h; cbn [fst snd]; try discriminate.
  intros _. eexists. split; [reflexivity|].
  unfold previewCandidates, previewCandidatesOf.
  cbn [omap list_omap head default from_option id fst snd].
  match goal with H : ReadAll _ = _ |- _ => rewrite H end.
  cbn [fst].
  match goal with H : UnmarshalPreview _ = _ |- _ => rewrite H end.
  cbn [fst]. apply previewDict_previews.
Qed.

End Preview.

Lemma preview_map_witness :
  previewed decodeTwoPreviews
    (SearchAnimeMALPreview decodeTwoPreviews levenshteinModel (fun q => q) insertionSlice
       "Monster" "token").
Proof.
  apply (preview_map levenshteinModel (fun q => q) decodeTwoPreviews insertionSlice).
  exact MyAnimeListSpec.insertionSlice_sorts.
Defined.

End MALPreviewFacts.

Module MALReadsFacts.
Import Go MyAnimeList MyAnimeListObs MALAccount MALAccountObs.

Ltac step := cbn [Prog.run Prog.bind Prog.call client_Do NewRequest CurdOut Now_Format
                  GetGlobalConfig GetUserInputFromRofi Println Scanln fst snd
                  String.eqb Ascii.eqb Bool.eqb negb andb orb].
Ltac answer h :=
  match goal with
  | |- context [h ?X ?e ?s] =>
      is_var s;
      let r := fresh "r" in
      let s' := fresh "s" in
      destruct (h X e s) as [r s']
  end.
Ltac branch :=
  match goal with
  | |- context [Prog.run _ (match ?x with _ => _ end) _] => destruct x eqn:?
  | |- context [Prog.run _ (Prog.bind (match ?x with _ => _ end) _) _] => destruct x eqn:?
  end.
Ltac execute h := step; repeat (first [answer h | branch]; step).
Ltac observe :=
  cbv [requests requestOf head omap list_omap fmap list_fmap fst snd
       Body HeaderSet Header Method URL default from_option id bearerGet] in *.

Section Reads.
Variable UnmarshalUserInfo : string -> MALUserInfo * error.
Variable UnmarshalDetails : string -> MALAnimeDetails * error.
Variable UnmarshalPreview : string -> list PreviewNode * error.
Variable UnmarshalSearch : string -> list SearchNode * error.
Variable levenshtein : string -> string -> Z.
Variable QueryEscape : string -> string.
Variable sort_Slice : forall A : Type, (A -> A -> bool) -> list A -> list A.

(** X12: the reads of the MyAnimeList adapter.  [GetMALUserInfo],
    [GetMALAnimeDetails], [SearchAnimeMAL] and [SearchAnimeMALPreview] each
    send exactly one request in every run: a [GET] without a body, under the
    caller's bearer token, to [/users/@me], to
    [/anime/<id>?fields=num_episodes,status,my_list_status], and to
    [/anime?q=<escaped query>&limit=10] (with [&fields=main_picture] for
    the preview).  Whenever one of them returns an error, the value beside
    it is the zero value: ID 0 and an empty name, an [Anime] with no
    episodes that is not airing, no results, no map. *)
Theorem reads_send_one_get (token query : string) (malID : Z) :
  forall (S : Type) (h : Prog.env Sys S) (s : S),
    (let p := GetMALUserInfo UnmarshalUserInfo token in
     requests (Prog.trace h p s) = [bearerGet token (malAPIURL +:+ "/users/@me")] /\
     ((Prog.result h p s).2 <> None -> (Prog.result h p s).1 = (0, ""))) /\
    (let p := GetMALAnimeDetails UnmarshalDetails malID token in
     requests (Prog.trace h p s) =
       [bearerGet token (malAPIURL +:+ "/anime/" +:+ Itoa malID +:+
                         "?fields=num_episodes,status,my_list_status")] /\
     ((Prog.result h p s).2 <> None -> (Prog.result h p s).1 = zeroAnime)) /\
    (let p := SearchAnimeMAL levenshtein QueryEscape UnmarshalSearch sort_Slice query token in
     requests (Prog.trace h p s) =
       [bearerGet token (malAPIURL +:+ "/anime?q=" +:+ QueryEscape query +:+ "&limit=10")] /\
     ((Prog.result h p s).2 <> None -> (Prog.result h p s).1 = [])) /\
    (let p := SearchAnimeMALPreview UnmarshalPreview levenshtein QueryEscape sort_Slice
                query token in
     requests (Prog.trace h p s) =
       [bearerGet token (malAPIURL +:+ "/anime?q=" +:+ QueryEscape query +:+
                         "&limit=10&fields=main_picture")] /\
     ((Prog.result h p s).2 <> None -> (Prog.result h p s).1 = None)).
Proof.
  intros S h s. cbv zeta. split; [|split; [|split]].
  - unfold Prog.trace, Prog.result, GetMALUserInfo.
    execute h; observe; (split; [reflexivity|]); intros Herr; congruence.
  - unfold Prog.trace, Prog.result, GetMALAnimeDetails.
    execute h; observe; (split; [reflexivity|]); intros Herr; congruence.
  - unfold Prog.trace, Prog.result, SearchAnimeMAL.
    execute h; observe; (split; [reflexivity|]); intros Herr; congruence.
  - unfold Prog.trace, Prog.result, SearchAnimeMALPreview.
    execute h; observe; (split; [reflexivity|]); intros Herr; congruence.
Qed.

End Reads.
End MALReadsFacts.

Module GoStringsFacts.
Import Go GoStrings DownloadObs.

Lemma bytes_append (a b : string) : bytes (a +:+ b) = (bytes a ++ bytes b)%list.
Proof.
  induction a as [|c a IH]; [reflexivity|].
  change (String c a +:+ b) with (String c (a +:+ b)).
  cbn [bytes list_ascii_of_string app]. f_equal. exact IH.
Qed.

Lemma length_bytes (s : string) : length (bytes s) = String.length s.
Proof.
  induction s as [|c s IH]; [reflexivity|].
  cbn [bytes list_ascii_of_string length String.length]. f_equal. exact IH.
Qed.

Lemma partOf_bytes (f : string -> string) :
  partOf f -> forall (s : string) (c : ascii), In c (bytes (f s)) -> In c (bytes s).
Proof.
  intros Hpart s c Hc. destruct (Hpart s) as (before & after & Hs).
  rewrite Hs, !bytes_append. apply in_or_app. right. apply in_or_app. now left.
Qed.

Lemma bytes_mapBytes (f : ascii -> ascii) (s : string) :
  bytes (mapBytes f s) = List.map f (bytes s).
Proof.
  induction s as [|c s IH]; [reflexivity|].
  cbn [mapBytes bytes list_ascii_of_string List.map]. f_equal. exact IH.
Qed.

Lemma HasPrefix_empty (s : string) : HasPrefix s "" = true.
Proof. now destruct s. Qed.

Lemma replace_byte (old : ascii) (s : string) :
  replaceFrom O s (String old "") "_" = mapBytes (substitute old) s.
Proof.
  induction s as [|c s IH]; [reflexivity|].
  cbn [replaceFrom HasPrefix mapBytes String.length Nat.sub].
  rewrite ?HasPrefix_empty, andb_true_r. unfold substitute at 1.
  destruct (Ascii.eqb c old); cbn; now rewrite IH.
Qed.

Lemma ReplaceAll_byte (betweenRunes : string -> string -> string) (old : ascii)
    (s : string) :
  ReplaceAll betweenRunes s (String old "") "_" = mapBytes (substitute old) s.
Proof. unfold ReplaceAll. cbn [String.eqb]. apply replace_byte. Qed.

Lemma replaced_bytes (olds : list ascii) :
  ~ In "_"%char olds ->
  forall (s : string) (c : ascii),
    In c (bytes (fold_left (fun result old => mapBytes (substitute old) result) olds s)) ->
    ~ In c olds /\ (c = "_"%char \/ In c (bytes s)).
Proof.
  induction olds as [|old olds IH]; intros Hnew s c Hc; cbn [fold_left] in Hc.
  - split; [intros []|now right].
  - assert (Hnew' : ~ In "_"%char olds) by (intros H; apply Hnew; now right).
    destruct (IH Hnew' _ _ Hc) as [Hout Hfrom]. split.
    + intros [->|Hin]; [|now apply Hout].
      destruct Hfrom as [->|Hfrom]; [apply Hnew; now left|].
      rewrite bytes_mapBytes in Hfrom. apply in_map_iff in Hfrom.
      destruct Hfrom as (x & Hx & _). unfold substitute in Hx.
      destruct (Ascii.eqb_spec x c) as [Heq|Hne]; [|congruence].
      apply Hnew. left. now rewrite Hx.
    + destruct Hfrom as [->|Hfrom]; [now left|].
      rewrite bytes_mapBytes in Hfrom. apply in_map_iff in Hfrom.
      destruct Hfrom as (x & Hx & Hin). unfold substitute in Hx.
      destruct (Ascii.eqb x old); [now left|]. subst x. now right.
Qed.

Lemma bytes_reverse (s : string) :
  forall acc : string, bytes (reverse acc s) = (rev (bytes s) ++ bytes acc)%list.
Proof.
  induction s as [|c s IH]; intros acc; cbn [reverse bytes list_ascii_of_string rev app];
    [reflexivity|].
  rewrite IH. cbn [bytes list_ascii_of_string]. now rewrite <- app_assoc.
Qed.

Lemma In_reverse (s : string) (c : ascii) :
  In c (bytes (reverse "" s)) <-> In c (bytes s).
Proof.
  rewrite bytes_reverse. cbn [bytes list_ascii_of_string]. rewrite app_nil_r.
  symmetry. apply in_rev.
Qed.

Section TrimSpace.
Variable TrimFunc_IsSpace : string -> string.
Variable TrimRightFunc_IsSpace : string -> string.
Hypothesis TrimFunc_part : partOf TrimFunc_IsSpace.
Hypothesis TrimRightFunc_part : partOf TrimRightFunc_IsSpace.

Lemma trimStop_bytes (backwards : string) (c : ascii) :
  In c (bytes (trimStop TrimRightFunc_IsSpace backwards)) -> In c (bytes backwards).
Proof.
  induction backwards as [|b rest IH]; cbn [trimStop]; [tauto|].
  destruct (RuneSelf <=? nat_of_ascii b)%nat.
  - intros Hc. apply (partOf_bytes _ TrimRightFunc_part) in Hc. now apply In_reverse.
  - destruct (asciiSpace b).
    + intros Hc. cbn [bytes list_ascii_of_string In]. right. now apply IH.
    + intros Hc. now apply In_reverse.
Qed.

Lemma TrimSpace_bytes (s : string) (c : ascii) :
  In c (bytes (TrimSpace TrimFunc_IsSpace TrimRightFunc_IsSpace s)) -> In c (bytes s).
Proof.
  induction s as [|b rest IH]; cbn [TrimSpace].
  - intros Hc. apply trimStop_bytes in Hc. exact Hc.
  - destruct (RuneSelf <=? nat_of_ascii b)%nat.
    + apply (partOf_bytes _ TrimFunc_part).
    + destruct (asciiSpace b).
      * intros Hc. cbn [bytes list_ascii_of_string In]. right. now apply IH.
      * intros Hc. apply trimStop_bytes in Hc. now apply In_reverse.
Qed.

End TrimSpace.

Lemma slice_to_bytes (n : nat) :
  forall (s : string) (c : ascii), In c (bytes (slice_to n s)) -> In c (bytes s).
Proof.
  induction n as [|n IH]; intros [|b s] c; cbn [slice_to bytes list_ascii_of_string In];
    try tauto.
  intros [->|Hc]; [now left|right]. now apply IH.
Qed.

Lemma slice_to_length (n : nat) :
  forall s : string, (String.length (slice_to n s) <= n)%nat.
Proof.
  induction n as [|n IH]; intros [|b s]; cbn [slice_to String.length]; try lia.
  specialize (IH s). lia.
Qed.

End GoStringsFacts.

Module SanitizeFacts.
Import Go GoStrings Download DownloadObs GoStringsFacts.

Section Sanitize.
Variable betweenRunes : string -> string -> string.
Variable TrimFunc_IsSpace : string -> string.
Variable TrimRightFunc_IsSpace : string -> string.
Hypothesis TrimFunc_part : partOf TrimFunc_IsSpace.
Hypothesis TrimRightFunc_part : partOf TrimRightFunc_IsSpace.

Local Abbreviation sanitizeFilename :=
  (sanitizeFilename betweenRunes TrimFunc_IsSpace TrimRightFunc_IsSpace).

Lemma replace_loop (olds : list ascii) :
  forall name : string,
    fold_left (fun result char => ReplaceAll betweenRunes result char "_")
              ((fun c => String c "") <$> olds) name
    = fold_left (fun result old => mapBytes (substitute old) result) olds name.
Proof.
  induction olds as [|old olds IH]; intros name; cbn [fmap list_fmap fold_left];
    [reflexivity|].
  now rewrite ReplaceAll_byte, IH.
Qed.

Lemma invalid_bytes (c : ascii) : In (String c "") invalid <-> In c invalidBytes.
Proof.
  change invalid with ((fun c => String c "") <$> invalidBytes).
  rewrite <- !list_elem_of_In, list_elem_of_fmap. split.
  - intros (x & [= ->] & Hx). exact Hx.
  - intros Hc. eauto.
Qed.

(** X13: [sanitizeFilename] returns, for every name, a string of at most
    200 bytes that holds none of the nine bytes it replaces: slash,
    backslash, colon, asterisk, question mark, double quote, less-than,
    greater-than and vertical bar.  The trimming and the cut to 200 bytes
    that follow the replacement bring none of them back. *)
Theorem sanitize_clean : sanitized sanitizeFilename.
Proof.
  intros name. unfold Download.sanitizeFilename. cbv zeta.
  change invalid with ((fun c => String c "") <$> invalidBytes).
  rewrite replace_loop.
  set (replaced := fold_left _ invalidBytes name).
  set (trimmed := TrimSpace TrimFunc_IsSpace TrimRightFunc_IsSpace replaced).
  assert (Hclean : clean trimmed).
  { intros c Hc Hin. apply invalid_bytes in Hin.
    apply (TrimSpace_bytes _ _ TrimFunc_part TrimRightFunc_part) in Hc.
    apply replaced_bytes in Hc.
    - now destruct Hc as [Hout _].
    - cbn. intuition discriminate. }
  unfold Go.len. destruct (Z.gtb_spec (Z.of_nat (String.length trimmed)) 200) as [Hlong|Hshort].
  - split; [|apply slice_to_length].
    intros c Hc. apply slice_to_bytes in Hc. now apply Hclean.
  - split; [exact Hclean|lia].
Qed.

End Sanitize.

Lemma asIs_part : partOf asIs.
Proof.
  intros s. exists "", "". unfold asIs. change ("" +:+ s +:+ "") with (s +:+ "").
  induction s as [|c s IH]; [reflexivity|].
  change (String c s +:+ "") with (String c (s +:+ "")). now rewrite <- IH.
Qed.

Lemma sanitize_clean_witness :
  sanitized (Download.sanitizeFilename (fun s _ => s) asIs asIs).
Proof. exact (sanitize_clean (fun s _ => s) asIs asIs asIs_part asIs_part). Defined.

End SanitizeFacts.

Module DownloadFacts.
Import Go GoStrings Download DownloadObs GoStringsFacts.

Ltac step :=
  cbn [Prog.run Prog.bind Prog.call fst snd negb andb orb
       GetAnimeName os_ExpandEnv os_Stat os_Remove os_Create CurdOut Println
       exec_LookPath getVideoDuration getFileSize client_Head http_NewRequest client_Do
       estimateM3U8Size cmd_StdoutPipe cmd_Start cmd_Wait
       parseFFmpegProgress http_Get io_Copy getVideoInfo].
Ltac answer h :=
  match goal with
  | |- context [h ?X ?e ?s] =>
      is_var s;
      let r := fresh "r" in
      let s' := fresh "s" in
      destruct (h X e s) as [r s'];
      repeat match goal with p : (_ * _)%type |- _ => destruct p end
  end.
(** The test a program waits for, however deep under its continuations. *)
Ltac awaited p :=
  lazymatch p with
  | Prog.bind ?q _ => awaited q
  | match ?x with _ => _ end => destruct x eqn:?
  end.
Ltac branch :=
  match goal with
  | |- context [Prog.run _ ?p _] => awaited p
  end.
Ltac execute h := step; repeat (first [answer h | branch]; step).
Ltac observe :=
  cbv [touched touchedBy fetched fetchedBy followed followedBy console outLine
       steps stepOf removals removalOf
       copies copyOf answers answerOf started startedBy waits waitOf
       lengths lengthOf estimates estimateOf probes probeOf
       askedName askedDirectory nameOf directoryOf ffmpegCommand
       head last omap list_omap fmap list_fmap fst snd default from_option id
       lookup list_lookup existsb isDownload isStream isFetch isRemoving sinceDownload
       orb andb negb] in *.

(** The bytes of a decimal numeral are digits, after a sign at most. *)
Lemma string_of_uint_bytes (d : Decimal.uint) (c : ascii) :
  In c (bytes (NilEmpty.string_of_uint d)) -> numeric c.
Proof.
  induction d; cbn [NilEmpty.string_of_uint bytes list_ascii_of_string In];
    try tauto; (intros [<-|Hc]; [right; vm_compute; lia|now apply IHd]).
Qed.

Lemma Itoa_bytes (n : Z) (c : ascii) : In c (bytes (Itoa n)) -> numeric c.
Proof.
  destruct n as [|p|p].
  - cbn. intros [<-|[]]. right. vm_compute. lia.
  - rewrite GoFacts.Itoa_pos. apply string_of_uint_bytes.
  - rewrite GoFacts.Itoa_neg. cbn [bytes list_ascii_of_string In].
    intros [<-|Hc]; [now left|now apply string_of_uint_bytes in Hc].
Qed.

Lemma numeric_valid (c : ascii) : numeric c -> ~ In c invalidBytes.
Proof.
  intros [->|Hdigit] Hin; cbn in Hin.
  - intuition discriminate.
  - repeat (destruct Hin as [<-|Hin]; [vm_compute in Hdigit; lia|]). exact Hin.
Qed.

Lemma episodeFile_clean (sanitizeFilename : string -> string) (name : string) (epNumber : Z) :
  sanitized sanitizeFilename -> clean (episodeFile sanitizeFilename name epNumber).
Proof.
  intros Hsan c Hc. unfold episodeFile in Hc. rewrite !bytes_append in Hc.
  apply in_app_or in Hc. destruct Hc as [Hc|Hc]; [now apply (proj1 (Hsan name))|].
  apply in_app_or in Hc. destruct Hc as [Hc|Hc].
  { rewrite SanitizeFacts.invalid_bytes. cbn in Hc. cbn. intuition (subst; discriminate). }
  apply in_app_or in Hc. destruct Hc as [Hc|Hc].
  { rewrite SanitizeFacts.invalid_bytes. apply numeric_valid. now apply Itoa_bytes in Hc. }
  rewrite SanitizeFacts.invalid_bytes. cbn in Hc. cbn. intuition (subst; discriminate).
Qed.

Lemma HasPrefix_Contains (s substr : string) :
  HasPrefix s substr = true -> Contains s substr = true.
Proof. destruct s; cbn [Contains]; intros ->; reflexivity. Qed.

Lemma Contains_tail (s : string) (c : ascii) (substr : string) :
  Contains s (String c substr) = true -> Contains s substr = true.
Proof.
  induction s as [|b s IH]; cbn [Contains HasPrefix]; [discriminate|].
  intros H. apply orb_true_iff in H. destruct H as [H|H].
  - apply andb_true_iff in H. destruct H as [_ H].
    apply HasPrefix_Contains in H. rewrite H. now rewrite orb_true_r.
  - rewrite (IH H). now rewrite orb_true_r.
Qed.

Lemma m3u8_test (url : string) :
  Contains url ".m3u8" || Contains url "m3u8" = Contains url "m3u8".
Proof.
  destruct (Contains url ".m3u8") eqn:Hdot; [|reflexivity].
  apply Contains_tail in Hdot. now rewrite Hdot.
Qed.

Section Episode.
Variable betweenRunes : string -> string -> string.
Variable TrimFunc_IsSpace : string -> string.
Variable TrimRightFunc_IsSpace : string -> string.
Variable filepath_Join : string -> string -> string.
Variable DownloadPath : CurdConfig -> string.

Local Abbreviation sanitizeFilename :=
  (sanitizeFilename betweenRunes TrimFunc_IsSpace TrimRightFunc_IsSpace).
Local Abbreviation DownloadEpisode :=
  (DownloadEpisode betweenRunes TrimFunc_IsSpace TrimRightFunc_IsSpace filepath_Join
                   DownloadPath).

Hypothesis TrimFunc_part : partOf TrimFunc_IsSpace.
Hypothesis TrimRightFunc_part : partOf TrimRightFunc_IsSpace.

(** X14: the file of a download.  Every file [DownloadEpisode] names to
    the operating system (to [os.Stat], [os.Remove], [os.Create], and as the
    output of ffmpeg) is [filepath.Join] of the expanded download path and
    the one file name [<sanitized title>_EP_<episode>.mp4]; that name holds
    no slash, no backslash and none of the other bytes [sanitizeFilename]
    replaces, whatever title [GetAnimeName] returned. *)
Theorem download_destination (anime : Anime) (config : CurdConfig) :
  keepsToDirectory sanitizeFilename filepath_Join (Ep_Number anime)
                   (DownloadEpisode anime config).
Proof.
  intros S h s. cbv zeta. split.
  { apply episodeFile_clean.
    exact (SanitizeFacts.sanitize_clean betweenRunes TrimFunc_IsSpace TrimRightFunc_IsSpace
             TrimFunc_part TrimRightFunc_part). }
  unfold Prog.trace, Download.DownloadEpisode.
  execute h.
  all: unfold downloadWithFFmpeg, downloadFile in *.
  all: execute h.
  all: observe.
  all: repeat constructor.
Qed.

End Episode.

Lemma download_destination_witness :
  keepsToDirectory (Download.sanitizeFilename (fun s _ => s) asIs asIs) joinSlash 3
    (Download.DownloadEpisode (fun s _ => s) asIs asIs joinSlash inDownloads
       (sampleAnime ["https://cdn.example/ep3/master.m3u8"]) TrackingObs.dualOff).
Proof.
  exact (download_destination (fun s _ => s) asIs asIs joinSlash inDownloads
           SanitizeFacts.asIs_part SanitizeFacts.asIs_part
           (sampleAnime ["https://cdn.example/ep3/master.m3u8"]) TrackingObs.dualOff).
Defined.

Section Route.
Variable betweenRunes : string -> string -> string.
Variable TrimFunc_IsSpace : string -> string.
Variable TrimRightFunc_IsSpace : string -> string.
Variable filepath_Join : string -> string -> string.
Variable DownloadPath : CurdConfig -> string.

Local Abbreviation sanitizeFilename :=
  (sanitizeFilename betweenRunes TrimFunc_IsSpace TrimRightFunc_IsSpace).
Local Abbreviation DownloadEpisode :=
  (DownloadEpisode betweenRunes TrimFunc_IsSpace TrimRightFunc_IsSpace filepath_Join
                   DownloadPath).

(** X15: which downloader, for which link.  Without a link
    [DownloadEpisode] returns ["no download links available for this
    episode"] after asking for the title and doing nothing else.  With
    links it works on the first one only: the address it runs [ffprobe] on,
    the addresses of the [HEAD] and [GET] requests of [getFileSize], the
    playlist it starts [estimateM3U8Size] on, the input of ffmpeg and the
    address of [http.Get] are all the first link, and no other link is ever
    tried, not even after a failure.  (Where [ffprobe], ffmpeg and
    [estimateM3U8Size] go from a playlist at that address is not part of
    the statement.)  The run goes through ffmpeg only when the first link
    contains ["m3u8"], and through [os.Create] and [http.Get] only when it
    does not. *)
Theorem download_route (anime : Anime) (config : CurdConfig) :
  routed filepath_Join (Ep_Links anime) (DownloadEpisode anime config).
Proof.
  intros S h s. cbv zeta. unfold Prog.trace, Prog.result, Download.DownloadEpisode.
  destruct (Ep_Links anime) as [|videoURL others].
  { execute h. observe. split; reflexivity. }
  rewrite m3u8_test.
  destruct (Contains videoURL "m3u8") eqn:Hm3u8.
  all: execute h.
  all: unfold downloadWithFFmpeg, downloadFile in *.
  all: execute h.
  all: observe.
  all: (split; [repeat constructor|]).
  all: (split; [repeat constructor|]).
  all: split; intros Hstep; first [reflexivity | discriminate Hstep].
Qed.

(** X16: how a download ends.  [DownloadEpisode] returns no error exactly
    when the last line it printed is ["✓ Download complete: <file>"].  It
    removes a file at most once, the existing destination, and before any
    download step: when that removal fails it returns ["failed to remove
    existing file: <error>"] without starting a download, otherwise (given a
    link) it does start one; after a download step it never removes
    anything, so a failed download leaves whatever was written. *)
Theorem download_outcome (anime : Anime) (config : CurdConfig) :
  concluded sanitizeFilename (Ep_Number anime) (Ep_Links anime)
            (DownloadEpisode anime config).
Proof.
  intros S h s. cbv zeta. unfold Prog.trace, Prog.result, Download.DownloadEpisode.
  destruct (Ep_Links anime) as [|videoURL others].
  { execute h. observe. split; [split; discriminate|]. split; [congruence|reflexivity]. }
  execute h.
  all: unfold downloadWithFFmpeg, downloadFile in *.
  all: execute h.
  all: observe; unfold episodeFile.
  all: (split; [split; intros Hend;
                  first [ reflexivity
                        | discriminate Hend
                        | cbn [append] in Hend; discriminate Hend ]|]).
  all: (split; [first [ intros _; reflexivity | split; reflexivity ]|reflexivity]).
Qed.

End Route.

(** X17: a direct download.  [downloadFile] begins by creating the
    destination, before it contacts the server, and names no other file; it
    fetches the given address only and copies the body only after a
    response with status 200; it returns no error exactly when that copy
    ended without one.  It never removes anything: the file created stays
    when the request fails, when the status is not 200 and when the copy
    breaks off. *)
Theorem direct_download (filepath url : string) :
  fileFetched filepath url (downloadFile filepath url).
Proof.
  intros S h s. cbv zeta. unfold Prog.trace, Prog.result, downloadFile.
  execute h.
  all: repeat match goal with
       | H : negb _ = false |- _ => apply negb_false_iff, Z.eqb_eq in H
       | H : negb _ = true |- _ => apply negb_true_iff in H
       end.
  all: observe.
  all: (split; [split; reflexivity|]).
  all: (split; [reflexivity|]).
  all: (split; [repeat constructor|]).
  all: (split; [reflexivity|]).
  all: split;
    [ intros Hcopy; try (exfalso; now apply Hcopy);
      match goal with
      | H : StatusCode _ = StatusOK |- _ => cbn [StatusCode] in H; now rewrite H
      end
    | split; intros Hend;
        first [reflexivity | discriminate Hend | now rewrite Hend | now injection Hend] ].
Qed.

(** X18: a download through ffmpeg.  [downloadWithFFmpeg] first looks for
    ["ffmpeg"] on the path; when it is not there the function returns
    ["ffmpeg not found. Please install ffmpeg to download streaming videos"]
    and does nothing else.  Otherwise every command it starts is [ffmpeg -i
    <url> -c copy -bsf:a aac_adtstoasc -progress pipe:1 -loglevel error
    -nostats -y <output>]; the probes of [getVideoInfo] are started on that
    address ([ffprobe], the [HEAD] and [GET] requests of [getFileSize]) and
    name no other; [estimateM3U8Size] is started at most once, on that
    address, and only when it contains [".m3u8"] (where it goes from there
    is not part of the statement); and the function returns no error
    exactly when the command ended without one: a probe that fails does not
    fail the download. *)
Theorem stream_download (outputPath url : string) :
  streamed outputPath url (downloadWithFFmpeg outputPath url).
Proof.
  intros S h s. cbv zeta. unfold Prog.trace, Prog.result, downloadWithFFmpeg.
  execute h; cbv [lookups lookupOf omap list_omap]; observe.
  all: try (split; reflexivity).
  all: (split; [repeat constructor|]).
  all: (split; [repeat constructor|]).
  all: (split; [first [left; reflexivity | right; split; reflexivity]|]).
  all: split; intros Hend; first [reflexivity | discriminate Hend | congruence].
Qed.

(** X26: the size probe.  [getFileSize] asks the address given with
    [HEAD] and, only after a [HEAD] that failed, with a [GET] for the first
    byte ([Range: bytes=0-0]); it names no other address.  A positive
    [Content-Length] of the response is the size.  Without one it starts
    [estimateM3U8Size] on the address when that contains [".m3u8"], and
    returns what comes back; otherwise it returns ["could not determine
    file size"].  When neither request was answered it returns an error and
    the size 0. *)
Theorem file_size (url : string) : sized url (getFileSize url).
Proof.
  intros S h s. cbv zeta. unfold Prog.trace, Prog.result, getFileSize.
  execute h; observe.
  all: (split; [repeat constructor|]).
  all: (split; [reflexivity|]).
  all: repeat match goal with H : _ = _ |- _ => rewrite H end.
  all: try (split; reflexivity).
  all: split; [reflexivity|split; [discriminate|reflexivity]].
Qed.

End DownloadFacts.

Module MALAuthFacts.
Import Go MALAuth MALAuthObs.

Ltac step :=
  cbn [Prog.run Prog.bind Prog.call fst snd negb
       os_ReadFile os_MkdirAll os_WriteFile time_Now isMALTokenValid].
Ltac answer h :=
  match goal with
  | |- context [h ?X ?e ?s] =>
      is_var s;
      let r := fresh "r" in
      let s' := fresh "s" in
      destruct (h X e s) as [r s'];
      repeat match goal with p : (_ * _)%type |- _ => destruct p end
  end.
Ltac branch :=
  match goal with
  | |- context [Prog.run _ (match ?x with _ => _ end) _] => destruct x eqn:?
  | |- context [Prog.run _ (Prog.bind (match ?x with _ => _ end) _) _] => destruct x eqn:?
  end.
Ltac execute h := step; repeat (first [answer h | branch]; step).
Ltac observe :=
  cbv [reads readOf clock instantOf made madeBy written writtenBy
       omap list_omap fmap list_fmap fst snd] in *.

Ltac facts :=
  repeat match goal with
  | H : negb _ = false |- _ => apply negb_false_iff in H
  | H : negb _ = true |- _ => apply negb_true_iff in H
  | H : (_ =? _)%string = true |- _ => apply String.eqb_eq in H
  | H : (_ =? _)%string = false |- _ => apply String.eqb_neq in H
  | H : Before _ _ = true |- _ => unfold Before in H; apply Z.ltb_lt in H
  | H : Before _ _ = false |- _ => unfold Before in H; apply Z.ltb_ge in H
  end.

Section Codec.
Variable Unmarshal : string -> MALToken * error.
Variable Marshal : option MALToken -> string * error.
Variable filepath_Dir : string -> string.

Ltac refute :=
  let data := fresh "data" in
  let token := fresh "token" in
  let now := fresh "now" in
  let Hread := fresh "Hread" in
  let Hdecode := fresh "Hdecode" in
  let Hclock := fresh "Hclock" in
  let Hfull := fresh "Hfull" in
  let Hlive := fresh "Hlive" in
  intros (data & token & now & Hread & Hdecode & Hclock & [Hfull Hlive] & _);
  try discriminate Hread; try discriminate Hclock;
  injection Hread as Hread; subst data;
  match goal with
  | H : Unmarshal _ = _ |- _ =>
      tryif constr_eq H Hdecode then fail else rewrite H in Hdecode
  end;
  try discriminate Hdecode; injection Hdecode as Hdecode; subst token;
  try (injection Hclock as Hclock; subst now);
  first [congruence | lia].

(** X19: [GetMALTokenFromFile] reads the file at the given path once and
    writes nothing.  It returns no error exactly when the file was read, its
    content decodes to a token whose access token is not empty, and the
    clock, read once, is strictly before the token's expiry; the access
    token is then the result.  With an error the result is the empty
    string.  A decoded token that is refused is reported as ["token has
    expired"], also when its access token is empty, in which case the clock
    is not read at all. *)
Theorem token_from_file (tokenPath : string) :
  tokenRead Unmarshal tokenPath (GetMALTokenFromFile Unmarshal tokenPath).
Proof.
  intros S h s. cbv zeta. unfold Prog.trace, Prog.result, GetMALTokenFromFile.
  execute h.
  all: facts.
  all: observe.
  all: (split; [reflexivity|]); (split; [reflexivity|]); (split; [reflexivity|]).
  all: split; [split; [first [discriminate | intros _]|refute || (intros _; reflexivity)]|].
  all: try (eexists _, _, _; repeat split; try reflexivity; eassumption).
  all: split; [first [ intros _; reflexivity | intros Hc; now contradiction Hc ]|].
  all: intros data token Hread Hdecode; try discriminate Hread;
       injection Hread as Hread; subst data.
  all: match goal with
       | H : Unmarshal _ = _ |- _ =>
           tryif constr_eq H Hdecode then fail else rewrite H in Hdecode
       end.
  all: try discriminate Hdecode; injection Hdecode as Hdecode; subst token.
  all: split; [intros Hempty|intros Herr]; first [reflexivity | congruence].
Qed.


End Codec.


End MALAuthFacts.

Module ProgBindFacts.
Import ProgObs.

(** A run of [p] followed by [k] is the run of [p], then the run of [k]
    from where [p] left the environment. *)
Lemma run_bind {E : Type -> Type} {S A B : Type} (h : Prog.env E S)
    (p : Prog.t E A) (k : A -> Prog.t E B) :
  forall s : S,
    Prog.run h (Prog.bind p k) s =
    ((Prog.run h (k (Prog.run h p s).1) (final h p s)).1,
     ((Prog.run h p s).2 ++ (Prog.run h (k (Prog.run h p s).1) (final h p s)).2)%list).
Proof.
  induction p as [a|X e k' IH]; intros s; cbn [Prog.bind Prog.run final fst snd app].
  - now destruct (Prog.run h (k a) s).
  - rewrite IH. reflexivity.
Qed.

End ProgBindFacts.

Module DownloadMenuFacts.
Import Go GoStrings DownloadMenu DownloadMenuObs.

Lemma sameShow_refl (a : Anime) : sameShow a a.
Proof. unfold sameShow. tauto. Qed.

Lemma sameShow_trans (a b c : Anime) : sameShow a b -> sameShow b c -> sameShow a c.
Proof. unfold sameShow. intuition congruence. Qed.

Lemma sameShow_setEp_Number (a : Anime) (n : Z) : sameShow (setEp_Number a n) a.
Proof. unfold sameShow. cbn. tauto. Qed.

Lemma sameShow_setEp_Links (a : Anime) (l : list string) : sameShow (setEp_Links a l) a.
Proof. unfold sameShow. cbn. tauto. Qed.

Lemma downloadable_sameShow (a b : Anime) (r : string * Z * (list string * error)) :
  sameShow a b -> downloadable a r = downloadable b r.
Proof.
  intros (H1 & H2 & H3 & H4 & H5 & H6 & H7).
  destruct r as [[id ep] [links [err|]]]; [reflexivity|].
  destruct links as [|l links]; [reflexivity|].
  unfold downloadable, setEp_Links, setEp_Number. cbn. now rewrite H1, H2, H3, H4, H5, H6, H7.
Qed.

Lemma omap_pointwise {A B : Type} (f g : A -> option B) (l : list A) :
  (forall x, f x = g x) -> omap f l = omap g l.
Proof.
  intros Hfg. induction l as [|x l IH]; cbn [omap list_omap]; [reflexivity|].
  now rewrite Hfg, IH.
Qed.

Lemma loopFacts_sameShow (a b : Anime) (picked : nat) (sc fc : Z)
    (rt : Anime * Z * Z * list (Prog.obs Callee)) :
  sameShow a b -> loopFacts a picked sc fc rt -> loopFacts b picked sc fc rt.
Proof.
  intros Hab (H1 & H2 & H3 & H4 & H5 & H6 & H7 & H8). unfold loopFacts.
  split; [now apply (sameShow_trans _ a)|].
  repeat (split; [assumption|]).
  pose proof Hab as (_ & _ & _ & _ & _ & Hid & _). split.
  - rewrite <- Hid. exact H7.
  - rewrite H8. apply omap_pointwise. intros r. now apply downloadable_sameShow.
Qed.

Ltac observe :=
  cbn [downloads downloadOf resolutions resolutionOf console outLine picks picksOf
       omap list_omap fst snd concat app].

(** Decide the tests on the first line of a console. *)
Ltac lines :=
  repeat match goal with
  | |- context [List.filter ?f (?line :: ?rest)] =>
      let b := eval cbv [isFailureReport isSummary succeededDownload snd HasPrefix
                         String.append newline Ascii.eqb Bool.eqb andb orb] in (f line) in
      match b with
      | true => change (List.filter f (line :: rest)) with (line :: List.filter f rest)
      | false => change (List.filter f (line :: rest)) with (List.filter f rest)
      end
  end.

Ltac close_loop IH :=
  unfold loopFacts in *; cbn [fst snd] in *;
  unfold console, downloads, resolutions, picks in *; observe;
  let H1 := fresh "H1" in
  let H2 := fresh "H2" in
  let H3 := fresh "H3" in
  let H4 := fresh "H4" in
  let H5 := fresh "H5" in
  let H6 := fresh "H6" in
  let H7 := fresh "H7" in
  let H8 := fresh "H8" in
  destruct IH as (H1 & H2 & H3 & H4 & H5 & H6 & H7 & H8);
  lines; cbn [length downloadable fmap list_fmap fst snd];
  split; [exact H1|];
  split; [lia|]; split; [lia|]; split; [lia|];
  split; [exact H5|]; split; [exact H6|];
  split;
    [ first [ exact H7 | constructor; [cbn [fst snd]; split; [reflexivity|lia]|exact H7] ]
    | first [ exact H8 | f_equal; exact H8 ] ].

Section Menu.
Variable Sscanf_d : string -> option Z.

Local Abbreviation downloadSelected := (downloadSelected Sscanf_d).

Lemma downloadSelected_facts (config : CurdConfig) (validEpisodes : list SelectionOption) :
  forall (anime : Anime) (i total successCount failCount : Z)
         (S : Type) (h : Prog.env Callee S) (s : S),
    loopFacts anime (length validEpisodes) successCount failCount
      (Prog.run h (downloadSelected anime config validEpisodes i total
                                    successCount failCount) s).
Proof.
  induction validEpisodes as [|selected rest IH];
    intros anime i total sc fc S h s.
  { cbn [DownloadMenu.downloadSelected Prog.run]. unfold loopFacts. cbn.
    repeat split; try reflexivity; try lia. constructor. }
  cbn [DownloadMenu.downloadSelected].
  destruct (Z.leb_spec (default 0 (Sscanf_d (Key selected))) 0) as [Hbad|Hgood].
  { cbn [Prog.bind Prog.run CurdOut Prog.call fst snd].
    destruct (h _ (OutLine ("Invalid episode selection: " +:+ Key selected)) s) as [[] s1].
    cbn [fst snd].
    specialize (IH anime (i + 1) total sc (fc + 1) S h s1).
    destruct (Prog.run h (downloadSelected anime config rest (i + 1) total sc (fc + 1)) s1)
      as [[[a' sc'] fc'] tr].
    close_loop IH. }
  cbn [Prog.bind Prog.run CurdOut GetEpisodeURL Prog.call fst snd].
  match goal with |- context [h unit ?e s] => destruct (h unit e s) as [[] s1] end.
  cbn [fst snd].
  set (anime1 := setEp_Number anime (default 0 (Sscanf_d (Key selected)))).
  match goal with
  | |- context [h _ (EpisodeURL ?c ?id ?ep) s1] =>
      destruct (h _ (EpisodeURL c id ep) s1) as [[links [err|]] s2] eqn:Hurl
  end; cbn [fst snd].
  { cbn [Prog.bind Prog.run CurdOut Prog.call fst snd].
    match goal with |- context [h unit ?e s2] => destruct (h unit e s2) as [[] s3] end.
    cbn [fst snd].
    specialize (IH anime1 (i + 1) total sc (fc + 1) S h s3).
    apply (loopFacts_sameShow anime1 anime) in IH; [|apply sameShow_setEp_Number].
    destruct (Prog.run h (downloadSelected anime1 config rest (i + 1) total sc (fc + 1)) s3)
      as [[[a' sc'] fc'] tr].
    close_loop IH. }
  destruct links as [|link links]; unfold lenSlice; cbn [length];
    [change (Z.of_nat 0 =? 0) with true
    |change (Z.of_nat (Datatypes.S (length links)) =? 0) with false]; cbv iota.
  { cbn [Prog.bind Prog.run CurdOut Prog.call fst snd].
    match goal with |- context [h unit ?e s2] => destruct (h unit e s2) as [[] s3] end.
    cbn [fst snd].
    specialize (IH anime1 (i + 1) total sc (fc + 1) S h s3).
    apply (loopFacts_sameShow anime1 anime) in IH; [|apply sameShow_setEp_Number].
    destruct (Prog.run h (downloadSelected anime1 config rest (i + 1) total sc (fc + 1)) s3)
      as [[[a' sc'] fc'] tr].
    close_loop IH. }
  cbn [Prog.bind Prog.run DownloadEpisode CurdOut Prog.call fst snd].
  set (anime2 := setEp_Links anime1 (link :: links)).
  destruct (h _ (Download anime2 config) s2) as [[err|] s3] eqn:Hdl; cbn [fst snd].
  { cbn [Prog.bind Prog.run CurdOut Prog.call fst snd].
    match goal with |- context [h unit ?e s3] => destruct (h unit e s3) as [[] s4] end.
    cbn [fst snd].
    specialize (IH anime2 (i + 1) total sc (fc + 1) S h s4).
    apply (loopFacts_sameShow anime2 anime) in IH;
      [|apply (sameShow_trans _ anime1);
        [apply sameShow_setEp_Links|apply sameShow_setEp_Number]].
    destruct (Prog.run h (downloadSelected anime2 config rest (i + 1) total sc (fc + 1)) s4)
      as [[[a' sc'] fc'] tr].
    close_loop IH. }
  specialize (IH anime2 (i + 1) total (sc + 1) fc S h s3).
  apply (loopFacts_sameShow anime2 anime) in IH;
    [|apply (sameShow_trans _ anime1);
      [apply sameShow_setEp_Links|apply sameShow_setEp_Number]].
  destruct (Prog.run h (downloadSelected anime2 config rest (i + 1) total (sc + 1) fc) s3)
    as [[[a' sc'] fc'] tr].
  close_loop IH.
Qed.

Lemma valid_filter (selectedEpisodes : list SelectionOption) :
  forall acc : list SelectionOption,
    fold_left
      (fun validEpisodes ep =>
         if negb (Key ep =? "back")%string && negb (Key ep =? "-1")%string
         then app validEpisodes [ep] else validEpisodes)
      selectedEpisodes acc
    = app acc (List.filter isPick selectedEpisodes).
Proof.
  induction selectedEpisodes as [|ep l IH]; intros acc; cbn [fold_left List.filter].
  - now rewrite app_nil_r.
  - rewrite IH. unfold isPick at 2.
    destruct (negb (Key ep =? "back")%string && negb (Key ep =? "-1")%string);
      [now rewrite <- app_assoc|reflexivity].
Qed.

Lemma roundFacts_quiet (anime : Anime) (tr : list (Prog.obs Callee)) :
  resolutions tr = [] -> downloads tr = [] -> picks tr = [] ->
  List.filter isSummary (console tr) = [] ->
  List.filter isFailureReport (console tr) = [] ->
  roundFacts anime tr.
Proof.
  intros Hr Hd Hp Hs Hf. unfold roundFacts. rewrite Hr, Hd, Hp, Hs, Hf.
  split; [split; [constructor|reflexivity]|]. exists []. cbn. auto.
Qed.

Lemma summaryLine_tests (tally : Z * Z) :
  isSummary (summaryLine tally) = true /\ isFailureReport (summaryLine tally) = false.
Proof.
  unfold summaryLine.
  cbv [isFailureReport isSummary HasPrefix String.append newline Ascii.eqb Bool.eqb
       andb orb]. split; reflexivity.
Qed.

Lemma total_cons (x : Z) (l : list Z) : total (x :: l) = x + total l.
Proof. reflexivity. Qed.

Lemma roundFacts_compose (anime0 : Anime) (options : list SelectionOption)
    (selected : list SelectionOption) (trLoop : list (Prog.obs Callee)) (sc fc : Z)
    (options' : list SelectionOption) (reply : SelectionOption * error)
    (trRest : list (Prog.obs Callee)) :
  sc = Z.of_nat (length (List.filter succeededDownload (downloads trLoop))) ->
  fc = Z.of_nat (length (List.filter isFailureReport (console trLoop))) ->
  sc + fc = Z.of_nat (length (List.filter isPick selected)) ->
  List.filter isSummary (console trLoop) = [] ->
  picks trLoop = [] ->
  Forall (fun r => r.1.1 = AllanimeId anime0 /\ 0 < r.1.2) (resolutions trLoop) ->
  fst <$> downloads trLoop = omap (downloadable anime0) (resolutions trLoop) ->
  roundFacts anime0 trRest ->
  roundFacts anime0
    (Prog.Obs (MultiSelect options) (selected, None) ::
     (trLoop ++ Prog.Obs (OutLine (summaryLine (sc, fc))) tt ::
                Prog.Obs (Select options') reply :: trRest)%list).
Proof.
  intros Hsc Hfc Hsum Hnone Hpicks Hres Hdl [[HresR HdlR] (tallies & Ht1 & Ht2 & Ht3 & Ht4)].
  unfold roundFacts, resolutions, downloads, console, picks in *.
  cbn [omap list_omap resolutionOf downloadOf outLine picksOf concat].
  rewrite !omap_app. cbn [omap list_omap resolutionOf downloadOf outLine picksOf].
  split; [split|].
  - apply Forall_app. split; assumption.
  - rewrite fmap_app, Hdl, HdlR. reflexivity.
  - exists ((sc, fc) :: tallies).
    rewrite !List.filter_app. cbn [List.filter].
    destruct (summaryLine_tests (sc, fc)) as [-> ->].
    rewrite Hnone, !length_app, concat_app, length_app. cbn [app fmap list_fmap fst snd].
    rewrite Ht1, !total_cons.
    unfold picks in Hpicks. rewrite Hpicks in *. cbn [length] in *.
    repeat split; try reflexivity; lia.
Qed.

Local Abbreviation downloadEpisodeSelection := (downloadEpisodeSelection Sscanf_d).

Lemma downloadEpisodeSelection_facts (config : CurdConfig) (anime0 : Anime) (fuel : nat) :
  forall (anime : Anime), sameShow anime anime0 ->
  forall (S : Type) (h : Prog.env Callee S) (s : S),
    roundFacts anime0 (Prog.trace h (downloadEpisodeSelection fuel anime config) s).
Proof.
  induction fuel as [|fuel IH]; intros anime Hsame S h s; unfold Prog.trace.
  { cbn [DownloadMenu.downloadEpisodeSelection Prog.run snd].
    apply roundFacts_quiet; reflexivity. }
  cbn [DownloadMenu.downloadEpisodeSelection].
  destruct (TotalEpisodes anime =? 0).
  { cbn [Prog.bind Prog.run CurdOut Prog.call fst snd].
    match goal with |- context [h unit ?e s] => destruct (h unit e s) as [[] s1] end.
    cbn [fst snd]. apply roundFacts_quiet; reflexivity. }
  cbn [Prog.bind Prog.run DynamicMultiSelect Prog.call fst snd].
  match goal with
  | |- context [h _ (MultiSelect ?o) s] =>
      destruct (h _ (MultiSelect o) s) as [[selected [err|]] s1]
  end; cbn [fst snd].
  { cbn [Prog.bind Prog.run CurdOut Prog.call fst snd].
    match goal with |- context [h unit ?e s1] => destruct (h unit e s1) as [[] s2] end.
    cbn [fst snd]. apply roundFacts_quiet; reflexivity. }
  destruct selected as [|first others]; unfold lenSlice at 1; cbn [length];
    [change (Z.of_nat 0 =? 0) with true
    |change (Z.of_nat (Datatypes.S (length others)) =? 0) with false]; cbv iota.
  { cbn [Prog.run snd]. apply roundFacts_quiet; reflexivity. }
  rewrite valid_filter. cbn [app].
  set (valid := List.filter isPick (first :: others)).
  destruct valid as [|pick valid'] eqn:Hvalid; unfold lenSlice at 1; cbn [length];
    [change (Z.of_nat 0 =? 0) with true
    |change (Z.of_nat (Datatypes.S (length valid')) =? 0) with false]; cbv iota.
  { cbn [Prog.run snd]. apply roundFacts_quiet; try reflexivity.
    unfold picks. cbn [omap list_omap picksOf concat]. fold valid. rewrite Hvalid.
    reflexivity. }
  rewrite ProgBindFacts.run_bind. cbn [fst snd].
  pose proof (downloadSelected_facts config (pick :: valid') anime 0
                (lenSlice (pick :: valid')) 0 0 S h s1) as Hloop.
  set (loop := downloadSelected anime config (pick :: valid') 0
                 (lenSlice (pick :: valid')) 0 0) in *.
  destruct (Prog.run h loop s1) as [[[anime' sc] fc] trLoop].
  cbn [fst snd] in *.
  set (s2 := ProgObs.final h loop s1). clearbody s2.
  apply (loopFacts_sameShow anime anime0) in Hloop; [|exact Hsame].
  destruct Hloop as (H1 & H2 & H3 & H4 & H5 & H6 & H7 & H8). cbn [fst snd] in *.
  cbn [Prog.bind Prog.run CurdOut DynamicSelect Prog.call fst snd].
  match goal with |- context [h unit ?e s2] => destruct (h unit e s2) as [[] s3] end.
  cbn [fst snd].
  match goal with
  | |- context [h _ (Select ?o) s3] =>
      destruct (h _ (Select o) s3) as [[choice [err|]] s4]
  end; cbn [fst snd].
  - change (newline +:+ "✓ Download complete! Success: " +:+ Itoa sc +:+
            ", Failed: " +:+ Itoa fc) with (summaryLine (sc, fc)).
    cbn [Prog.run snd].
    apply roundFacts_compose; try assumption; try lia.
    + fold valid. rewrite Hvalid. cbn [length] in *. lia.
    + apply roundFacts_quiet; reflexivity.
  - change (newline +:+ "✓ Download complete! Success: " +:+ Itoa sc +:+
            ", Failed: " +:+ Itoa fc) with (summaryLine (sc, fc)).
    destruct ((Key choice =? "no")%string || (Key choice =? "-1")%string).
    + cbn [Prog.run snd].
      apply roundFacts_compose; try assumption; try lia.
      * fold valid. rewrite Hvalid. cbn [length] in *. lia.
      * apply roundFacts_quiet; reflexivity.
    + apply roundFacts_compose; try assumption; try lia.
      * fold valid. rewrite Hvalid. cbn [length] in *. lia.
      * apply (IH anime' (sameShow_trans _ _ _ H1 (sameShow_refl anime0))).
Qed.

(** X21: every download the episode menu starts is ready.  In every run
    of [downloadEpisodeSelection], through all its rounds, each call of
    [GetEpisodeURL] is for the show the menu was opened on and for an
    episode number above zero, and the calls of [DownloadEpisode] are, in
    order, exactly the answers of [GetEpisodeURL] that came without an error
    and with at least one link: each for the show with that episode number
    and those links.  So [DownloadEpisode] is never called without a link,
    and never for a key that does not scan to a positive number. *)
Theorem episode_downloads_resolved (fuel : nat) (anime : Anime) (config : CurdConfig) :
  downloadsResolved anime (downloadEpisodeSelection fuel anime config).
Proof.
  intros S h s.
  exact (proj1 (downloadEpisodeSelection_facts config anime fuel anime
                  (sameShow_refl anime) S h s)).
Qed.

(** X22: the summaries add up.  In every run of
    [downloadEpisodeSelection], the lines ["✓ Download complete! Success: a,
    Failed: b"] it prints, one per round that downloads, are such that the
    successes together are the calls of [DownloadEpisode] that returned no
    error, the failures together are the failure reports printed (invalid
    selection, links not resolved, no links, download failed), and both
    together are the episodes picked in the dialogs, the back button
    left out. *)
Theorem episode_tally (fuel : nat) (anime : Anime) (config : CurdConfig) :
  talliesAddUp (downloadEpisodeSelection fuel anime config).
Proof.
  intros S h s.
  exact (proj2 (downloadEpisodeSelection_facts config anime fuel anime
                  (sameShow_refl anime) S h s)).
Qed.

Variable AnimeNameLanguage : CurdConfig -> string.
Variable SubOrDub : CurdConfig -> string.
Variable MediaTitle : Media -> AnimeTitle.

Local Abbreviation entryOption := (entryOption AnimeNameLanguage MediaTitle).
Local Abbreviation addEntries := (addEntries AnimeNameLanguage MediaTitle).

Lemma addEntries_options (config : CurdConfig) (category : list Entry) :
  forall filled,
    (addEntries config category filled).1 =
    app filled.1 (entryOption config <$> category).
Proof.
  induction category as [|entry rest IH]; intros [options preview];
    cbn [DownloadMenu.addEntries fold_left fmap list_fmap fst].
  - now rewrite app_nil_r.
  - unfold DownloadMenu.addEntries in IH. rewrite IH. cbn [fst].
    rewrite <- app_assoc. reflexivity.
Qed.

Lemma findSelected_app (l1 l2 : list Entry) (selectedID : string) :
  findSelected (l1 ++ l2) selectedID =
  match findSelected l1 selectedID with
  | None => findSelected l2 selectedID
  | Some entry => Some entry
  end.
Proof.
  induction l1 as [|entry l1 IH]; cbn [app findSelected]; [reflexivity|].
  destruct (Itoa (ID (EntryMedia entry)) =? selectedID)%string; [reflexivity|exact IH].
Qed.

Lemma findSelected_found (l : list Entry) (entry : Entry) :
  In entry l ->
  exists found, findSelected l (Itoa (ID (EntryMedia entry))) = Some found /\
                ID (EntryMedia found) = ID (EntryMedia entry).
Proof.
  induction l as [|first l IH]; intros Hin; [destruct Hin|].
  cbn [findSelected].
  destruct (String.eqb_spec (Itoa (ID (EntryMedia first))) (Itoa (ID (EntryMedia entry))))
    as [Heq|Hne].
  - exists first. split; [reflexivity|]. now apply GoFacts.Itoa_inj.
  - destruct Hin as [->|Hin]; [congruence|]. now apply IH.
Qed.

Lemma findSelected_none (l : list Entry) (selectedID : string) :
  (forall entry, In entry l -> selectedID <> Itoa (ID (EntryMedia entry))) ->
  findSelected l selectedID = None.
Proof.
  induction l as [|first l IH]; intros Hnone; [reflexivity|].
  cbn [findSelected].
  destruct (String.eqb_spec (Itoa (ID (EntryMedia first))) selectedID) as [Heq|Hne].
  - exfalso. apply (Hnone first); [now left|congruence].
  - apply IH. intros entry Hin. apply Hnone. now right.
Qed.

Lemma find_chain (user : User) (selectedID : string) :
  (let animeEntry := findSelected (Watching (User_AnimeList user)) selectedID in
   let animeEntry :=
     match animeEntry with
     | None => findSelected (Completed (User_AnimeList user)) selectedID
     | Some _ => animeEntry
     end in
   let animeEntry :=
     match animeEntry with
     | None => findSelected (Paused (User_AnimeList user)) selectedID
     | Some _ => animeEntry
     end in
   let animeEntry :=
     match animeEntry with
     | None => findSelected (Planning (User_AnimeList user)) selectedID
     | Some _ => animeEntry
     end in
   animeEntry) = findSelected (shown user) selectedID.
Proof.
  cbv zeta. unfold shown. rewrite !findSelected_app.
  destruct (findSelected (Watching (User_AnimeList user)) selectedID); [reflexivity|].
  destruct (findSelected (Completed (User_AnimeList user)) selectedID); [reflexivity|].
  destruct (findSelected (Paused (User_AnimeList user)) selectedID); reflexivity.
Qed.

Lemma menu_options (config : CurdConfig) (user : User) :
  (addEntries config (Planning (User_AnimeList user))
     (addEntries config (Paused (User_AnimeList user))
        (addEntries config (Completed (User_AnimeList user))
           (addEntries config (Watching (User_AnimeList user))
              (app [] [backOption], ∅))))).1
  = backOption :: (entryOption config <$> shown user).
Proof.
  rewrite !addEntries_options. cbn [fst app]. unfold shown.
  rewrite !fmap_app, <- !app_assoc. reflexivity.
Qed.

Local Abbreviation DownloadAnimeMenu :=
  (DownloadAnimeMenu Sscanf_d AnimeNameLanguage SubOrDub MediaTitle).

(** X23: picking a title in the download menu.  The first dialog of
    [DownloadAnimeMenu] shows the back button and then one option per entry
    of Watching, Completed, Paused and Planning, in that order, under the
    decimal text of its ID; the entries of Dropped and Rewatching are not
    shown.  When the dialog fails the menu logs the error and ends; on the
    back button (or the key ["-1"]) it ends at once.  When the key picked is
    the key of a shown entry, the menu goes on with that entry's ID: its next
    step is the lookup of that ID in the local database.  A key of no shown
    entry prints ["Error: Could not find selected anime"] and ends. *)
Theorem menu_selection (fuel : nat) (config : CurdConfig) (user : User)
    (databaseAnimes : list Anime) :
  selectionResolved AnimeNameLanguage MediaTitle config user databaseAnimes
    (DownloadAnimeMenu fuel config user databaseAnimes).
Proof.
  intros S h s. cbv zeta. unfold Prog.trace, DownloadMenu.DownloadAnimeMenu.
  pose proof (menu_options config user) as Hoptions.
  destruct (addEntries config (Planning (User_AnimeList user)) _) as [options preview].
  cbn [fst] in Hoptions. subst options.
  cbn [Prog.bind Prog.run DynamicSelect Prog.call fst snd].
  match goal with
  | |- context [h _ (Select ?o) s] =>
      destruct (h _ (Select o) s) as [[selected [err|]] s1]
  end; cbn [fst snd].
  - cbn [Prog.bind Prog.run Log Prog.call fst snd].
    match goal with |- context [h unit ?e s1] => destruct (h unit e s1) as [[] s2] end.
    cbn [fst snd choices choiceOf logged logLine omap list_omap head fmap option_fmap
         option_map length].
    split; [reflexivity|]. split.
    + intros sel e [= <- <-]. split; reflexivity.
    + intros sel [=].
  - pose proof (find_chain user (Key selected)) as Hchain. cbv zeta in Hchain.
    rewrite Hchain. clear Hchain.
    destruct (String.eqb_spec (Key selected) "back") as [Hback|Hback];
      [|destruct (String.eqb_spec (Key selected) "-1") as [Hminus|Hminus]];
      cbn [orb].
    + cbn [Prog.run snd choices choiceOf omap list_omap head fmap option_fmap option_map
           length].
      split; [reflexivity|]. split; [intros sel e [=]|].
      intros sel [= <-]. split; [reflexivity|]. intros Hnot. now contradiction Hnot.
    + cbn [Prog.run snd choices choiceOf omap list_omap head fmap option_fmap option_map
           length].
      split; [reflexivity|]. split; [intros sel e [=]|].
      intros sel [= <-]. split; [reflexivity|]. intros _ Hnot. now contradiction Hnot.
    + destruct (findSelected (shown user) (Key selected)) as [found|] eqn:Hfound.
      * cbn [Prog.bind Prog.run LocalFindAnime Prog.call fst snd setEp_Number AnilistId].
        cbn [choices choiceOf lookups lookupOf omap list_omap head fmap option_fmap
             option_map].
        split; [reflexivity|]. split; [intros sel e [=]|].
        intros sel [= <-]. split; [intros [?|?]; contradiction|].
        intros _ _. split.
        -- intros entry Hin Hkey.
           destruct (findSelected_found (shown user) entry Hin) as (found' & Hf & Hid).
           rewrite <- Hkey, Hfound in Hf. injection Hf as <-. now rewrite Hid.
        -- intros Hnone. rewrite (findSelected_none _ _ Hnone) in Hfound.
           discriminate Hfound.
      * cbn [Prog.bind Prog.run CurdOut Prog.call fst snd].
        match goal with |- context [h unit ?e s1] => destruct (h unit e s1) as [[] s2] end.
        cbn [fst snd choices choiceOf lookups lookupOf console outLine omap list_omap head
             fmap option_fmap option_map length].
        split; [reflexivity|]. split; [intros sel e [=]|].
        intros sel [= <-]. split; [intros [?|?]; contradiction|].
        intros _ _. split.
        -- intros entry Hin Hkey.
           destruct (findSelected_found (shown user) entry Hin) as (found' & Hf & Hid).
           rewrite <- Hkey, Hfound in Hf. discriminate Hf.
        -- intros _. split; reflexivity.
Qed.

End Menu.
End DownloadMenuFacts.

Module AnilistBridgeFacts.
Import Go AnilistBridge AnilistBridgeObs.

Section Decode.
Variable Value : Type.
Variable float64 : Type.
Variable asMap : Value -> option (gmap string Value).
Variable asFloat64 : Value -> option float64.
Variable int_of_float64 : float64 -> Z.
Variable MarshalQuery : Z -> string * error.
Variable Unmarshal : string -> gmap string Value * error.

Local Abbreviation ConvertMALIDToAnilist :=
  (ConvertMALIDToAnilist Value float64 asMap asFloat64 int_of_float64 MarshalQuery
                         Unmarshal).

Lemma lookupRequest_built (token requestBody : string) :
  (if negb (token =? "")%string
   then HeaderSet "Authorization" ("Bearer " +:+ token)
          (HeaderSet "Content-Type" "application/json"
             {| Method := "POST"; URL := "https://graphql.anilist.co"; Header := ∅;
                Body := requestBody |})
   else HeaderSet "Content-Type" "application/json"
          {| Method := "POST"; URL := "https://graphql.anilist.co"; Header := ∅;
             Body := requestBody |})
  = lookupRequest token requestBody.
Proof.
  unfold lookupRequest, HeaderSet. cbn [Method URL Header Body].
  destruct (token =? "")%string; reflexivity.
Qed.

(** X24: the lookup of an AniList ID.  [ConvertMALIDToAnilist] sends one
    request, a [POST] of the query to [https://graphql.anilist.co] with
    [Content-Type: application/json], and with an [Authorization] header
    only when the token is not empty (the conversion of
    [ConvertIDIfNeeded], which passes an empty token, goes out without
    one); when the query cannot be coded it sends nothing.  It returns an ID
    without an error exactly when the reply has status 200 and its body
    decodes to an object whose [data.Media] is an object with a numeric
    [id], and the ID is that number; with an error the ID is 0.  When
    [data.Media] is an object whose [id] is missing or not a number, the
    unchecked type assertion panics. *)
Theorem anilist_lookup (malID : Z) (token : string) :
  bridged Value float64 asMap asFloat64 Unmarshal int_of_float64 MarshalQuery malID token
          (ConvertMALIDToAnilist malID token).
Proof.
  intros S h s. cbv zeta. unfold Prog.trace, Prog.result, AnilistBridge.ConvertMALIDToAnilist.
  destruct (MarshalQuery malID) as [requestBody [err|]].
  { cbn [Prog.run fst snd]. split; reflexivity. }
  cbn [NewRequest]. rewrite lookupRequest_built.
  cbn [Prog.bind Prog.run client_Do Prog.call fst snd].
  destruct (h _ (ClientDo (lookupRequest token requestBody)) s) as [[resp [err|]] s1];
    cbn [fst snd requests requestOf replies replyOf omap list_omap fmap list_fmap mediaOf].
  { cbn [Prog.run fst snd]. split; [reflexivity|]. split; [reflexivity|].
    intros media [=]. }
  destruct (ReadAll resp) as [body [err|]].
  { cbn [Prog.run fst snd]. split; [reflexivity|]. split; [reflexivity|].
    intros media [=]. }
  destruct (StatusCode resp =? StatusOK); cbn [negb].
  2:{ cbn [Prog.run fst snd]. split; [reflexivity|]. split; [reflexivity|].
      intros media [=]. }
  destruct (Unmarshal body) as [responseData [err|]].
  { cbn [Prog.run fst snd]. split; [reflexivity|]. split; [reflexivity|].
    intros media [=]. }
  destruct (responseData !! "data" ≫= asMap) as [data|]; cbn [mbind option_bind].
  2:{ cbn [Prog.run fst snd]. split; [reflexivity|]. split; [reflexivity|].
      intros media [=]. }
  destruct (data !! "Media" ≫= asMap) as [media|].
  2:{ cbn [Prog.run fst snd]. split; [reflexivity|]. split; [reflexivity|].
      intros media [=]. }
  destruct (media !! "id" ≫= asFloat64) as [number|] eqn:Hid.
  - cbn [Prog.run fst snd]. split; [reflexivity|]. exists media, number. auto.
  - cbn [Prog.run fst snd]. split; [reflexivity|]. exists media. auto.
Qed.

End Decode.
End AnilistBridgeFacts.
